(** * MetricsLog: the telemetry report builder of chrome/browser/metrics

    A shallow embedding of [chrome/browser/metrics/metrics_log.cc].  The
    report builder writes every fact twice: into a legacy attribute tree
    (the XML log) and into a structured record (the UMA protobuf).  It
    reads its counters from the browser's local-state preference store and
    resets them as it goes.

    The embedding follows the C++ text function by function.  Code that
    the translation unit only calls (the preference store, the XML writer
    of the base class, the generated protobuf classes, the logging macros)
    is modelled in the first part of the file, each piece under a comment
    that says where it comes from. *)

From Stdlib Require Import ZArith String List Bool Lia.
From stdpp Require Import base option list gmap strings.
Import ListNotations.

Local Open Scope string_scope.
Local Open Scope Z_scope.
Local Set Warnings "-register-all".

(** ** Machine integers *)

(** [int] is 32 bits wide and [int64] 64 bits wide; a conversion or an
    addition that leaves the range wraps around (two's complement). *)
Definition wrap_int (z : Z) : Z := (z + 2 ^ 31) mod 2 ^ 32 - 2 ^ 31.
Definition wrap_int64 (z : Z) : Z := (z + 2 ^ 63) mod 2 ^ 64 - 2 ^ 63.
Definition wrap_uint64 (z : Z) : Z := z mod 2 ^ 64.

Definition in_int64 (z : Z) : Prop := - 2 ^ 63 <= z < 2 ^ 63.

(** ** base::Value *)

(** The value types of [base/values.h], as [Value::GetType] tells them
    apart.  A dictionary lists its entries in key order, the order in
    which [key_iterator] visits them.  A double is kept as its bit
    pattern: the report builder never computes with one. *)
Inductive Value : Type :=
| NullValue
| BooleanValue (b : bool)
| IntegerValue (i : Z)
| DoubleValue (bits : Z)
| StringValue (s : string)
| BinaryValue (bytes : list Z)
| DictionaryValue (entries : list (string * Value))
| ListValue (items : list Value).

Inductive ValueType : Type :=
| TYPE_NULL | TYPE_BOOLEAN | TYPE_INTEGER | TYPE_DOUBLE | TYPE_STRING
| TYPE_BINARY | TYPE_DICTIONARY | TYPE_LIST.

Definition GetType (v : Value) : ValueType :=
  match v with
  | NullValue => TYPE_NULL
  | BooleanValue _ => TYPE_BOOLEAN
  | IntegerValue _ => TYPE_INTEGER
  | DoubleValue _ => TYPE_DOUBLE
  | StringValue _ => TYPE_STRING
  | BinaryValue _ => TYPE_BINARY
  | DictionaryValue _ => TYPE_DICTIONARY
  | ListValue _ => TYPE_LIST
  end.

Definition GetAsString (v : Value) : option string :=
  match v with StringValue s => Some s | _ => None end.
Definition GetAsBoolean (v : Value) : option bool :=
  match v with BooleanValue b => Some b | _ => None end.
Definition GetAsInteger (v : Value) : option Z :=
  match v with IntegerValue i => Some i | _ => None end.

(** [DictionaryValue::GetWithoutPathExpansion]. *)
Fixpoint GetWithoutPathExpansion (key : string) (d : list (string * Value))
  : option Value :=
  match d with
  | [] => None
  | (k, v) :: rest =>
      if String.eqb k key then Some v else GetWithoutPathExpansion key rest
  end.

Definition GetDictionaryWithoutPathExpansion (key : string)
    (d : list (string * Value)) : option (list (string * Value)) :=
  match GetWithoutPathExpansion key d with
  | Some (DictionaryValue e) => Some e
  | _ => None
  end.

(** [DictionaryValue::GetString(key, &out)] and [GetInteger(key, &out)]
    leave [out] as it was when the key is missing or has another type;
    the keys used here contain no path separator. *)
Definition Dictionary_GetString (key : string) (d : list (string * Value))
    (out : string) : string :=
  match GetWithoutPathExpansion key d with
  | Some (StringValue s) => s
  | _ => out
  end.

Definition Dictionary_GetInteger (key : string) (d : list (string * Value))
    (out : Z) : Z :=
  match GetWithoutPathExpansion key d with
  | Some (IntegerValue i) => i
  | _ => out
  end.

(** ** Preference names *)

(** The constants of [chrome/common/pref_names.cc] that the report builder
    names.  The file only needs them to be pairwise distinct. *)
Module prefs.
Definition kMetricsClientIDTimestamp := "user_experience_metrics.client_id_timestamp".
Definition kUninstallMetricsUptimeSec := "uninstall_metrics.uptime_sec".
Definition kStabilityLaunchCount := "user_experience_metrics.stability.launch_count".
Definition kStabilityCrashCount := "user_experience_metrics.stability.crash_count".
Definition kStabilityIncompleteSessionEndCount :=
    "user_experience_metrics.stability.incomplete_session_end_count".
Definition kStabilityBreakpadRegistrationSuccess :=
    "user_experience_metrics.stability.breakpad_registration_ok".
Definition kStabilityBreakpadRegistrationFail :=
    "user_experience_metrics.stability.breakpad_registration_fail".
Definition kStabilityDebuggerPresent :=
    "user_experience_metrics.stability.debugger_present".
Definition kStabilityDebuggerNotPresent :=
    "user_experience_metrics.stability.debugger_not_present".
Definition kStabilityPageLoadCount :=
    "user_experience_metrics.stability.page_load_count".
Definition kStabilityRendererCrashCount :=
    "user_experience_metrics.stability.renderer_crash_count".
Definition kStabilityExtensionRendererCrashCount :=
    "user_experience_metrics.stability.extension_renderer_crash_count".
Definition kStabilityRendererHangCount :=
    "user_experience_metrics.stability.renderer_hang_count".
Definition kStabilityChildProcessCrashCount :=
    "user_experience_metrics.stability.child_process_crash_count".
Definition kStabilityOtherUserCrashCount :=
    "user_experience_metrics.stability.other_user_crash_count".
Definition kStabilityKernelCrashCount :=
    "user_experience_metrics.stability.kernel_crash_count".
Definition kStabilitySystemUncleanShutdownCount :=
    "user_experience_metrics.stability.system_unclean_shutdowns".
Definition kStabilityPluginStats :=
    "user_experience_metrics.stability.plugin_stats2".
Definition kStabilityPluginName := "name".
Definition kStabilityPluginLaunches := "launches".
Definition kStabilityPluginInstances := "instances".
Definition kStabilityPluginCrashes := "crashes".
Definition kNumBookmarksOnBookmarkBar :=
    "user_experience_metrics.num_bookmarks_on_bookmark_bar".
Definition kNumFoldersOnBookmarkBar :=
    "user_experience_metrics.num_folders_on_bookmark_bar".
Definition kNumBookmarksInOtherBookmarkFolder :=
    "user_experience_metrics.num_bookmarks_in_other_bookmark_folder".
Definition kNumFoldersInOtherBookmarkFolder :=
    "user_experience_metrics.num_folders_in_other_bookmark_folder".
Definition kNumKeywords := "user_experience_metrics.num_keywords".
Definition kProfilePrefix := "profile-".
End prefs.

(** ** PrefService *)

(** Modelled from the spec: the preference store ([PrefService], whose
    code is not part of the sources) "provides/accepts named integer,
    string, and list-of-dictionary values"; reading an integer or a string
    that was never set gives zero or the empty string, and clearing a
    preference removes its stored value.  A list preference that holds no
    value is read as the null pointer. *)
Record PrefService : Type := {
  pref_integers : gmap string Z;
  pref_int64s : gmap string Z;
  pref_strings : gmap string string;
  pref_lists : gmap string (list Value)
}.

Definition PrefService_GetInteger (path : string) (p : PrefService) : Z :=
  default 0 (pref_integers p !! path).
Definition PrefService_GetInt64 (path : string) (p : PrefService) : Z :=
  default 0 (pref_int64s p !! path).
Definition PrefService_GetString (path : string) (p : PrefService) : string :=
  default "" (pref_strings p !! path).
Definition PrefService_GetList (path : string) (p : PrefService)
  : option (list Value) :=
  pref_lists p !! path.

Definition PrefService_SetInteger (path : string) (v : Z) (p : PrefService)
  : PrefService :=
  {| pref_integers := <[path := v]> (pref_integers p);
     pref_int64s := pref_int64s p;
     pref_strings := pref_strings p;
     pref_lists := pref_lists p |}.
Definition PrefService_SetInt64 (path : string) (v : Z) (p : PrefService)
  : PrefService :=
  {| pref_integers := pref_integers p;
     pref_int64s := <[path := v]> (pref_int64s p);
     pref_strings := pref_strings p;
     pref_lists := pref_lists p |}.
Definition PrefService_ClearPref (path : string) (p : PrefService)
  : PrefService :=
  {| pref_integers := delete path (pref_integers p);
     pref_int64s := delete path (pref_int64s p);
     pref_strings := delete path (pref_strings p);
     pref_lists := delete path (pref_lists p) |}.

(** Modelled from the spec: [increment(counterName)], the operation by
    which collaborators outside the report builder bump a counter. *)
Definition PrefService_Increment (path : string) (p : PrefService)
  : PrefService :=
  PrefService_SetInteger path (PrefService_GetInteger path p + 1) p.

(** ** The legacy encoding: an attribute tree *)

(** Modelled from the spec: the XML writer lives in the base class
    [MetricsLogBase], which is not part of the sources.  The spec describes
    it as a stack of open sections: "open(name) pushes a new Section as a
    child of the current top-of-stack (or as a report-root section if
    empty)", an attribute is recorded "under the currently open section",
    and "close() pops the top".  An attribute value is a string, an int or
    an int64, as the three [Write...Attribute] calls give it. *)
Inductive AttributeValue : Type :=
| AttrString (s : string)
| AttrInt (i : Z)
| AttrInt64 (i : Z).

Inductive Element : Type :=
| Elem (tag : string) (attributes : list (string * AttributeValue))
       (children : list Element).

Definition tag_of (e : Element) : string :=
  match e with Elem t _ _ => t end.
Definition attributes_of (e : Element) : list (string * AttributeValue) :=
  match e with Elem _ a _ => a end.
Definition children_of (e : Element) : list Element :=
  match e with Elem _ _ c => c end.

(** An element that is still open. *)
Record Frame : Type := {
  frame_tag : string;
  frame_attributes : list (string * AttributeValue);
  frame_children : list Element
}.

Definition close_frame (f : Frame) : Element :=
  Elem (frame_tag f) (frame_attributes f) (frame_children f).
Definition add_attribute (name : string) (v : AttributeValue) (f : Frame)
  : Frame :=
  {| frame_tag := frame_tag f;
     frame_attributes := frame_attributes f ++ [(name, v)];
     frame_children := frame_children f |}.
Definition add_child (e : Element) (f : Frame) : Frame :=
  {| frame_tag := frame_tag f;
     frame_attributes := frame_attributes f;
     frame_children := frame_children f ++ [e] |}.

(** The first attribute of an element with a given name. *)
Fixpoint lookup_attribute (name : string)
    (attrs : list (string * AttributeValue)) : option AttributeValue :=
  match attrs with
  | [] => None
  | (k, v) :: rest =>
      if String.eqb k name then Some v else lookup_attribute name rest
  end.

(** ** The structured encoding: the UMA protobuf *)

(** The generated classes of [system_profile.pb.h] and
    [omnibox_event.pb.h] are not part of the sources; the messages below
    have the fields that the setters called in [metrics_log.cc] name.  An
    optional field that was never set is [None]. *)
Module Plugin.
Record t : Type := {
    name : option string;
    filename : option string;
    version : option string;
    is_disabled : option bool
  }.
Definition empty : t :=
    {| name := None; filename := None; version := None; is_disabled := None |}.
End Plugin.

Module PluginStability.
Record t : Type := {
    plugin : Plugin.t;
    launch_count : option Z;
    instance_count : option Z;
    crash_count : option Z
  }.
End PluginStability.

(** The scalar fields of [SystemProfileProto::Stability], by field name:
    [set_x(v)] stores [v] under the name [x], and [has_x()] holds when the
    name is present. *)
Module Stability.
Record t : Type := {
    fields : gmap string Z;
    plugin_stability : list PluginStability.t
  }.
Definition empty : t := {| fields := ∅; plugin_stability := [] |}.
Definition set_field (x : string) (v : Z) (s : t) : t :=
    {| fields := <[x := v]> (fields s);
       plugin_stability := plugin_stability s |}.
Definition field (x : string) (s : t) : option Z := fields s !! x.
Definition add_plugin_stability (e : PluginStability.t) (s : t) : t :=
    {| fields := fields s;
       plugin_stability := plugin_stability s ++ [e] |}.

Definition set_launch_count := set_field "launch_count".
Definition set_crash_count := set_field "crash_count".
Definition set_incomplete_shutdown_count :=
    set_field "incomplete_shutdown_count".
Definition set_breakpad_registration_success_count :=
    set_field "breakpad_registration_success_count".
Definition set_breakpad_registration_failure_count :=
    set_field "breakpad_registration_failure_count".
Definition set_debugger_present_count := set_field "debugger_present_count".
Definition set_debugger_not_present_count :=
    set_field "debugger_not_present_count".
Definition set_page_load_count := set_field "page_load_count".
Definition set_renderer_crash_count := set_field "renderer_crash_count".
Definition set_extension_renderer_crash_count :=
    set_field "extension_renderer_crash_count".
Definition set_renderer_hang_count := set_field "renderer_hang_count".
Definition set_child_process_crash_count :=
    set_field "child_process_crash_count".
Definition set_other_user_crash_count := set_field "other_user_crash_count".
Definition set_kernel_crash_count := set_field "kernel_crash_count".
Definition set_unclean_system_shutdown_count :=
    set_field "unclean_system_shutdown_count".
Definition set_uptime_sec := set_field "uptime_sec".
End Stability.

Module Graphics.
Record t : Type := {
    vendor_id : option Z;
    device_id : option Z;
    driver_version : option string;
    driver_date : option string;
    graphics_score : option Z;
    gaming_score : option Z;
    overall_score : option Z
  }.
Definition empty : t :=
    {| vendor_id := None; device_id := None; driver_version := None;
       driver_date := None; graphics_score := None; gaming_score := None;
       overall_score := None |}.
End Graphics.

Module Hardware.
Record t : Type := {
    cpu_architecture : option string;
    system_ram_mb : option Z;
    dll_base : option Z;
    gpu : Graphics.t;
    primary_screen_width : option Z;
    primary_screen_height : option Z;
    screen_count : option Z
  }.
Definition empty : t :=
    {| cpu_architecture := None; system_ram_mb := None; dll_base := None;
       gpu := Graphics.empty; primary_screen_width := None;
       primary_screen_height := None; screen_count := None |}.
End Hardware.

Module OS.
Record t : Type := { name : option string; version : option string }.
Definition empty : t := {| name := None; version := None |}.
End OS.

Module FieldTrial.
Record t : Type := { name_id : option Z; group_id : option Z }.
End FieldTrial.

Module SystemProfileProto.
Record t : Type := {
    install_date : option Z;
    application_locale : option string;
    hardware : Hardware.t;
    os : OS.t;
    plugin : list Plugin.t;
    field_trial : list FieldTrial.t;
    stability : Stability.t
  }.
Definition empty : t :=
    {| install_date := None; application_locale := None;
       hardware := Hardware.empty; os := OS.empty; plugin := [];
       field_trial := []; stability := Stability.empty |}.
Definition with_stability (f : Stability.t -> Stability.t) (p : t) : t :=
    {| install_date := install_date p;
       application_locale := application_locale p;
       hardware := hardware p; os := os p; plugin := plugin p;
       field_trial := field_trial p; stability := f (stability p) |}.
Definition add_plugin (x : Plugin.t) (p : t) : t :=
    {| install_date := install_date p;
       application_locale := application_locale p;
       hardware := hardware p; os := os p; plugin := plugin p ++ [x];
       field_trial := field_trial p; stability := stability p |}.
Definition add_field_trial (x : FieldTrial.t) (p : t) : t :=
    {| install_date := install_date p;
       application_locale := application_locale p;
       hardware := hardware p; os := os p; plugin := plugin p;
       field_trial := field_trial p ++ [x]; stability := stability p |}.
End SystemProfileProto.

(** A freshly constructed message of [OmniboxEventProto]; the event writer
    sets its fields one after the other. *)
Inductive OmniboxInputType : Type :=
| INPUT_INVALID | INPUT_UNKNOWN | INPUT_REQUESTED_URL | INPUT_URL
| INPUT_QUERY | INPUT_FORCED_QUERY.

Inductive SuggestionProviderType : Type :=
| UNKNOWN_PROVIDER | PROVIDER_URL | PROVIDER_HISTORY_CONTENTS
| PROVIDER_HISTORY_QUICK | PROVIDER_SEARCH | PROVIDER_KEYWORD
| PROVIDER_BUILTIN | PROVIDER_SHORTCUTS | PROVIDER_EXTENSION_APPS.

Inductive SuggestionResultType : Type :=
| UNKNOWN_RESULT_TYPE | RESULT_URL_WHAT_YOU_TYPED | RESULT_HISTORY_URL
| RESULT_HISTORY_TITLE | RESULT_HISTORY_BODY | RESULT_HISTORY_KEYWORD
| RESULT_NAVSUGGEST | RESULT_SEARCH_WHAT_YOU_TYPED | RESULT_SEARCH_HISTORY
| RESULT_SEARCH_SUGGEST | RESULT_SEARCH_OTHER_ENGINE | RESULT_EXTENSION_APP.

Module Suggestion.
Record t : Type := {
  provider : option SuggestionProviderType;
  result_type : option SuggestionResultType;
  relevance : option Z;
  is_starred : option bool
}.
End Suggestion.

Module OmniboxEventProto.
Record t : Type := {
  time : option Z;
  tab_id : option Z;
  typed_length : option Z;
  num_typed_terms : option Z;
  selected_index : option Z;
  completed_length : option Z;
  typing_duration_ms : option Z;
  input_type : option OmniboxInputType;
  suggestion : list Suggestion.t
}.
End OmniboxEventProto.

Module ChromeUserMetricsExtension.
Record t : Type := {
  system_profile : SystemProfileProto.t;
  omnibox_event : list OmniboxEventProto.t
}.
Definition empty : t :=
  {| system_profile := SystemProfileProto.empty; omnibox_event := [] |}.
Definition with_system_profile
    (f : SystemProfileProto.t -> SystemProfileProto.t) (u : t) : t :=
  {| system_profile := f (system_profile u);
     omnibox_event := omnibox_event u |}.
Definition add_omnibox_event (e : OmniboxEventProto.t) (u : t) : t :=
  {| system_profile := system_profile u;
     omnibox_event := omnibox_event u ++ [e] |}.
End ChromeUserMetricsExtension.

(** ** Inputs of the report builder *)

(** A [string16] is a sequence of UTF-16 code units. *)
Abbreviation string16 := (list Z).

Module WebPluginInfo.
Record t : Type := {
  name : string16;
  path : string;
  version : string16
}.
End WebPluginInfo.

Module GPUInfo.
Record t : Type := {
  vendor_id : Z;
  device_id : Z;
  driver_version : string;
  driver_date : string;
  graphics : Z;
  gaming : Z;
  overall : Z
}.
End GPUInfo.

Module NameGroupId.
Record t : Type := { name : Z; group : Z }.
End NameGroupId.

Inductive AutocompleteInput_Type : Type :=
| INVALID | UNKNOWN | REQUESTED_URL | URL | QUERY | FORCED_QUERY.

Inductive AutocompleteMatch_Type : Type :=
| URL_WHAT_YOU_TYPED | HISTORY_URL | HISTORY_TITLE | HISTORY_BODY
| HISTORY_KEYWORD | NAVSUGGEST | SEARCH_WHAT_YOU_TYPED | SEARCH_HISTORY
| SEARCH_SUGGEST | SEARCH_OTHER_ENGINE | EXTENSION_APP | NUM_TYPES.

Module AutocompleteMatch.
Record t : Type := {
  provider : option string;
  type : AutocompleteMatch_Type;
  relevance : Z;
  starred : bool
}.
End AutocompleteMatch.

(** [elapsed_time_since_user_first_modified_omnibox] is a [TimeDelta],
    kept in microseconds. *)
Module AutocompleteLog.
Record t : Type := {
  text : string16;
  input_type : AutocompleteInput_Type;
  selected_index : Z;
  tab_id : Z;
  inline_autocompleted_length : Z;
  elapsed_time_since_user_first_modified_omnibox : Z;
  result : list AutocompleteMatch.t
}.
End AutocompleteLog.

(** ** The platform *)

(** What the translation unit takes from the build and from its
    collaborators: the build flags ([DCHECK]s enabled or compiled out, the
    operating system), the hash and string helpers of other files, and the
    facts that the system, GPU, display and field-trial providers return.
    [GetPluginPrefs] is [None] when no profile is loaded, and otherwise
    the [IsPluginEnabled] predicate of the first loaded profile. *)
Record Platform : Type := {
  dcheck_is_on : bool;
  OS_CHROMEOS : bool;
  OS_WIN : bool;
  ImageBase : Z;
  CreateHashes : string -> string * Z;
  UTF8ToUTF16 : string -> string16;
  UTF16ToUTF8 : string16 -> string;
  BaseName : string -> string;
  StringToInt : string -> bool * Z;
  Tokenize : string16 -> list string16;
  AutocompleteInput_TypeToString : AutocompleteInput_Type -> string;
  AutocompleteMatch_TypeToString : AutocompleteMatch_Type -> string;
  GetPluginPrefs : option (WebPluginInfo.t -> bool);
  CPUArchitecture : string;
  AmountOfPhysicalMemoryMB : Z;
  OperatingSystemName : string;
  OperatingSystemVersion : string;
  GetGPUInfo : GPUInfo.t;
  GetScreenSize : Z * Z;
  GetScreenCount : Z;
  GetApplicationLocale : string;
  GetFieldTrialIds : list NameGroupId.t
}.

(** ** The report and the world around it *)

(** The part of a [MetricsLog] object that its methods read and write:
    the lock flag, the session id, the attribute tree (the closed root
    sections and the stack of open ones, innermost first), the protobuf
    and the event counter. *)
Record MetricsLog : Type := {
  locked : bool;
  session_id : string;
  xml_closed : list Element;
  xml_open : list Frame;
  uma_proto : ChromeUserMetricsExtension.t;
  num_events : Z
}.

Definition with_xml (closed : list Element) (open : list Frame)
    (l : MetricsLog) : MetricsLog :=
  {| locked := locked l; session_id := session_id l;
     xml_closed := closed; xml_open := open;
     uma_proto := uma_proto l; num_events := num_events l |}.
Definition with_uma_proto
    (f : ChromeUserMetricsExtension.t -> ChromeUserMetricsExtension.t)
    (l : MetricsLog) : MetricsLog :=
  {| locked := locked l; session_id := session_id l;
     xml_closed := xml_closed l; xml_open := xml_open l;
     uma_proto := f (uma_proto l); num_events := num_events l |}.
Definition with_num_events (n : Z) (l : MetricsLog) : MetricsLog :=
  {| locked := locked l; session_id := session_id l;
     xml_closed := xml_closed l; xml_open := xml_open l;
     uma_proto := uma_proto l; num_events := n |}.
Definition with_locked (b : bool) (l : MetricsLog) : MetricsLog :=
  {| locked := b; session_id := session_id l;
     xml_closed := xml_closed l; xml_open := xml_open l;
     uma_proto := uma_proto l; num_events := num_events l |}.

(** A report as its constructor leaves it. *)
Definition new_MetricsLog (session : string) : MetricsLog :=
  {| locked := false; session_id := session; xml_closed := [];
     xml_open := []; uma_proto := ChromeUserMetricsExtension.empty;
     num_events := 0 |}.

(** What a method of the report builder can touch: the report itself
    ([this]), the local-state preference store, the function-local static
    [last_updated_time] of [GetIncrementalUptime] ([None] until the first
    call initialises it), the two clocks it reads, [TimeTicks::Now()]
    in microseconds and the wall clock in seconds, and what the static
    [MetricsLogBase::GetCurrentTime()] of the base class returns. *)
Record World : Type := {
  this : MetricsLog;
  local_state : PrefService;
  last_updated_time : option Z;
  TimeTicks_Now : Z;
  Time_Now : Z;
  MetricsLogBase_GetCurrentTime : Z
}.

Definition with_log (f : MetricsLog -> MetricsLog) (w : World) : World :=
  {| this := f (this w); local_state := local_state w;
     last_updated_time := last_updated_time w;
     TimeTicks_Now := TimeTicks_Now w; Time_Now := Time_Now w;
     MetricsLogBase_GetCurrentTime := MetricsLogBase_GetCurrentTime w |}.
Definition with_local_state (f : PrefService -> PrefService) (w : World)
  : World :=
  {| this := this w; local_state := f (local_state w);
     last_updated_time := last_updated_time w;
     TimeTicks_Now := TimeTicks_Now w; Time_Now := Time_Now w;
     MetricsLogBase_GetCurrentTime := MetricsLogBase_GetCurrentTime w |}.
Definition with_last_updated_time (t : Z) (w : World) : World :=
  {| this := this w; local_state := local_state w;
     last_updated_time := Some t;
     TimeTicks_Now := TimeTicks_Now w; Time_Now := Time_Now w;
     MetricsLogBase_GetCurrentTime := MetricsLogBase_GetCurrentTime w |}.

(** ** The monad of the report builder *)

(** A method either returns, in a new world, or the process stops at a
    failed assertion; [Crash] keeps the world as it was at that point. *)
Inductive outcome (A : Type) : Type :=
| Done (a : A) (w : World)
| Crash (w : World).
Arguments Done {A} a w.
Arguments Crash {A} w.

Definition M (A : Type) : Type := World -> outcome A.

Definition ret {A : Type} (a : A) : M A := fun w => Done a w.
Definition bind {A B : Type} (m : M A) (k : A -> M B) : M B :=
  fun w => match m w with
           | Done a w' => k a w'
           | Crash w' => Crash w'
           end.

#[global] Instance M_ret : MRet M := @ret.
#[global] Instance M_bind : MBind M := fun A B k m => bind m k.

Definition gets {A : Type} (f : World -> A) : M A := fun w => Done (f w) w.
Definition modify (f : World -> World) : M unit := fun w => Done tt (f w).
Definition when (b : bool) (m : M unit) : M unit := if b then m else ret tt.

(** A range-based loop whose body may leave early ([continue]). *)
Fixpoint for_each {A : Type} (l : list A) (body : A -> M unit) : M unit :=
  match l with
  | [] => ret tt
  | x :: rest => body x ;; for_each rest body
  end.

Definition final_world {A : Type} (o : outcome A) : World :=
  match o with Done _ w => w | Crash w => w end.
Definition returned {A : Type} (o : outcome A) : bool :=
  match o with Done _ _ => true | Crash _ => false end.

(** Setters of the remaining [SystemProfileProto] fields. *)
Definition set_install_date (v : Z) (p : SystemProfileProto.t)
  : SystemProfileProto.t :=
  {| SystemProfileProto.install_date := Some v;
     SystemProfileProto.application_locale :=
       SystemProfileProto.application_locale p;
     SystemProfileProto.hardware := SystemProfileProto.hardware p;
     SystemProfileProto.os := SystemProfileProto.os p;
     SystemProfileProto.plugin := SystemProfileProto.plugin p;
     SystemProfileProto.field_trial := SystemProfileProto.field_trial p;
     SystemProfileProto.stability := SystemProfileProto.stability p |}.
Definition set_application_locale (v : string) (p : SystemProfileProto.t)
  : SystemProfileProto.t :=
  {| SystemProfileProto.install_date := SystemProfileProto.install_date p;
     SystemProfileProto.application_locale := Some v;
     SystemProfileProto.hardware := SystemProfileProto.hardware p;
     SystemProfileProto.os := SystemProfileProto.os p;
     SystemProfileProto.plugin := SystemProfileProto.plugin p;
     SystemProfileProto.field_trial := SystemProfileProto.field_trial p;
     SystemProfileProto.stability := SystemProfileProto.stability p |}.
Definition with_hardware (f : Hardware.t -> Hardware.t)
    (p : SystemProfileProto.t) : SystemProfileProto.t :=
  {| SystemProfileProto.install_date := SystemProfileProto.install_date p;
     SystemProfileProto.application_locale :=
       SystemProfileProto.application_locale p;
     SystemProfileProto.hardware := f (SystemProfileProto.hardware p);
     SystemProfileProto.os := SystemProfileProto.os p;
     SystemProfileProto.plugin := SystemProfileProto.plugin p;
     SystemProfileProto.field_trial := SystemProfileProto.field_trial p;
     SystemProfileProto.stability := SystemProfileProto.stability p |}.
Definition with_os (f : OS.t -> OS.t) (p : SystemProfileProto.t)
  : SystemProfileProto.t :=
  {| SystemProfileProto.install_date := SystemProfileProto.install_date p;
     SystemProfileProto.application_locale :=
       SystemProfileProto.application_locale p;
     SystemProfileProto.hardware := SystemProfileProto.hardware p;
     SystemProfileProto.os := f (SystemProfileProto.os p);
     SystemProfileProto.plugin := SystemProfileProto.plugin p;
     SystemProfileProto.field_trial := SystemProfileProto.field_trial p;
     SystemProfileProto.stability := SystemProfileProto.stability p |}.

(** [f] applied to the last element of a list: the message that the
    latest [add_...()] call returned. *)
Fixpoint alter_last {A : Type} (f : A -> A) (l : list A) : list A :=
  match l with
  | [] => []
  | [x] => [f x]
  | x :: rest => x :: alter_last f rest
  end.

Definition add_suggestion (s : Suggestion.t) (e : OmniboxEventProto.t)
  : OmniboxEventProto.t :=
  {| OmniboxEventProto.time := OmniboxEventProto.time e;
     OmniboxEventProto.tab_id := OmniboxEventProto.tab_id e;
     OmniboxEventProto.typed_length := OmniboxEventProto.typed_length e;
     OmniboxEventProto.num_typed_terms := OmniboxEventProto.num_typed_terms e;
     OmniboxEventProto.selected_index := OmniboxEventProto.selected_index e;
     OmniboxEventProto.completed_length :=
       OmniboxEventProto.completed_length e;
     OmniboxEventProto.typing_duration_ms :=
       OmniboxEventProto.typing_duration_ms e;
     OmniboxEventProto.input_type := OmniboxEventProto.input_type e;
     OmniboxEventProto.suggestion := OmniboxEventProto.suggestion e ++ [s] |}.

Definition add_suggestion_to_last_event (s : Suggestion.t)
    (u : ChromeUserMetricsExtension.t) : ChromeUserMetricsExtension.t :=
  {| ChromeUserMetricsExtension.system_profile :=
       ChromeUserMetricsExtension.system_profile u;
     ChromeUserMetricsExtension.omnibox_event :=
       alter_last (add_suggestion s)
         (ChromeUserMetricsExtension.omnibox_event u) |}.

(** [add_suggestion()] returns a suggestion with no field set; the
    setters that follow write into it, the last suggestion of the last
    event. *)
Definition new_Suggestion : Suggestion.t :=
  {| Suggestion.provider := None; Suggestion.result_type := None;
     Suggestion.relevance := None; Suggestion.is_starred := None |}.
Definition set_provider (v : SuggestionProviderType) (s : Suggestion.t)
  : Suggestion.t :=
  {| Suggestion.provider := Some v;
     Suggestion.result_type := Suggestion.result_type s;
     Suggestion.relevance := Suggestion.relevance s;
     Suggestion.is_starred := Suggestion.is_starred s |}.
Definition set_result_type (v : SuggestionResultType) (s : Suggestion.t)
  : Suggestion.t :=
  {| Suggestion.provider := Suggestion.provider s;
     Suggestion.result_type := Some v;
     Suggestion.relevance := Suggestion.relevance s;
     Suggestion.is_starred := Suggestion.is_starred s |}.
Definition set_relevance (v : Z) (s : Suggestion.t) : Suggestion.t :=
  {| Suggestion.provider := Suggestion.provider s;
     Suggestion.result_type := Suggestion.result_type s;
     Suggestion.relevance := Some v;
     Suggestion.is_starred := Suggestion.is_starred s |}.
Definition set_is_starred (v : bool) (s : Suggestion.t) : Suggestion.t :=
  {| Suggestion.provider := Suggestion.provider s;
     Suggestion.result_type := Suggestion.result_type s;
     Suggestion.relevance := Suggestion.relevance s;
     Suggestion.is_starred := Some v |}.

Definition with_suggestion (f : list Suggestion.t -> list Suggestion.t)
    (e : OmniboxEventProto.t) : OmniboxEventProto.t :=
  {| OmniboxEventProto.time := OmniboxEventProto.time e;
     OmniboxEventProto.tab_id := OmniboxEventProto.tab_id e;
     OmniboxEventProto.typed_length := OmniboxEventProto.typed_length e;
     OmniboxEventProto.num_typed_terms := OmniboxEventProto.num_typed_terms e;
     OmniboxEventProto.selected_index := OmniboxEventProto.selected_index e;
     OmniboxEventProto.completed_length :=
       OmniboxEventProto.completed_length e;
     OmniboxEventProto.typing_duration_ms :=
       OmniboxEventProto.typing_duration_ms e;
     OmniboxEventProto.input_type := OmniboxEventProto.input_type e;
     OmniboxEventProto.suggestion := f (OmniboxEventProto.suggestion e) |}.

Definition in_last_suggestion (f : Suggestion.t -> Suggestion.t)
    (u : ChromeUserMetricsExtension.t) : ChromeUserMetricsExtension.t :=
  {| ChromeUserMetricsExtension.system_profile :=
       ChromeUserMetricsExtension.system_profile u;
     ChromeUserMetricsExtension.omnibox_event :=
       alter_last (with_suggestion (alter_last f))
         (ChromeUserMetricsExtension.omnibox_event u) |}.

(** [TimeDelta::InSeconds] and [InMilliseconds]: integer division of the
    microsecond count, rounding towards zero. *)
Definition InSeconds (delta : Z) : Z := Z.quot delta 1000000.
Definition InMilliseconds (delta : Z) : Z := Z.quot delta 1000.
Definition FromMilliseconds (ms : Z) : Z := ms * 1000.

(** [std::string::substr(pos)]. *)
Definition substr (pos : nat) (s : string) : string :=
  String.substring pos (String.length s - pos) s.

Definition string16_eqb (a b : string16) : bool := bool_decide (a = b).

Section MetricsLogModel.
Context (P : Platform).

(** ** Logging macros *)

(** [DCHECK(c)] stops the process when [c] is false in a build with
    debug checks, and is compiled out otherwise; [NOTREACHED()] is
    [DCHECK(false)].  The statements that follow a [NOTREACHED()] in the
    source ([continue], [break], [return]) are what a build without debug
    checks runs. *)
Definition DCHECK (c : bool) : M unit :=
  fun w => if dcheck_is_on P && negb c then Crash w else Done tt w.
Definition NOTREACHED : M unit := DCHECK false.

(** ** PrefService, called on [g_browser_process->local_state()] *)

Definition GetInteger (path : string) : M Z :=
  gets (fun w => PrefService_GetInteger path (local_state w)).
Definition SetInteger (path : string) (v : Z) : M unit :=
  modify (with_local_state (PrefService_SetInteger path v)).
Definition GetInt64 (path : string) : M Z :=
  gets (fun w => PrefService_GetInt64 path (local_state w)).
Definition SetInt64 (path : string) (v : Z) : M unit :=
  modify (with_local_state (PrefService_SetInt64 path v)).
Definition GetString (path : string) : M string :=
  gets (fun w => PrefService_GetString path (local_state w)).
Definition GetList (path : string) : M (option (list Value)) :=
  gets (fun w => PrefService_GetList path (local_state w)).
Definition ClearPref (path : string) : M unit :=
  modify (with_local_state (PrefService_ClearPref path)).

(** ** MetricsLogBase: the writer of the attribute tree *)

(** Modelled from the spec (section stack, see [Frame]): writing an
    attribute or closing a section while no section is open is a nesting
    violation, a failed debug check. *)
Definition StartElement (name : string) : M unit :=
  modify (with_log (fun l =>
    with_xml (xml_closed l)
      ({| frame_tag := name; frame_attributes := [];
          frame_children := [] |} :: xml_open l) l)).

Definition EndElement : M unit :=
  fun w =>
    match xml_open (this w) with
    | [] => NOTREACHED w
    | [f] =>
        Done tt
          (with_log (with_xml (xml_closed (this w) ++ [close_frame f]) []) w)
    | f :: parent :: rest =>
        Done tt
          (with_log
             (with_xml (xml_closed (this w))
                (add_child (close_frame f) parent :: rest)) w)
    end.

Definition write_attribute (name : string) (v : AttributeValue) : M unit :=
  fun w =>
    match xml_open (this w) with
    | [] => NOTREACHED w
    | f :: rest =>
        Done tt
          (with_log
             (with_xml (xml_closed (this w)) (add_attribute name v f :: rest))
             w)
    end.

Definition WriteAttribute (name value : string) : M unit :=
  write_attribute name (AttrString value).
Definition WriteIntAttribute (name : string) (value : Z) : M unit :=
  write_attribute name (AttrInt value).
Definition WriteInt64Attribute (name : string) (value : Z) : M unit :=
  write_attribute name (AttrInt64 value).

(** [OPEN_ELEMENT_FOR_SCOPE(name)] declares a [ScopedElement]: the
    element is opened here and closed when the enclosing block is left,
    also by [continue] or [return].  A failed debug check stops the
    process and closes nothing. *)
Definition OPEN_ELEMENT_FOR_SCOPE (name : string) (block : M unit) : M unit :=
  StartElement name;; block;; EndElement.

(** Modelled from the spec: [WriteCommonEventAttributes] belongs to the
    base class; the report "fields" it stamps on an event are the session
    identifier and the time.  [GetCurrentTime] is a static of the same
    base class: what it returns is a component of the world of its own,
    which nothing relates to the time of the attribute. *)
Definition GetCurrentTime : M Z := gets MetricsLogBase_GetCurrentTime.
Definition WriteCommonEventAttributes : M unit :=
  session ← gets (fun w => session_id (this w));
  WriteAttribute "session" session;;
  now ← gets Time_Now;
  WriteInt64Attribute "time" now.

Definition is_locked : M bool := gets (fun w => locked (this w)).

Definition modify_proto
    (f : ChromeUserMetricsExtension.t -> ChromeUserMetricsExtension.t)
  : M unit :=
  modify (with_log (with_uma_proto f)).
Definition modify_system_profile
    (f : SystemProfileProto.t -> SystemProfileProto.t) : M unit :=
  modify_proto (ChromeUserMetricsExtension.with_system_profile f).
Definition modify_stability (f : Stability.t -> Stability.t) : M unit :=
  modify_system_profile (SystemProfileProto.with_stability f).

(** ** Helpers of the anonymous namespace *)

(** The preference store is never null here, so the [NOTREACHED] branch
    of [GetInstallDate] has no counterpart. *)
Definition GetInstallDate : M string :=
  GetString prefs.kMetricsClientIDTimestamp.

Definition AsOmniboxEventInputType (type : AutocompleteInput_Type)
  : OmniboxInputType :=
  match type with
  | INVALID => INPUT_INVALID
  | UNKNOWN => INPUT_UNKNOWN
  | REQUESTED_URL => INPUT_REQUESTED_URL
  | URL => INPUT_URL
  | QUERY => INPUT_QUERY
  | FORCED_QUERY => INPUT_FORCED_QUERY
  end.

Definition AsOmniboxEventProviderType (provider : option string)
  : M SuggestionProviderType :=
  match provider with
  | None => ret UNKNOWN_PROVIDER
  | Some name =>
      if String.eqb name "HistoryURL" then ret PROVIDER_URL
      else if String.eqb name "HistoryContents"
      then ret PROVIDER_HISTORY_CONTENTS
      else if String.eqb name "HistoryQuickProvider"
      then ret PROVIDER_HISTORY_QUICK
      else if String.eqb name "Search" then ret PROVIDER_SEARCH
      else if String.eqb name "Keyword" then ret PROVIDER_KEYWORD
      else if String.eqb name "Builtin" then ret PROVIDER_BUILTIN
      else if String.eqb name "ShortcutsProvider"
      then ret PROVIDER_SHORTCUTS
      else if String.eqb name "ExtensionApps"
      then ret PROVIDER_EXTENSION_APPS
      else NOTREACHED;; ret UNKNOWN_PROVIDER
  end.

Definition AsOmniboxEventResultType (type : AutocompleteMatch_Type)
  : M SuggestionResultType :=
  match type with
  | URL_WHAT_YOU_TYPED => ret RESULT_URL_WHAT_YOU_TYPED
  | HISTORY_URL => ret RESULT_HISTORY_URL
  | HISTORY_TITLE => ret RESULT_HISTORY_TITLE
  | HISTORY_BODY => ret RESULT_HISTORY_BODY
  | HISTORY_KEYWORD => ret RESULT_HISTORY_KEYWORD
  | NAVSUGGEST => ret RESULT_NAVSUGGEST
  | SEARCH_WHAT_YOU_TYPED => ret RESULT_SEARCH_WHAT_YOU_TYPED
  | SEARCH_HISTORY => ret RESULT_SEARCH_HISTORY
  | SEARCH_SUGGEST => ret RESULT_SEARCH_SUGGEST
  | SEARCH_OTHER_ENGINE => ret RESULT_SEARCH_OTHER_ENGINE
  | EXTENSION_APP => ret RESULT_EXTENSION_APP
  | NUM_TYPES => NOTREACHED;; ret UNKNOWN_RESULT_TYPE
  end.

(** Fills a [Plugin] message with the name, the file name and the version
    of [plugin_info], none of them hashed, and with the disabled flag when
    plugin preferences are available. *)
Definition SetPluginInfo (plugin_info : WebPluginInfo.t)
    (plugin_prefs : option (WebPluginInfo.t -> bool)) (plugin : Plugin.t)
  : Plugin.t :=
  {| Plugin.name := Some (UTF16ToUTF8 P (WebPluginInfo.name plugin_info));
     Plugin.filename := Some (BaseName P (WebPluginInfo.path plugin_info));
     Plugin.version :=
       Some (UTF16ToUTF8 P (WebPluginInfo.version plugin_info));
     Plugin.is_disabled :=
       match plugin_prefs with
       | Some IsPluginEnabled => Some (negb (IsPluginEnabled plugin_info))
       | None => Plugin.is_disabled plugin
       end |}.

Definition WriteFieldTrials (field_trial_ids : list NameGroupId.t) : M unit :=
  for_each field_trial_ids (fun it =>
    modify_system_profile
      (SystemProfileProto.add_field_trial
         {| FieldTrial.name_id := Some (NameGroupId.name it);
            FieldTrial.group_id := Some (NameGroupId.group it) |})).

(** ** MetricsLog *)

(** [last_updated_time] is a function-local static initialised with
    [now] by the first call. *)
Definition GetIncrementalUptime : M Z :=
  now ← gets TimeTicks_Now;
  last_updated ← gets (fun w => default now (last_updated_time w));
  let incremental_time := InSeconds (wrap_int64 (now - last_updated)) in
  modify (with_last_updated_time now);;
  when (0 <? incremental_time)
    (metrics_uptime ← GetInt64 prefs.kUninstallMetricsUptimeSec;
     SetInt64 prefs.kUninstallMetricsUptimeSec
       (wrap_int64 (metrics_uptime + incremental_time)));;
  ret incremental_time.

Definition WriteRequiredStabilityAttributes : M unit :=
  launch_count ← GetInteger prefs.kStabilityLaunchCount;
  SetInteger prefs.kStabilityLaunchCount 0;;
  crash_count ← GetInteger prefs.kStabilityCrashCount;
  SetInteger prefs.kStabilityCrashCount 0;;
  WriteIntAttribute "launchcount" launch_count;;
  WriteIntAttribute "crashcount" crash_count;;
  modify_stability (Stability.set_launch_count launch_count);;
  modify_stability (Stability.set_crash_count crash_count).

Definition WriteRealtimeStabilityAttributes : M unit :=
  count ← GetInteger prefs.kStabilityPageLoadCount;
  when (negb (count =? 0))
    (WriteIntAttribute "pageloadcount" count;;
     modify_stability (Stability.set_page_load_count count);;
     SetInteger prefs.kStabilityPageLoadCount 0);;
  count ← GetInteger prefs.kStabilityRendererCrashCount;
  when (negb (count =? 0))
    (WriteIntAttribute "renderercrashcount" count;;
     modify_stability (Stability.set_renderer_crash_count count);;
     SetInteger prefs.kStabilityRendererCrashCount 0);;
  count ← GetInteger prefs.kStabilityExtensionRendererCrashCount;
  when (negb (count =? 0))
    (WriteIntAttribute "extensionrenderercrashcount" count;;
     modify_stability (Stability.set_extension_renderer_crash_count count);;
     SetInteger prefs.kStabilityExtensionRendererCrashCount 0);;
  count ← GetInteger prefs.kStabilityRendererHangCount;
  when (negb (count =? 0))
    (WriteIntAttribute "rendererhangcount" count;;
     modify_stability (Stability.set_renderer_hang_count count);;
     SetInteger prefs.kStabilityRendererHangCount 0);;
  count ← GetInteger prefs.kStabilityChildProcessCrashCount;
  when (negb (count =? 0))
    (WriteIntAttribute "childprocesscrashcount" count;;
     modify_stability (Stability.set_child_process_crash_count count);;
     SetInteger prefs.kStabilityChildProcessCrashCount 0);;
  when (OS_CHROMEOS P)
    (count ← GetInteger prefs.kStabilityOtherUserCrashCount;
     when (negb (count =? 0))
       (modify_stability (Stability.set_other_user_crash_count count);;
        SetInteger prefs.kStabilityOtherUserCrashCount 0);;
     count ← GetInteger prefs.kStabilityKernelCrashCount;
     when (negb (count =? 0))
       (modify_stability (Stability.set_kernel_crash_count count);;
        SetInteger prefs.kStabilityKernelCrashCount 0);;
     count ← GetInteger prefs.kStabilitySystemUncleanShutdownCount;
     when (negb (count =? 0))
       (modify_stability (Stability.set_unclean_system_shutdown_count count);;
        SetInteger prefs.kStabilitySystemUncleanShutdownCount 0));;
  recent_duration ← GetIncrementalUptime;
  when (negb (recent_duration =? 0))
    (WriteInt64Attribute "uptimesec" recent_duration;;
     modify_stability (Stability.set_uptime_sec recent_duration)).

(** The linear scan of the plugin list: the first entry whose name equals
    the record's name, or [None] when the loop ends without a [break]. *)
Definition find_plugin_info (plugin_name_utf16 : string16)
    (plugin_list : list WebPluginInfo.t) : option WebPluginInfo.t :=
  find (fun it => string16_eqb (WebPluginInfo.name it) plugin_name_utf16)
    plugin_list.

(** The body of the loop over the persisted list in
    [WritePluginStabilityElements]; each [NOTREACHED] is followed by
    [continue]. *)
Definition WritePluginStabilityElements_iteration
    (plugin_list : list WebPluginInfo.t)
    (plugin_prefs : option (WebPluginInfo.t -> bool)) (iter : Value)
  : M unit :=
  match iter with
  | DictionaryValue plugin_dict =>
      let plugin_name :=
        Dictionary_GetString prefs.kStabilityPluginName plugin_dict "" in
      let base64_name_hash := fst (CreateHashes P plugin_name) in
      OPEN_ELEMENT_FOR_SCOPE "pluginstability"
        (WriteAttribute "filename" base64_name_hash;;
         let launches :=
           Dictionary_GetInteger prefs.kStabilityPluginLaunches
             plugin_dict 0 in
         WriteIntAttribute "launchcount" launches;;
         let instances :=
           Dictionary_GetInteger prefs.kStabilityPluginInstances
             plugin_dict 0 in
         WriteIntAttribute "instancecount" instances;;
         let crashes :=
           Dictionary_GetInteger prefs.kStabilityPluginCrashes
             plugin_dict 0 in
         WriteIntAttribute "crashcount" crashes;;
         let plugin_name_utf16 := UTF8ToUTF16 P plugin_name in
         match find_plugin_info plugin_name_utf16 plugin_list with
         | None => NOTREACHED
         | Some plugin_info =>
             modify_stability
               (Stability.add_plugin_stability
                  {| PluginStability.plugin :=
                       SetPluginInfo plugin_info plugin_prefs Plugin.empty;
                     PluginStability.launch_count := Some launches;
                     PluginStability.instance_count := Some instances;
                     PluginStability.crash_count := Some crashes |})
         end)
  | _ => NOTREACHED
  end.

Definition WritePluginStabilityElements (plugin_list : list WebPluginInfo.t)
  : M unit :=
  plugin_stats_list ← GetList prefs.kStabilityPluginStats;
  match plugin_stats_list with
  | None => ret tt
  | Some plugin_stats_list =>
      OPEN_ELEMENT_FOR_SCOPE "plugins"
        (let plugin_prefs := GetPluginPrefs P in
         for_each plugin_stats_list
           (WritePluginStabilityElements_iteration plugin_list plugin_prefs);;
         ClearPref prefs.kStabilityPluginStats)
  end.

Definition WriteStabilityElement (plugin_list : list WebPluginInfo.t)
  : M unit :=
  l ← is_locked;
  DCHECK (negb l);;
  OPEN_ELEMENT_FOR_SCOPE "stability"
    (WriteRequiredStabilityAttributes;;
     WriteRealtimeStabilityAttributes;;
     incomplete_shutdown_count ←
       GetInteger prefs.kStabilityIncompleteSessionEndCount;
     SetInteger prefs.kStabilityIncompleteSessionEndCount 0;;
     breakpad_registration_success_count ←
       GetInteger prefs.kStabilityBreakpadRegistrationSuccess;
     SetInteger prefs.kStabilityBreakpadRegistrationSuccess 0;;
     breakpad_registration_failure_count ←
       GetInteger prefs.kStabilityBreakpadRegistrationFail;
     SetInteger prefs.kStabilityBreakpadRegistrationFail 0;;
     debugger_present_count ← GetInteger prefs.kStabilityDebuggerPresent;
     SetInteger prefs.kStabilityDebuggerPresent 0;;
     debugger_not_present_count ←
       GetInteger prefs.kStabilityDebuggerNotPresent;
     SetInteger prefs.kStabilityDebuggerNotPresent 0;;
     WriteIntAttribute "incompleteshutdowncount" incomplete_shutdown_count;;
     WriteIntAttribute "breakpadregistrationok"
       breakpad_registration_success_count;;
     WriteIntAttribute "breakpadregistrationfail"
       breakpad_registration_failure_count;;
     WriteIntAttribute "debuggerpresent" debugger_present_count;;
     WriteIntAttribute "debuggernotpresent" debugger_not_present_count;;
     modify_stability
       (Stability.set_incomplete_shutdown_count incomplete_shutdown_count);;
     modify_stability
       (Stability.set_breakpad_registration_success_count
          breakpad_registration_success_count);;
     modify_stability
       (Stability.set_breakpad_registration_failure_count
          breakpad_registration_failure_count);;
     modify_stability
       (Stability.set_debugger_present_count debugger_present_count);;
     modify_stability
       (Stability.set_debugger_not_present_count debugger_not_present_count);;
     WritePluginStabilityElements plugin_list).

Definition WriteInstallElement : M unit :=
  OPEN_ELEMENT_FOR_SCOPE "install"
    (installdate ← GetInstallDate;
     WriteAttribute "installdate" installdate;;
     WriteIntAttribute "buildid" 0).

Definition RecordIncrementalStabilityElements
    (plugin_list : list WebPluginInfo.t) : M unit :=
  l ← is_locked;
  DCHECK (negb l);;
  OPEN_ELEMENT_FOR_SCOPE "profile"
    (WriteCommonEventAttributes;;
     WriteInstallElement;;
     OPEN_ELEMENT_FOR_SCOPE "stability"
       (WriteRequiredStabilityAttributes;;
        WriteRealtimeStabilityAttributes;;
        WritePluginStabilityElements plugin_list)).

Definition WritePluginList (plugin_list : list WebPluginInfo.t)
    (write_as_xml : bool) : M unit :=
  l ← is_locked;
  DCHECK (negb l);;
  let plugin_prefs := GetPluginPrefs P in
  OPEN_ELEMENT_FOR_SCOPE "plugins"
    (for_each plugin_list (fun iter =>
       if write_as_xml then
         let base64_name_hash :=
           fst (CreateHashes P (UTF16ToUTF8 P (WebPluginInfo.name iter))) in
         let filename_bytes := BaseName P (WebPluginInfo.path iter) in
         let base64_filename_hash := fst (CreateHashes P filename_bytes) in
         OPEN_ELEMENT_FOR_SCOPE "plugin"
           (WriteAttribute "name" base64_name_hash;;
            WriteAttribute "filename" base64_filename_hash;;
            WriteAttribute "version"
              (UTF16ToUTF8 P (WebPluginInfo.version iter));;
            match plugin_prefs with
            | Some IsPluginEnabled =>
                WriteIntAttribute "disabled"
                  (if negb (IsPluginEnabled iter) then 1 else 0)
            | None => ret tt
            end)
       else
         modify_system_profile
           (SystemProfileProto.add_plugin
              (SetPluginInfo iter plugin_prefs Plugin.empty)))).

(** The body of the loop over the keys in [WriteProfileMetrics]. *)
Definition WriteProfileMetrics_iteration
    (profile_metrics : list (string * Value)) (i : string) : M unit :=
  match GetWithoutPathExpansion i profile_metrics with
  | Some value =>
      DCHECK (negb (String.eqb i "id"));;
      match GetType value with
      | TYPE_STRING =>
          match GetAsString value with
          | Some string_value =>
              OPEN_ELEMENT_FOR_SCOPE "profileparam"
                (WriteAttribute "name" i;;
                 WriteAttribute "value" string_value)
          | None => ret tt
          end
      | TYPE_BOOLEAN =>
          match GetAsBoolean value with
          | Some bool_value =>
              OPEN_ELEMENT_FOR_SCOPE "profileparam"
                (WriteAttribute "name" i;;
                 WriteIntAttribute "value" (if bool_value then 1 else 0))
          | None => ret tt
          end
      | TYPE_INTEGER =>
          match GetAsInteger value with
          | Some int_value =>
              OPEN_ELEMENT_FOR_SCOPE "profileparam"
                (WriteAttribute "name" i;;
                 WriteIntAttribute "value" int_value)
          | None => ret tt
          end
      | _ => NOTREACHED
      end
  | None => ret tt
  end.

Definition WriteProfileMetrics (profileidhash : string)
    (profile_metrics : list (string * Value)) : M unit :=
  OPEN_ELEMENT_FOR_SCOPE "userprofile"
    (WriteAttribute "profileidhash" profileidhash;;
     for_each (map fst profile_metrics)
       (WriteProfileMetrics_iteration profile_metrics)).

Definition WriteAllProfilesMetrics
    (all_profiles_metrics : list (string * Value)) : M unit :=
  let profile_prefix := prefs.kProfilePrefix in
  for_each (map fst all_profiles_metrics) (fun key_name =>
    if String.prefix profile_prefix key_name then
      match GetDictionaryWithoutPathExpansion key_name all_profiles_metrics
      with
      | Some profile =>
          WriteProfileMetrics
            (substr (String.length profile_prefix) key_name) profile
      | None => ret tt
      end
    else ret tt).

Definition RecordEnvironmentProto (plugin_list : list WebPluginInfo.t)
  : M unit :=
  installdate ← GetInstallDate;
  let '(success, install_date) := StringToInt P installdate in
  DCHECK success;;
  modify_system_profile (set_install_date install_date);;
  modify_system_profile (set_application_locale (GetApplicationLocale P));;
  modify_system_profile (with_hardware (fun h =>
    {| Hardware.cpu_architecture := Some (CPUArchitecture P);
       Hardware.system_ram_mb := Some (AmountOfPhysicalMemoryMB P);
       Hardware.dll_base :=
         if OS_WIN P then Some (wrap_uint64 (ImageBase P))
         else Hardware.dll_base h;
       Hardware.gpu := Hardware.gpu h;
       Hardware.primary_screen_width := Hardware.primary_screen_width h;
       Hardware.primary_screen_height := Hardware.primary_screen_height h;
       Hardware.screen_count := Hardware.screen_count h |}));;
  modify_system_profile (with_os (fun _ =>
    {| OS.name := Some (OperatingSystemName P);
       OS.version := Some (OperatingSystemVersion P) |}));;
  let gpu_info := GetGPUInfo P in
  let display_size := GetScreenSize P in
  modify_system_profile (with_hardware (fun h =>
    {| Hardware.cpu_architecture := Hardware.cpu_architecture h;
       Hardware.system_ram_mb := Hardware.system_ram_mb h;
       Hardware.dll_base := Hardware.dll_base h;
       Hardware.gpu :=
         {| Graphics.vendor_id := Some (GPUInfo.vendor_id gpu_info);
            Graphics.device_id := Some (GPUInfo.device_id gpu_info);
            Graphics.driver_version :=
              Some (GPUInfo.driver_version gpu_info);
            Graphics.driver_date := Some (GPUInfo.driver_date gpu_info);
            Graphics.graphics_score := Some (GPUInfo.graphics gpu_info);
            Graphics.gaming_score := Some (GPUInfo.gaming gpu_info);
            Graphics.overall_score := Some (GPUInfo.overall gpu_info) |};
       Hardware.primary_screen_width := Some (fst display_size);
       Hardware.primary_screen_height := Some (snd display_size);
       Hardware.screen_count := Some (GetScreenCount P) |}));;
  let write_as_xml := false in
  WritePluginList plugin_list write_as_xml;;
  let field_trial_ids := GetFieldTrialIds P in
  WriteFieldTrials field_trial_ids.

Definition RecordEnvironment (plugin_list : list WebPluginInfo.t)
    (profile_metrics : option (list (string * Value))) : M unit :=
  l ← is_locked;
  DCHECK (negb l);;
  OPEN_ELEMENT_FOR_SCOPE "profile"
    (WriteCommonEventAttributes;;
     WriteInstallElement;;
     let write_as_xml := true in
     WritePluginList plugin_list write_as_xml;;
     WriteStabilityElement plugin_list;;
     OPEN_ELEMENT_FOR_SCOPE "cpu"
       (WriteAttribute "arch" (CPUArchitecture P));;
     OPEN_ELEMENT_FOR_SCOPE "memory"
       (WriteIntAttribute "mb" (AmountOfPhysicalMemoryMB P);;
        when (OS_WIN P)
          (WriteIntAttribute "dllbase" (wrap_int (ImageBase P))));;
     OPEN_ELEMENT_FOR_SCOPE "os"
       (WriteAttribute "name" (OperatingSystemName P);;
        WriteAttribute "version" (OperatingSystemVersion P));;
     OPEN_ELEMENT_FOR_SCOPE "gpu"
       (let gpu_info := GetGPUInfo P in
        WriteIntAttribute "vendorid" (wrap_int (GPUInfo.vendor_id gpu_info));;
        WriteIntAttribute "deviceid" (wrap_int (GPUInfo.device_id gpu_info)));;
     (let display_size := GetScreenSize P in
      OPEN_ELEMENT_FOR_SCOPE "display"
        (WriteIntAttribute "xsize" (fst display_size);;
         WriteIntAttribute "ysize" (snd display_size);;
         WriteIntAttribute "screens" (GetScreenCount P)));;
     OPEN_ELEMENT_FOR_SCOPE "bookmarks"
       (num_bookmarks_on_bookmark_bar ←
          GetInteger prefs.kNumBookmarksOnBookmarkBar;
        num_folders_on_bookmark_bar ←
          GetInteger prefs.kNumFoldersOnBookmarkBar;
        num_bookmarks_in_other_bookmarks_folder ←
          GetInteger prefs.kNumBookmarksInOtherBookmarkFolder;
        num_folders_in_other_bookmarks_folder ←
          GetInteger prefs.kNumFoldersInOtherBookmarkFolder;
        OPEN_ELEMENT_FOR_SCOPE "bookmarklocation"
          (WriteAttribute "name" "full-tree";;
           WriteIntAttribute "foldercount"
             (wrap_int (num_folders_on_bookmark_bar +
                        num_folders_in_other_bookmarks_folder));;
           WriteIntAttribute "itemcount"
             (wrap_int (num_bookmarks_on_bookmark_bar +
                        num_bookmarks_in_other_bookmarks_folder)));;
        OPEN_ELEMENT_FOR_SCOPE "bookmarklocation"
          (WriteAttribute "name" "toolbar";;
           WriteIntAttribute "foldercount" num_folders_on_bookmark_bar;;
           WriteIntAttribute "itemcount" num_bookmarks_on_bookmark_bar));;
     OPEN_ELEMENT_FOR_SCOPE "keywords"
       (count ← GetInteger prefs.kNumKeywords;
        WriteIntAttribute "count" count);;
     match profile_metrics with
     | Some profile_metrics => WriteAllProfilesMetrics profile_metrics
     | None => ret tt
     end;;
     RecordEnvironmentProto plugin_list).

Definition RecordOmniboxOpenedURL (log : AutocompleteLog.t) : M unit :=
  l ← is_locked;
  DCHECK (negb l);;
  let num_terms :=
    wrap_int (Z.of_nat (length (Tokenize P (AutocompleteLog.text log)))) in
  let has_duration :=
    negb (AutocompleteLog.elapsed_time_since_user_first_modified_omnibox log
          =? FromMilliseconds (-1)) in
  OPEN_ELEMENT_FOR_SCOPE "uielement"
    (WriteAttribute "action" "autocomplete";;
     WriteAttribute "targetidhash" "";;
     WriteIntAttribute "window" 0;;
     when (negb (AutocompleteLog.tab_id log =? -1))
       (WriteIntAttribute "tab" (wrap_int (AutocompleteLog.tab_id log)));;
     WriteCommonEventAttributes;;
     OPEN_ELEMENT_FOR_SCOPE "autocomplete"
       (WriteIntAttribute "typedlength"
          (wrap_int (Z.of_nat (length (AutocompleteLog.text log))));;
        WriteIntAttribute "numterms" num_terms;;
        WriteIntAttribute "selectedindex"
          (wrap_int (AutocompleteLog.selected_index log));;
        WriteIntAttribute "completedlength"
          (wrap_int (AutocompleteLog.inline_autocompleted_length log));;
        when has_duration
          (WriteInt64Attribute "typingduration"
             (InMilliseconds
                (AutocompleteLog.elapsed_time_since_user_first_modified_omnibox
                   log)));;
        (let input_type :=
           AutocompleteInput_TypeToString P (AutocompleteLog.input_type log)
         in
         when (negb (String.eqb input_type ""))
           (WriteAttribute "inputtype" input_type));;
        for_each (AutocompleteLog.result log) (fun i =>
          OPEN_ELEMENT_FOR_SCOPE "autocompleteitem"
            (match AutocompleteMatch.provider i with
             | Some name => WriteAttribute "provider" name
             | None => ret tt
             end;;
             (let result_type :=
                AutocompleteMatch_TypeToString P (AutocompleteMatch.type i)
              in
              when (negb (String.eqb result_type ""))
                (WriteAttribute "resulttype" result_type));;
             WriteIntAttribute "relevance" (AutocompleteMatch.relevance i);;
             WriteIntAttribute "isstarred"
               (if AutocompleteMatch.starred i then 1 else 0))));;
     now ← GetCurrentTime;
     modify_proto
       (ChromeUserMetricsExtension.add_omnibox_event
          {| OmniboxEventProto.time := Some now;
             OmniboxEventProto.tab_id :=
               if negb (AutocompleteLog.tab_id log =? -1)
               then Some (AutocompleteLog.tab_id log) else None;
             OmniboxEventProto.typed_length :=
               Some (wrap_int (Z.of_nat (length (AutocompleteLog.text log))));
             OmniboxEventProto.num_typed_terms := Some num_terms;
             OmniboxEventProto.selected_index :=
               Some (wrap_int (AutocompleteLog.selected_index log));
             OmniboxEventProto.completed_length :=
               Some
                 (wrap_int (AutocompleteLog.inline_autocompleted_length log));
             OmniboxEventProto.typing_duration_ms :=
               if has_duration
               then Some
                      (InMilliseconds
                         (AutocompleteLog.elapsed_time_since_user_first_modified_omnibox
                            log))
               else None;
             OmniboxEventProto.input_type :=
               Some (AsOmniboxEventInputType (AutocompleteLog.input_type log));
             OmniboxEventProto.suggestion := [] |});;
     for_each (AutocompleteLog.result log) (fun i =>
       modify_proto (add_suggestion_to_last_event new_Suggestion);;
       provider ← AsOmniboxEventProviderType (AutocompleteMatch.provider i);
       modify_proto (in_last_suggestion (set_provider provider));;
       result_type ← AsOmniboxEventResultType (AutocompleteMatch.type i);
       modify_proto (in_last_suggestion (set_result_type result_type));;
       modify_proto
         (in_last_suggestion (set_relevance (AutocompleteMatch.relevance i)));;
       modify_proto
         (in_last_suggestion
            (set_is_starred (AutocompleteMatch.starred i))));;
     n ← gets (fun w => num_events (this w));
     modify (with_log (with_num_events (wrap_int (n + 1))))).

End MetricsLogModel.

(** ** A concrete platform and concrete worlds *)

(** Stand-ins for the helpers of other files, used where a statement is
    evaluated on a concrete input: a digest that prefixes its input, the
    ASCII part of the UTF-8/UTF-16 conversions, a decimal parser, and a
    tokenizer that splits at spaces. *)
Definition toy_CreateHashes (s : string) : string * Z :=
  ("md5:" ++ s, Z.of_nat (String.length s)).

Definition toy_UTF8ToUTF16 (s : string) : string16 :=
  map (fun c => Z.of_nat (Ascii.nat_of_ascii c)) (String.list_ascii_of_string s).
Definition toy_UTF16ToUTF8 (s : string16) : string :=
  String.string_of_list_ascii
    (map (fun z => Ascii.ascii_of_nat (Z.to_nat z)) s).

Fixpoint toy_parse_digits (acc : Z) (s : list Ascii.ascii) : bool * Z :=
  match s with
  | [] => (true, acc)
  | c :: rest =>
      let d := Z.of_nat (Ascii.nat_of_ascii c) - 48 in
      if (0 <=? d) && (d <=? 9) then toy_parse_digits (10 * acc + d) rest
      else (false, acc)
  end.
Definition toy_StringToInt (s : string) : bool * Z :=
  match String.list_ascii_of_string s with
  | [] => (false, 0)
  | l => toy_parse_digits 0 l
  end.

Fixpoint toy_split (cur : string16) (s : string16) : list string16 :=
  match s with
  | [] => match cur with [] => [] | _ => [cur] end
  | c :: rest =>
      if c =? 32
      then match cur with
           | [] => toy_split [] rest
           | _ => cur :: toy_split [] rest
           end
      else toy_split (cur ++ [c]) rest
  end.

Definition toy_InputTypeToString (t : AutocompleteInput_Type) : string :=
  match t with
  | INVALID => "invalid"
  | UNKNOWN => "unknown"
  | REQUESTED_URL => "requested-url"
  | URL => "url"
  | QUERY => "query"
  | FORCED_QUERY => "forced-query"
  end.

Definition toy_MatchTypeToString (t : AutocompleteMatch_Type) : string :=
  match t with
  | URL_WHAT_YOU_TYPED => "url-what-you-typed"
  | HISTORY_URL => "history-url"
  | HISTORY_TITLE => "history-title"
  | HISTORY_BODY => "history-body"
  | HISTORY_KEYWORD => "history-keyword"
  | NAVSUGGEST => "navsuggest"
  | SEARCH_WHAT_YOU_TYPED => "search-what-you-typed"
  | SEARCH_HISTORY => "search-history"
  | SEARCH_SUGGEST => "search-suggest"
  | SEARCH_OTHER_ENGINE => "search-other-engine"
  | EXTENSION_APP => "extension-app"
  | NUM_TYPES => ""
  end.

Definition sample_platform (dcheck chromeos : bool) : Platform :=
  {| dcheck_is_on := dcheck;
     OS_CHROMEOS := chromeos;
     OS_WIN := false;
     ImageBase := 0;
     CreateHashes := toy_CreateHashes;
     UTF8ToUTF16 := toy_UTF8ToUTF16;
     UTF16ToUTF8 := toy_UTF16ToUTF8;
     BaseName := fun p => p;
     StringToInt := toy_StringToInt;
     Tokenize := toy_split [];
     AutocompleteInput_TypeToString := toy_InputTypeToString;
     AutocompleteMatch_TypeToString := toy_MatchTypeToString;
     GetPluginPrefs := None;
     CPUArchitecture := "x86_64";
     AmountOfPhysicalMemoryMB := 4096;
     OperatingSystemName := "Linux";
     OperatingSystemVersion := "3.2";
     GetGPUInfo :=
       {| GPUInfo.vendor_id := 4318; GPUInfo.device_id := 1;
          GPUInfo.driver_version := "1.0"; GPUInfo.driver_date := "2012";
          GPUInfo.graphics := 0; GPUInfo.gaming := 0;
          GPUInfo.overall := 0 |};
     GetScreenSize := (1280, 1024);
     GetScreenCount := 1;
     GetApplicationLocale := "en-US";
     GetFieldTrialIds := [] |}.

Definition empty_prefs : PrefService :=
  {| pref_integers := ∅; pref_int64s := ∅; pref_strings := ∅;
     pref_lists := ∅ |}.

Definition sample_prefs (ints : list (string * Z))
    (plugin_stats : option (list Value)) : PrefService :=
  {| pref_integers := list_to_map ints;
     pref_int64s := ∅;
     pref_strings := {[ prefs.kMetricsClientIDTimestamp := "1330000000" ]};
     pref_lists :=
       match plugin_stats with
       | Some l => {[ prefs.kStabilityPluginStats := l ]}
       | None => ∅
       end |}.

(** A world whose report is freshly constructed and whose uptime
    checkpoint is not initialised yet. *)
Definition sample_world (p : PrefService) : World :=
  {| this := new_MetricsLog "7"; local_state := p;
     last_updated_time := None; TimeTicks_Now := 5000000;
     Time_Now := 1330000100; MetricsLogBase_GetCurrentTime := 5 |}.

(** The same world inside an open element, as the helper methods find
    it. *)
Definition sample_world_in (tag : string) (p : PrefService) : World :=
  with_log (fun l =>
    with_xml [] [{| frame_tag := tag; frame_attributes := [];
                    frame_children := [] |}] l) (sample_world p).

Definition usage_record (name : string) (launches instances crashes : Z)
  : Value :=
  DictionaryValue
    [(prefs.kStabilityPluginCrashes, IntegerValue crashes);
     (prefs.kStabilityPluginInstances, IntegerValue instances);
     (prefs.kStabilityPluginLaunches, IntegerValue launches);
     (prefs.kStabilityPluginName, StringValue name)].

Definition inventory_item (name version : string) : WebPluginInfo.t :=
  {| WebPluginInfo.name := toy_UTF8ToUTF16 name;
     WebPluginInfo.path := name ++ ".so";
     WebPluginInfo.version := toy_UTF8ToUTF16 version |}.

(** ** The correlation, as the spec words it *)

(** The counters and the name of one persisted usage record. *)
Definition record_name (d : list (string * Value)) : string :=
  Dictionary_GetString prefs.kStabilityPluginName d "".
Definition record_launches (d : list (string * Value)) : Z :=
  Dictionary_GetInteger prefs.kStabilityPluginLaunches d 0.
Definition record_instances (d : list (string * Value)) : Z :=
  Dictionary_GetInteger prefs.kStabilityPluginInstances d 0.
Definition record_crashes (d : list (string * Value)) : Z :=
  Dictionary_GetInteger prefs.kStabilityPluginCrashes d 0.

(** The entries of the persisted list that are dictionaries. *)
Definition as_dictionary (v : Value) : option (list (string * Value)) :=
  match v with DictionaryValue d => Some d | _ => None end.
Definition dictionaries (stats : list Value) : list (list (string * Value)) :=
  omap as_dictionary stats.

(** The inventory item that a usage record is joined with: the first one
    whose name is exactly the record's name. *)
Definition matching_item (P : Platform) (plugin_list : list WebPluginInfo.t)
    (d : list (string * Value)) : option WebPluginInfo.t :=
  find_plugin_info (UTF8ToUTF16 P (record_name d)) plugin_list.

(** The legacy element of a usage record: the hashed name under
    "filename" and the three counters. *)
Definition legacy_plugin_element (P : Platform) (d : list (string * Value))
  : Element :=
  Elem "pluginstability"
    [("filename", AttrString (fst (CreateHashes P (record_name d))));
     ("launchcount", AttrInt (record_launches d));
     ("instancecount", AttrInt (record_instances d));
     ("crashcount", AttrInt (record_crashes d))]
    [].

(** The structured entry of a usage record, present when the record has
    a matching inventory item: the item's descriptor and the record's
    counters. *)
Definition structured_plugin_entry (P : Platform)
    (plugin_list : list WebPluginInfo.t) (d : list (string * Value))
  : option PluginStability.t :=
  match matching_item P plugin_list d with
  | Some info =>
      Some {| PluginStability.plugin :=
                SetPluginInfo P info (GetPluginPrefs P) Plugin.empty;
              PluginStability.launch_count := Some (record_launches d);
              PluginStability.instance_count := Some (record_instances d);
              PluginStability.crash_count := Some (record_crashes d) |}
  | None => None
  end.

(** A usage record that trips no debug check: a dictionary with a
    matching inventory item. *)
Definition well_matched (P : Platform) (plugin_list : list WebPluginInfo.t)
    (v : Value) : bool :=
  match v with
  | DictionaryValue d => bool_decide (is_Some (matching_item P plugin_list d))
  | _ => false
  end.

(** ** Shapes of the attribute tree *)

Definition new_frame (tag : string) : Frame :=
  {| frame_tag := tag; frame_attributes := []; frame_children := [] |}.

Definition extend_frame (A : list (string * AttributeValue))
    (C : list Element) (f : Frame) : Frame :=
  {| frame_tag := frame_tag f;
     frame_attributes := frame_attributes f ++ A;
     frame_children := frame_children f ++ C |}.

(** The innermost open element gains the attributes [A] and the children
    [C]. *)
Definition extend_top (A : list (string * AttributeValue))
    (C : list Element) (l : MetricsLog) : MetricsLog :=
  match xml_open l with
  | [] => l
  | f :: rest => with_xml (xml_closed l) (extend_frame A C f :: rest) l
  end.

(** A finished element is attached where the writer stands: as the last
    child of the innermost open element, or as a root section. *)
Definition attach (e : Element) (l : MetricsLog) : MetricsLog :=
  match xml_open l with
  | [] => with_xml (xml_closed l ++ [e]) [] l
  | f :: rest => with_xml (xml_closed l) (add_child e f :: rest) l
  end.

Definition add_plugin_entries (es : list PluginStability.t)
    (u : ChromeUserMetricsExtension.t) : ChromeUserMetricsExtension.t :=
  ChromeUserMetricsExtension.with_system_profile
    (SystemProfileProto.with_stability (fun s =>
       {| Stability.fields := Stability.fields s;
          Stability.plugin_stability := Stability.plugin_stability s ++ es |}))
    u.

Definition stability_of (l : MetricsLog) : Stability.t :=
  SystemProfileProto.stability
    (ChromeUserMetricsExtension.system_profile (uma_proto l)).

(** What the plugin stability pass leaves behind when it runs to its end
    over the persisted list [stats]. *)
Definition plugin_pass_result (P : Platform)
    (plugin_list : list WebPluginInfo.t) (stats : list Value) (w : World)
  : World :=
  with_local_state (PrefService_ClearPref prefs.kStabilityPluginStats)
    (with_log (fun l =>
       attach
         (Elem "plugins" []
            (map (legacy_plugin_element P) (dictionaries stats)))
         (with_uma_proto
            (add_plugin_entries
               (omap (structured_plugin_entry P plugin_list)
                  (dictionaries stats))) l)) w).

(** What one iteration of the pass over the persisted list contributes:
    a legacy element for a dictionary, and a structured entry when the
    dictionary has a matching inventory item. *)
Definition iteration_children (P : Platform) (v : Value) : list Element :=
  match as_dictionary v with
  | Some d => [legacy_plugin_element P d]
  | None => []
  end.
Definition iteration_entries (P : Platform)
    (plugin_list : list WebPluginInfo.t) (v : Value)
  : list PluginStability.t :=
  match as_dictionary v with
  | Some d => option_list (structured_plugin_entry P plugin_list d)
  | None => []
  end.

(** An iteration gets past its debug checks: they are compiled out, or
    the record is a dictionary with a matching item. *)
Definition passes (P : Platform) (plugin_list : list WebPluginInfo.t)
    (v : Value) : Prop :=
  dcheck_is_on P = false \/ well_matched P plugin_list v = true.

(** ** The stability counters *)

Definition set_stability_field (field : string) (v : Z)
    (u : ChromeUserMetricsExtension.t) : ChromeUserMetricsExtension.t :=
  ChromeUserMetricsExtension.with_system_profile
    (SystemProfileProto.with_stability (Stability.set_field field v)) u.

(** The world after a block that wrote the attributes [A] and the
    children [C] into the innermost open element and changed the protobuf
    by [u]. *)
Definition wrote (A : list (string * AttributeValue)) (C : list Element)
    (u : ChromeUserMetricsExtension.t -> ChromeUserMetricsExtension.t)
    (w : World) : World :=
  with_log (fun l => with_uma_proto u (extend_top A C l)) w.

(** One block of [WriteRealtimeStabilityAttributes]: a counter that is
    not zero is written, as the attribute [attr] when it has a legacy
    name and as the protobuf field [field], and reset. *)
Definition optional_attribute (attr : option string) (count : Z)
  : list (string * AttributeValue) :=
  match attr with
  | Some a => if count =? 0 then [] else [(a, AttrInt count)]
  | None => []
  end.

Definition counter_step (key : string) (attr : option string)
    (field : string) (w : World) : World :=
  let count := PrefService_GetInteger key (local_state w) in
  if count =? 0 then w
  else
    with_local_state (PrefService_SetInteger key 0)
      (wrote (optional_attribute attr count) []
         (set_stability_field field count) w).

(** The uptime block at the end of [WriteRealtimeStabilityAttributes]. *)
Definition uptime_step (w : World) : World :=
  let w1 := final_world (GetIncrementalUptime w) in
  let now := TimeTicks_Now w in
  let recent_duration :=
    InSeconds (wrap_int64 (now - default now (last_updated_time w))) in
  if recent_duration =? 0 then w1
  else
    wrote [("uptimesec", AttrInt64 recent_duration)] []
      (set_stability_field "uptime_sec" recent_duration) w1.

Definition chromeos_steps (P : Platform) (w : World) : World :=
  if OS_CHROMEOS P then
    counter_step prefs.kStabilitySystemUncleanShutdownCount None
      "unclean_system_shutdown_count"
      (counter_step prefs.kStabilityKernelCrashCount None
         "kernel_crash_count"
         (counter_step prefs.kStabilityOtherUserCrashCount None
            "other_user_crash_count" w))
  else w.

Definition realtime_steps (w : World) : World :=
  counter_step prefs.kStabilityChildProcessCrashCount
    (Some "childprocesscrashcount") "child_process_crash_count"
    (counter_step prefs.kStabilityRendererHangCount
       (Some "rendererhangcount") "renderer_hang_count"
       (counter_step prefs.kStabilityExtensionRendererCrashCount
          (Some "extensionrenderercrashcount")
          "extension_renderer_crash_count"
          (counter_step prefs.kStabilityRendererCrashCount
             (Some "renderercrashcount") "renderer_crash_count"
             (counter_step prefs.kStabilityPageLoadCount
                (Some "pageloadcount") "page_load_count" w)))).

(** The two required counters are written and reset whatever their
    value. *)
Definition required_step (w : World) : World :=
  let launch_count :=
    PrefService_GetInteger prefs.kStabilityLaunchCount (local_state w) in
  let crash_count :=
    PrefService_GetInteger prefs.kStabilityCrashCount (local_state w) in
  with_local_state
    (fun p =>
       PrefService_SetInteger prefs.kStabilityCrashCount 0
         (PrefService_SetInteger prefs.kStabilityLaunchCount 0 p))
    (wrote
       [("launchcount", AttrInt launch_count);
        ("crashcount", AttrInt crash_count)] []
       (fun u =>
          set_stability_field "crash_count" crash_count
            (set_stability_field "launch_count" launch_count u)) w).

(** The stability snapshot that both record operations take: the
    required counters, then the realtime ones. *)
Definition snapshot_result (P : Platform) (w : World) : World :=
  uptime_step (chromeos_steps P (realtime_steps (required_step w))).

Definition stability_field (field : string) (w : World) : option Z :=
  Stability.field field (stability_of (this w)).
Definition counter (key : string) (w : World) : Z :=
  PrefService_GetInteger key (local_state w).

(** The counters of a stability snapshot, as the source pairs them: the
    preference that holds the counter, the legacy attribute and the
    protobuf field. *)
Definition required_counters : list (string * string * string) :=
  [(prefs.kStabilityLaunchCount, "launchcount", "launch_count");
   (prefs.kStabilityCrashCount, "crashcount", "crash_count")].

Definition realtime_counters : list (string * string * string) :=
  [(prefs.kStabilityPageLoadCount, "pageloadcount", "page_load_count");
   (prefs.kStabilityRendererCrashCount, "renderercrashcount",
    "renderer_crash_count");
   (prefs.kStabilityExtensionRendererCrashCount,
    "extensionrenderercrashcount", "extension_renderer_crash_count");
   (prefs.kStabilityRendererHangCount, "rendererhangcount",
    "renderer_hang_count");
   (prefs.kStabilityChildProcessCrashCount, "childprocesscrashcount",
    "child_process_crash_count")].

(** The platform-conditional counters have a protobuf field and no
    legacy attribute. *)
Definition platform_counters : list (string * string) :=
  [(prefs.kStabilityOtherUserCrashCount, "other_user_crash_count");
   (prefs.kStabilityKernelCrashCount, "kernel_crash_count");
   (prefs.kStabilitySystemUncleanShutdownCount,
    "unclean_system_shutdown_count")].

Definition recent_duration_of (w : World) : Z :=
  InSeconds
    (wrap_int64
       (TimeTicks_Now w - default (TimeTicks_Now w) (last_updated_time w))).

(** The attributes that a snapshot taken in the world [w] writes. *)
Definition snapshot_attributes (w : World) : list (string * AttributeValue) :=
  let count key := counter key w in
  [("launchcount", AttrInt (count prefs.kStabilityLaunchCount));
   ("crashcount", AttrInt (count prefs.kStabilityCrashCount))] ++
  optional_attribute (Some "pageloadcount")
    (count prefs.kStabilityPageLoadCount) ++
  optional_attribute (Some "renderercrashcount")
    (count prefs.kStabilityRendererCrashCount) ++
  optional_attribute (Some "extensionrenderercrashcount")
    (count prefs.kStabilityExtensionRendererCrashCount) ++
  optional_attribute (Some "rendererhangcount")
    (count prefs.kStabilityRendererHangCount) ++
  optional_attribute (Some "childprocesscrashcount")
    (count prefs.kStabilityChildProcessCrashCount) ++
  (if recent_duration_of w =? 0 then []
   else [("uptimesec", AttrInt64 (recent_duration_of w))]).


(** The world in which [RecordIncrementalStabilityElements] takes its
    snapshot: inside the "stability" element of a "profile" element that
    already holds the common attributes and the "install" element. *)
Definition incremental_prefix (P : Platform) (w : World) : World :=
  final_world
    ((StartElement "profile";;
      WriteCommonEventAttributes P;;
      WriteInstallElement P;;
      StartElement "stability") w).

(** The operation may run: the report is not locked, or the build has no
    debug checks. *)
Definition runnable (P : Platform) (w : World) : Prop :=
  locked (this w) = false \/ dcheck_is_on P = false.

(** The five counters that only [WriteStabilityElement] reports; they
    are written whatever their value. *)
Definition session_counters : list (string * string * string) :=
  [(prefs.kStabilityIncompleteSessionEndCount, "incompleteshutdowncount",
    "incomplete_shutdown_count");
   (prefs.kStabilityBreakpadRegistrationSuccess, "breakpadregistrationok",
    "breakpad_registration_success_count");
   (prefs.kStabilityBreakpadRegistrationFail, "breakpadregistrationfail",
    "breakpad_registration_failure_count");
   (prefs.kStabilityDebuggerPresent, "debuggerpresent",
    "debugger_present_count");
   (prefs.kStabilityDebuggerNotPresent, "debuggernotpresent",
    "debugger_not_present_count")].

Definition session_attributes (w : World) : list (string * AttributeValue) :=
  map (fun '(key, attr, _) => (attr, AttrInt (counter key w)))
    session_counters.

Definition session_step (w : World) : World :=
  with_local_state
    (fun p =>
       fold_left (fun p '(key, _, _) => PrefService_SetInteger key 0 p)
         session_counters p)
    (wrote (session_attributes w) []
       (fun u =>
          fold_left
            (fun u '(key, _, field) =>
               set_stability_field field (counter key w) u)
            session_counters u) w).

(** The world in which [WriteStabilityElement] takes its snapshot. *)
Definition enter_stability (w : World) : World :=
  final_world (StartElement "stability" w).

(** ** Reports over time *)

(** Modelled from the spec: between two reports, collaborators increment
    counters; [increments I] increments the counters named in [I], one
    after the other. *)
Definition increments (I : list string) (p : PrefService) : PrefService :=
  fold_left (fun p key => PrefService_Increment key p) I p.

(** How often the counter [key] is incremented by [I]. *)
Fixpoint count_of (key : string) (I : list string) : Z :=
  match I with
  | [] => 0
  | k :: rest => (if String.eqb key k then 1 else 0) + count_of key rest
  end.

(** What a report says about a counter: the value of its protobuf field,
    an absent field meaning zero. *)
Definition reported (field : string) (w : World) : Z :=
  default 0 (stability_field field w).

(** A report that holds no stability counter yet. *)
Definition fresh_report (w : World) : Prop :=
  forall field, stability_field field w = None.

(** The counters that a snapshot consumes, with the protobuf field of
    each: the incremental snapshot takes the required, the realtime and,
    on Chrome OS, the platform counters; the full one of
    [WriteStabilityElement] takes the session counters as well. *)
Definition key_and_field (c : string * string * string) : string * string :=
  (fst (fst c), snd c).
Definition consumed (P : Platform) (full : bool) : list (string * string) :=
  map key_and_field (required_counters ++ realtime_counters) ++
  (if OS_CHROMEOS P then platform_counters else []) ++
  (if full then map key_and_field session_counters else []).

Definition take_snapshot (P : Platform) (full : bool)
    (plugin_list : list WebPluginInfo.t) : M unit :=
  if full then WriteStabilityElement P plugin_list
  else RecordIncrementalStabilityElements P plugin_list.

(** The number that an attribute holds. *)
Definition attribute_number (v : option AttributeValue) : option Z :=
  match v with
  | Some (AttrInt z) => Some z
  | Some (AttrInt64 z) => Some z
  | _ => None
  end.

Definition is_session_counter (key : string) : bool :=
  existsb (fun c => String.eqb key (fst (fst c))) session_counters.
Definition is_session_field (field : string) : bool :=
  existsb (fun c => String.eqb field (snd c)) session_counters.

(** The world in which an operation takes its snapshot, and the world
    that the snapshot leaves. *)
Definition before_snapshot (P : Platform) (full : bool) (w : World) : World :=
  if full then enter_stability w else incremental_prefix P w.
Definition after_snapshot (P : Platform) (full : bool) (w : World) : World :=
  if full then session_step (snapshot_result P (enter_stability w))
  else snapshot_result P (incremental_prefix P w).


(** A snapshot in a world that the spec's scenario describes: three
    launches, no crash, five page loads. *)
Definition scenario_prefs : PrefService :=
  sample_prefs
    [(prefs.kStabilityLaunchCount, 3); (prefs.kStabilityPageLoadCount, 5)]
    None.

(** ** Per-profile metrics *)

(** The element that [WriteProfileMetrics] writes for the key [i]: a
    "profileparam" for a string, boolean or integer value, and nothing
    for a value of any other type. *)
Definition profile_param (profile_metrics : list (string * Value))
    (i : string) : option Element :=
  match GetWithoutPathExpansion i profile_metrics with
  | Some (StringValue s) =>
      Some (Elem "profileparam"
              [("name", AttrString i); ("value", AttrString s)] [])
  | Some (BooleanValue b) =>
      Some (Elem "profileparam"
              [("name", AttrString i);
               ("value", AttrInt (if b then 1 else 0))] [])
  | Some (IntegerValue n) =>
      Some (Elem "profileparam"
              [("name", AttrString i); ("value", AttrInt n)] [])
  | _ => None
  end.

(** A value of one of the three types that the profile metrics
    recognize. *)
Definition recognized (v : Value) : bool :=
  match GetType v with
  | TYPE_STRING | TYPE_BOOLEAN | TYPE_INTEGER => true
  | _ => false
  end.

(** Worlds for the plugin scenarios of the spec: one usage record "Foo"
    with two crashes, or the records "Bar" and "Foo", against an inventory
    that holds "Foo" in version "1.0". *)
Definition foo_inventory : list WebPluginInfo.t :=
  [inventory_item "Foo" "1.0"].
Definition foo_world : World :=
  sample_world_in "stability"
    (sample_prefs [] (Some [usage_record "Foo" 1 1 2])).
Definition bar_foo_world : World :=
  sample_world_in "stability"
    (sample_prefs [] (Some [usage_record "Bar" 4 5 6;
                            usage_record "Foo" 1 1 2])).

(** ** The tree of an incremental report *)

(** The "plugins" child that the plugin pass adds to the "stability"
    element: none when the persisted list is absent. *)
Definition plugin_children (P : Platform) (w : World) : list Element :=
  match PrefService_GetList prefs.kStabilityPluginStats (local_state w) with
  | None => []
  | Some stats =>
      [Elem "plugins" []
         (map (legacy_plugin_element P) (dictionaries stats))]
  end.

(** The structured entries that the plugin pass adds. *)
Definition plugin_entries (P : Platform)
    (plugin_list : list WebPluginInfo.t) (w : World)
  : list PluginStability.t :=
  match PrefService_GetList prefs.kStabilityPluginStats (local_state w) with
  | None => []
  | Some stats =>
      omap (structured_plugin_entry P plugin_list) (dictionaries stats)
  end.

(** The "stability" element of a report taken in the world [w], and the
    "profile" element that [RecordIncrementalStabilityElements] puts
    around it. *)
Definition stability_element (P : Platform) (w : World) : Element :=
  Elem "stability" (snapshot_attributes w) (plugin_children P w).

Definition incremental_profile_element (P : Platform) (w : World) : Element :=
  Elem "profile"
    [("session", AttrString (session_id (this w)));
     ("time", AttrInt64 (Time_Now w))]
    [Elem "install"
       [("installdate",
         AttrString
           (PrefService_GetString prefs.kMetricsClientIDTimestamp
              (local_state w)));
        ("buildid", AttrInt 0)] [];
     stability_element P w].

(** The pass over the persisted list trips no debug check. *)
Definition plugin_pass_passes (P : Platform)
    (plugin_list : list WebPluginInfo.t) (w : World) : Prop :=
  match PrefService_GetList prefs.kStabilityPluginStats (local_state w) with
  | None => True
  | Some stats => Forall (passes P plugin_list) stats
  end.

(** ** Concrete inputs *)

(** A locked report. *)
Definition locked_world : World :=
  with_log (with_locked true) (sample_world scenario_prefs).

Definition sample_omnibox_log : AutocompleteLog.t :=
  {| AutocompleteLog.text := toy_UTF8ToUTF16 "foo bar";
     AutocompleteLog.input_type := QUERY;
     AutocompleteLog.selected_index := 0;
     AutocompleteLog.tab_id := 3;
     AutocompleteLog.inline_autocompleted_length := 0;
     AutocompleteLog.elapsed_time_since_user_first_modified_omnibox :=
       FromMilliseconds (-1);
     AutocompleteLog.result :=
       [{| AutocompleteMatch.provider := Some "Search";
           AutocompleteMatch.type := SEARCH_SUGGEST;
           AutocompleteMatch.relevance := 100;
           AutocompleteMatch.starred := false |}] |}.

(** The metrics of one profile: a string, and a double, which is none of
    the three recognized types. *)
Definition sample_profile : list (string * Value) :=
  [("homepage", StringValue "about:blank"); ("score", DoubleValue 0)].
Definition sample_profiles : list (string * Value) :=
  [("profile-abc", DictionaryValue sample_profile)].

(** A Chrome OS world with two kernel crashes and one usage record of a
    plugin that is no longer installed. *)
Definition chromeos_world : World :=
  sample_world
    (sample_prefs [(prefs.kStabilityKernelCrashCount, 2)]
       (Some [usage_record "Bar" 4 5 6])).

(** A world whose uptime checkpoint was set four seconds ago. *)
Definition later_world : World :=
  {| this := new_MetricsLog "7"; local_state := scenario_prefs;
     last_updated_time := Some 1000000; TimeTicks_Now := 5000000;
     Time_Now := 1330000100; MetricsLogBase_GetCurrentTime := 5 |}.

(** Two reports in a row: the store of report A was incremented three
    times, and once more before report B. *)
Definition report_A_world : World :=
  sample_world
    (increments
       [prefs.kStabilityLaunchCount; prefs.kStabilityPageLoadCount;
        prefs.kStabilityLaunchCount] (sample_prefs [] None)).
Definition report_B_world : World :=
  {| this := new_MetricsLog "8";
     local_state :=
       increments [prefs.kStabilityLaunchCount]
         (local_state
            (final_world
               (take_snapshot (sample_platform true true) false []
                  report_A_world)));
     last_updated_time := Some 5000000; TimeTicks_Now := 9000000;
     Time_Now := 1330000200; MetricsLogBase_GetCurrentTime := 9 |}.

(** The first child of an element with a given tag. *)
Definition find_child (tag : string) (e : Element) : option Element :=
  find (fun c => String.eqb (tag_of c) tag) (children_of e).

(** ** Notions of the proofs *)

(** A computation that returns from every world, and one that returns
    from none. *)
Definition total {A : Type} (m : M A) : Prop :=
  forall w, returned (m w) = true.
Definition crashes {A : Type} (m : M A) : Prop :=
  forall w, returned (m w) = false.

(** [same proj] relates two worlds that agree on the component [proj];
    a computation respects a relation when the world it ends in, by
    returning or by stopping, is related to the world it started from. *)
Definition same {T : Type} (proj : World -> T) : relation World :=
  fun w w' => proj w' = proj w.

Definition respects {A : Type} (R : relation World) (m : M A) : Prop :=
  forall w, R w (final_world (m w)).

(** Every attribute of the snapshot has one of eight names; the
    platform-conditional counters are not among them. *)
Definition snapshot_attribute_names : list string :=
  ["launchcount"; "crashcount"; "pageloadcount"; "renderercrashcount";
   "extensionrenderercrashcount"; "rendererhangcount";
   "childprocesscrashcount"; "uptimesec"].

(** What the snapshot leaves alone. *)
Definition kept (w w' : World) : Prop :=
  xml_closed (this w') = xml_closed (this w) /\
  pref_lists (local_state w') = pref_lists (local_state w) /\
  pref_strings (local_state w') = pref_strings (local_state w) /\
  session_id (this w') = session_id (this w) /\
  Time_Now w' = Time_Now w /\
  Stability.plugin_stability (stability_of (this w')) =
    Stability.plugin_stability (stability_of (this w)).

(** The open "profile" element of an incremental report when its
    "stability" child is being written. *)
Definition profile_frame (w : World) : Frame :=
  {| frame_tag := "profile";
     frame_attributes :=
       [("session", AttrString (session_id (this w)));
        ("time", AttrInt64 (Time_Now w))];
     frame_children :=
       [Elem "install"
          [("installdate",
            AttrString
              (PrefService_GetString prefs.kMetricsClientIDTimestamp
                 (local_state w)));
           ("buildid", AttrInt 0)] []] |}.


(** ** The omnibox event *)

(** What [AsOmniboxEventProviderType] and [AsOmniboxEventResultType]
    return when they return: a provider without a name among the eight
    known ones, and a type outside the eleven match types, are reported
    as unknown. *)
Definition known_providers : list (string * SuggestionProviderType) :=
  [("HistoryURL", PROVIDER_URL);
   ("HistoryContents", PROVIDER_HISTORY_CONTENTS);
   ("HistoryQuickProvider", PROVIDER_HISTORY_QUICK);
   ("Search", PROVIDER_SEARCH);
   ("Keyword", PROVIDER_KEYWORD);
   ("Builtin", PROVIDER_BUILTIN);
   ("ShortcutsProvider", PROVIDER_SHORTCUTS);
   ("ExtensionApps", PROVIDER_EXTENSION_APPS)].

Definition provider_type_of (provider : option string)
  : SuggestionProviderType :=
  match provider with
  | None => UNKNOWN_PROVIDER
  | Some name =>
      match find (fun p => String.eqb name (fst p)) known_providers with
      | Some p => snd p
      | None => UNKNOWN_PROVIDER
      end
  end.

Definition known_provider (provider : option string) : bool :=
  match provider with
  | None => true
  | Some name => existsb (fun p => String.eqb name (fst p)) known_providers
  end.

Definition known_type (type : AutocompleteMatch_Type) : bool :=
  match type with NUM_TYPES => false | _ => true end.

Definition result_type_of (type : AutocompleteMatch_Type)
  : SuggestionResultType :=
  match type with
  | URL_WHAT_YOU_TYPED => RESULT_URL_WHAT_YOU_TYPED
  | HISTORY_URL => RESULT_HISTORY_URL
  | HISTORY_TITLE => RESULT_HISTORY_TITLE
  | HISTORY_BODY => RESULT_HISTORY_BODY
  | HISTORY_KEYWORD => RESULT_HISTORY_KEYWORD
  | NAVSUGGEST => RESULT_NAVSUGGEST
  | SEARCH_WHAT_YOU_TYPED => RESULT_SEARCH_WHAT_YOU_TYPED
  | SEARCH_HISTORY => RESULT_SEARCH_HISTORY
  | SEARCH_SUGGEST => RESULT_SEARCH_SUGGEST
  | SEARCH_OTHER_ENGINE => RESULT_SEARCH_OTHER_ENGINE
  | EXTENSION_APP => RESULT_EXTENSION_APP
  | NUM_TYPES => UNKNOWN_RESULT_TYPE
  end.

(** A match that trips no debug check of the protobuf writer. *)
Definition known_match (m : AutocompleteMatch.t) : bool :=
  known_provider (AutocompleteMatch.provider m) &&
  known_type (AutocompleteMatch.type m).

(** The structured suggestion of one match. *)
Definition suggestion_of (m : AutocompleteMatch.t) : Suggestion.t :=
  {| Suggestion.provider :=
       Some (provider_type_of (AutocompleteMatch.provider m));
     Suggestion.result_type :=
       Some (result_type_of (AutocompleteMatch.type m));
     Suggestion.relevance := Some (AutocompleteMatch.relevance m);
     Suggestion.is_starred := Some (AutocompleteMatch.starred m) |}.

(** The legacy element of one match. *)
Definition optional_string_attribute (name value : string)
  : list (string * AttributeValue) :=
  if String.eqb value "" then [] else [(name, AttrString value)].

Definition autocomplete_item (P : Platform) (m : AutocompleteMatch.t)
  : Element :=
  Elem "autocompleteitem"
    (match AutocompleteMatch.provider m with
     | Some name => [("provider", AttrString name)]
     | None => []
     end ++
     optional_string_attribute "resulttype"
       (AutocompleteMatch_TypeToString P (AutocompleteMatch.type m)) ++
     [("relevance", AttrInt (AutocompleteMatch.relevance m));
      ("isstarred", AttrInt (if AutocompleteMatch.starred m then 1 else 0))])
    [].

Definition typing_duration (alog : AutocompleteLog.t) : option Z :=
  let elapsed :=
    AutocompleteLog.elapsed_time_since_user_first_modified_omnibox alog in
  if elapsed =? FromMilliseconds (-1) then None
  else Some (InMilliseconds elapsed).

Definition known_tab (alog : AutocompleteLog.t) : option Z :=
  if AutocompleteLog.tab_id alog =? -1 then None
  else Some (AutocompleteLog.tab_id alog).

Definition num_terms_of (P : Platform) (alog : AutocompleteLog.t) : Z :=
  wrap_int (Z.of_nat (length (Tokenize P (AutocompleteLog.text alog)))).

Definition autocomplete_element (P : Platform) (alog : AutocompleteLog.t)
  : Element :=
  Elem "autocomplete"
    ([("typedlength",
       AttrInt (wrap_int (Z.of_nat (length (AutocompleteLog.text alog)))));
      ("numterms", AttrInt (num_terms_of P alog));
      ("selectedindex",
       AttrInt (wrap_int (AutocompleteLog.selected_index alog)));
      ("completedlength",
       AttrInt (wrap_int (AutocompleteLog.inline_autocompleted_length alog)))]
     ++ match typing_duration alog with
        | Some d => [("typingduration", AttrInt64 d)]
        | None => []
        end
     ++ optional_string_attribute "inputtype"
          (AutocompleteInput_TypeToString P (AutocompleteLog.input_type alog)))
    (map (autocomplete_item P) (AutocompleteLog.result alog)).

Definition uielement (P : Platform) (alog : AutocompleteLog.t) (w : World)
  : Element :=
  Elem "uielement"
    ([("action", AttrString "autocomplete");
      ("targetidhash", AttrString "");
      ("window", AttrInt 0)]
     ++ match known_tab alog with
        | Some tab => [("tab", AttrInt (wrap_int tab))]
        | None => []
        end
     ++ [("session", AttrString (session_id (this w)));
         ("time", AttrInt64 (Time_Now w))])
    [autocomplete_element P alog].

(** The structured event. *)
Definition omnibox_event_of (P : Platform) (alog : AutocompleteLog.t)
    (w : World) : OmniboxEventProto.t :=
  {| OmniboxEventProto.time := Some (MetricsLogBase_GetCurrentTime w);
     OmniboxEventProto.tab_id := known_tab alog;
     OmniboxEventProto.typed_length :=
       Some (wrap_int (Z.of_nat (length (AutocompleteLog.text alog))));
     OmniboxEventProto.num_typed_terms := Some (num_terms_of P alog);
     OmniboxEventProto.selected_index :=
       Some (wrap_int (AutocompleteLog.selected_index alog));
     OmniboxEventProto.completed_length :=
       Some (wrap_int (AutocompleteLog.inline_autocompleted_length alog));
     OmniboxEventProto.typing_duration_ms := typing_duration alog;
     OmniboxEventProto.input_type :=
       Some (AsOmniboxEventInputType (AutocompleteLog.input_type alog));
     OmniboxEventProto.suggestion :=
       map suggestion_of (AutocompleteLog.result alog) |}.

(** What [RecordOmniboxOpenedURL] leaves behind when it returns. *)
Definition omnibox_result (P : Platform) (alog : AutocompleteLog.t)
    (w : World) : World :=
  with_log (fun l =>
    with_num_events (wrap_int (num_events l + 1))
      (with_uma_proto
         (ChromeUserMetricsExtension.add_omnibox_event
            (omnibox_event_of P alog w))
         (attach (uielement P alog w) l))) w.

(** The matches of an event trip no debug check: the checks are compiled
    out, or every match is a known one. *)
Definition matches_pass (P : Platform) (alog : AutocompleteLog.t) : Prop :=
  dcheck_is_on P = false \/
  forallb known_match (AutocompleteLog.result alog) = true.

(** ** The plugin list *)

(** The legacy element of one installed plugin: the name and the file
    name hashed, the version as it is. *)
Definition legacy_plugin (P : Platform) (info : WebPluginInfo.t) : Element :=
  Elem "plugin"
    ([("name",
       AttrString
         (fst (CreateHashes P (UTF16ToUTF8 P (WebPluginInfo.name info)))));
      ("filename",
       AttrString
         (fst (CreateHashes P (BaseName P (WebPluginInfo.path info)))));
      ("version", AttrString (UTF16ToUTF8 P (WebPluginInfo.version info)))]
     ++ match GetPluginPrefs P with
        | Some IsPluginEnabled =>
            [("disabled",
              AttrInt (if negb (IsPluginEnabled info) then 1 else 0))]
        | None => []
        end)
    [].

(** The structured descriptors of the installed plugins, appended to
    those that the system profile holds. *)
Definition add_plugins (ps : list Plugin.t)
    (u : ChromeUserMetricsExtension.t) : ChromeUserMetricsExtension.t :=
  ChromeUserMetricsExtension.with_system_profile
    (fun p => fold_left (fun p x => SystemProfileProto.add_plugin x p) ps p) u.

Definition structured_plugin (P : Platform) (info : WebPluginInfo.t)
  : Plugin.t :=
  SetPluginInfo P info (GetPluginPrefs P) Plugin.empty.

(** ** The environment *)

Definition field_trial_of (it : NameGroupId.t) : FieldTrial.t :=
  {| FieldTrial.name_id := Some (NameGroupId.name it);
     FieldTrial.group_id := Some (NameGroupId.group it) |}.

(** The system profile after [RecordEnvironmentProto]: every scalar is
    what the platform says now, the install date is the number [d] that
    the install-date preference was parsed to, and the plugin descriptors
    and the field trials are appended to the ones already there. *)
Definition environment_proto (P : Platform) (d : Z)
    (plugin_list : list WebPluginInfo.t) (p : SystemProfileProto.t)
  : SystemProfileProto.t :=
  {| SystemProfileProto.install_date := Some d;
     SystemProfileProto.application_locale := Some (GetApplicationLocale P);
     SystemProfileProto.hardware :=
       {| Hardware.cpu_architecture := Some (CPUArchitecture P);
          Hardware.system_ram_mb := Some (AmountOfPhysicalMemoryMB P);
          Hardware.dll_base :=
            if OS_WIN P then Some (wrap_uint64 (ImageBase P))
            else Hardware.dll_base (SystemProfileProto.hardware p);
          Hardware.gpu :=
            {| Graphics.vendor_id := Some (GPUInfo.vendor_id (GetGPUInfo P));
               Graphics.device_id := Some (GPUInfo.device_id (GetGPUInfo P));
               Graphics.driver_version :=
                 Some (GPUInfo.driver_version (GetGPUInfo P));
               Graphics.driver_date :=
                 Some (GPUInfo.driver_date (GetGPUInfo P));
               Graphics.graphics_score :=
                 Some (GPUInfo.graphics (GetGPUInfo P));
               Graphics.gaming_score := Some (GPUInfo.gaming (GetGPUInfo P));
               Graphics.overall_score :=
                 Some (GPUInfo.overall (GetGPUInfo P)) |};
          Hardware.primary_screen_width := Some (fst (GetScreenSize P));
          Hardware.primary_screen_height := Some (snd (GetScreenSize P));
          Hardware.screen_count := Some (GetScreenCount P) |};
     SystemProfileProto.os :=
       {| OS.name := Some (OperatingSystemName P);
          OS.version := Some (OperatingSystemVersion P) |};
     SystemProfileProto.plugin :=
       SystemProfileProto.plugin p ++ map (structured_plugin P) plugin_list;
     SystemProfileProto.field_trial :=
       SystemProfileProto.field_trial p ++
       map field_trial_of (GetFieldTrialIds P);
     SystemProfileProto.stability := SystemProfileProto.stability p |}.

(** The install date as [RecordEnvironmentProto] reads it: the outcome
    of [StringToInt] on the install-date preference. *)
Definition parsed_install_date (P : Platform) (w : World) : bool * Z :=
  StringToInt P
    (PrefService_GetString prefs.kMetricsClientIDTimestamp (local_state w)).

(** ** Per-profile metrics *)

(** The "userprofile" element of one profile. *)
Definition userprofile_element (profileidhash : string)
    (profile : list (string * Value)) : Element :=
  Elem "userprofile" [("profileidhash", AttrString profileidhash)]
    (omap (profile_param profile) (map fst profile)).

(** The profile that [WriteAllProfilesMetrics] writes for a key of the
    dictionary of all profiles: the key starts with the profile prefix
    and holds a dictionary. *)
Definition profile_of_key (all : list (string * Value)) (key_name : string)
  : option (string * list (string * Value)) :=
  if String.prefix prefs.kProfilePrefix key_name then
    match GetDictionaryWithoutPathExpansion key_name all with
    | Some profile =>
        Some (substr (String.length prefs.kProfilePrefix) key_name, profile)
    | None => None
    end
  else None.

Definition profile_elements (all : list (string * Value)) : list Element :=
  omap
    (fun key_name =>
       (fun hp => userprofile_element (fst hp) (snd hp)) <$>
       profile_of_key all key_name)
    (map fst all).

(** A metric trips no debug check: its value is a string, a boolean or
    an integer and its name is not "id". *)
Definition metric_passes (profile : list (string * Value)) (i : string)
  : bool :=
  match GetWithoutPathExpansion i profile with
  | Some v => recognized v && negb (String.eqb i "id")
  | None => true
  end.

Definition profile_passes (P : Platform) (profile : list (string * Value))
  : Prop :=
  dcheck_is_on P = false \/
  forallb (metric_passes profile) (map fst profile) = true.

Definition profiles_pass (P : Platform) (all : list (string * Value))
  : Prop :=
  dcheck_is_on P = false \/
  forallb
    (fun key_name =>
       match profile_of_key all key_name with
       | Some hp => forallb (metric_passes (snd hp)) (map fst (snd hp))
       | None => true
       end)
    (map fst all) = true.

(** ** The full stability element *)

(** The preferences that hold the stability counters. *)
Definition stability_keys : list string :=
  map (fun c => fst (fst c))
    (required_counters ++ realtime_counters ++ session_counters) ++
  map fst platform_counters.
Definition is_stability_key (key : string) : bool :=
  existsb (String.eqb key) stability_keys.

(** What the stability snapshot and the plugin pass leave alone: the
    lock, the session, the event counter, the wall clock, the omnibox
    events, the system profile outside its stability section, and the
    install date. *)
Definition outside_stability (w : World) :=
  let sp := ChromeUserMetricsExtension.system_profile (uma_proto (this w)) in
  (locked (this w), session_id (this w), num_events (this w), Time_Now w,
   ChromeUserMetricsExtension.omnibox_event (uma_proto (this w)),
   (SystemProfileProto.install_date sp,
    SystemProfileProto.application_locale sp,
    SystemProfileProto.hardware sp, SystemProfileProto.os sp,
    SystemProfileProto.plugin sp, SystemProfileProto.field_trial sp),
   PrefService_GetString prefs.kMetricsClientIDTimestamp (local_state w)).

(** The "stability" element that [WriteStabilityElement] writes in the
    world [w]: the attributes of the snapshot, the five session counters,
    and the plugin records. *)
Definition full_stability_element (P : Platform) (w : World) : Element :=
  Elem "stability" (snapshot_attributes w ++ session_attributes w)
    (plugin_children P w).

(** ** The environment report *)

Definition install_element (w : World) : Element :=
  Elem "install"
    [("installdate",
      AttrString
        (PrefService_GetString prefs.kMetricsClientIDTimestamp
           (local_state w)));
     ("buildid", AttrInt 0)] [].

(** The legacy elements of the machine's environment, as
    [RecordEnvironment] writes them after the stability element. *)
Definition environment_elements (P : Platform) (w : World) : list Element :=
  let bookmarks_on_bar := counter prefs.kNumBookmarksOnBookmarkBar w in
  let folders_on_bar := counter prefs.kNumFoldersOnBookmarkBar w in
  let bookmarks_in_other :=
    counter prefs.kNumBookmarksInOtherBookmarkFolder w in
  let folders_in_other := counter prefs.kNumFoldersInOtherBookmarkFolder w in
  [Elem "cpu" [("arch", AttrString (CPUArchitecture P))] [];
   Elem "memory"
     ([("mb", AttrInt (AmountOfPhysicalMemoryMB P))] ++
      (if OS_WIN P then [("dllbase", AttrInt (wrap_int (ImageBase P)))]
       else [])) [];
   Elem "os"
     [("name", AttrString (OperatingSystemName P));
      ("version", AttrString (OperatingSystemVersion P))] [];
   Elem "gpu"
     [("vendorid", AttrInt (wrap_int (GPUInfo.vendor_id (GetGPUInfo P))));
      ("deviceid", AttrInt (wrap_int (GPUInfo.device_id (GetGPUInfo P))))] [];
   Elem "display"
     [("xsize", AttrInt (fst (GetScreenSize P)));
      ("ysize", AttrInt (snd (GetScreenSize P)));
      ("screens", AttrInt (GetScreenCount P))] [];
   Elem "bookmarks" []
     [Elem "bookmarklocation"
        [("name", AttrString "full-tree");
         ("foldercount", AttrInt (wrap_int (folders_on_bar + folders_in_other)));
         ("itemcount",
          AttrInt (wrap_int (bookmarks_on_bar + bookmarks_in_other)))] [];
      Elem "bookmarklocation"
        [("name", AttrString "toolbar");
         ("foldercount", AttrInt folders_on_bar);
         ("itemcount", AttrInt bookmarks_on_bar)] []];
   Elem "keywords" [("count", AttrInt (counter prefs.kNumKeywords w))] []].

(** The "profile" element of an environment report taken in the world
    [w]: the install element, the hashed plugin list, the full stability
    element, the environment, one element per profile, and the empty
    "plugins" element that the protobuf pass over the plugin list
    leaves. *)
Definition environment_profile_element (P : Platform)
    (plugin_list : list WebPluginInfo.t)
    (profile_metrics : option (list (string * Value))) (w : World)
  : Element :=
  Elem "profile"
    [("session", AttrString (session_id (this w)));
     ("time", AttrInt64 (Time_Now w))]
    ([install_element w;
      Elem "plugins" [] (map (legacy_plugin P) plugin_list);
      full_stability_element P w] ++
     environment_elements P w ++
     match profile_metrics with
     | Some all => profile_elements all
     | None => []
     end ++
     [Elem "plugins" [] []]).

(** The per-profile metrics, when there are any, trip no debug check. *)
Definition metrics_pass (P : Platform)
    (profile_metrics : option (list (string * Value))) : Prop :=
  match profile_metrics with
  | Some all => profiles_pass P all
  | None => True
  end.

(** The system profile outside its stability section. *)
Definition environment_of (p : SystemProfileProto.t) :=
  (SystemProfileProto.install_date p, SystemProfileProto.application_locale p,
   SystemProfileProto.hardware p, SystemProfileProto.os p,
   SystemProfileProto.plugin p, SystemProfileProto.field_trial p).

Definition system_profile_of (w : World) : SystemProfileProto.t :=
  ChromeUserMetricsExtension.system_profile (uma_proto (this w)).

(** ** Stopping at a failed check *)

(** A computation that stops at a failed check from every world, in a
    world that is related to the one it started from. *)
Definition stops_within {A : Type} (R : relation World) (m : M A) : Prop :=
  forall w, returned (m w) = false /\ R w (final_world (m w)).

(** ** The lock *)

(** The outcome [o] with the lock flag of its world set to [b]. *)
Definition relocked {A : Type} (b : bool) (o : outcome A) : outcome A :=
  match o with
  | Done a w => Done a (with_log (with_locked b) w)
  | Crash w => Crash (with_log (with_locked b) w)
  end.

(** A computation that neither looks at the lock flag nor changes it:
    run on a report whose flag has been set to [b], it does what it does
    on the report as it was, up to that flag. *)
Definition lock_blind {A : Type} (m : M A) : Prop :=
  forall b w, m (with_log (with_locked b) w) = relocked b (m w).

(** ** More concrete inputs *)

(** An omnibox event whose only match comes from a provider that the
    report builder does not know. *)
Definition unknown_provider_log : AutocompleteLog.t :=
  {| AutocompleteLog.text := toy_UTF8ToUTF16 "foo";
     AutocompleteLog.input_type := QUERY;
     AutocompleteLog.selected_index := 0;
     AutocompleteLog.tab_id := -1;
     AutocompleteLog.inline_autocompleted_length := 0;
     AutocompleteLog.elapsed_time_since_user_first_modified_omnibox :=
       FromMilliseconds 250;
     AutocompleteLog.result :=
       [{| AutocompleteMatch.provider := Some "Bookmarks";
           AutocompleteMatch.type := HISTORY_URL;
           AutocompleteMatch.relevance := 1;
           AutocompleteMatch.starred := true |}] |}.

(** The metrics of two profiles among other keys: a key without the
    profile prefix and a prefixed key that holds no dictionary are
    passed over. *)
Definition mixed_profiles : list (string * Value) :=
  [("count", IntegerValue 2);
   ("profile-abc",
    DictionaryValue
      [("homepage", StringValue "about:blank"); ("sync", BooleanValue true)]);
   ("profile-broken", IntegerValue 0);
   ("profile-xyz", DictionaryValue [("tabs", IntegerValue 7)])].

(** A profile with a metric named "id". *)
Definition profile_with_id : list (string * Value) :=
  [("homepage", StringValue "about:blank"); ("id", StringValue "abc")].

(** The string that an attribute holds. *)
Definition attribute_string (v : option AttributeValue) : option string :=
  match v with
  | Some (AttrString s) => Some s
  | _ => None
  end.

(** An attribute of the first child with a given tag. *)
Definition child_attribute (tag name : string) (e : Element)
  : option AttributeValue :=
  e' ← find_child tag e; lookup_attribute name (attributes_of e').

(** ** The uptime over several calls *)

(** The world when the monotonic clock has moved on to [t]. *)
Definition at_time (t : Z) (w : World) : World :=
  {| this := this w; local_state := local_state w;
     last_updated_time := last_updated_time w;
     TimeTicks_Now := t; Time_Now := Time_Now w;
     MetricsLogBase_GetCurrentTime := MetricsLogBase_GetCurrentTime w |}.

(** A world whose uptime checkpoint was set six tenths of a second
    ago. *)
Definition soon_world : World :=
  {| this := new_MetricsLog "7"; local_state := scenario_prefs;
     last_updated_time := Some 1000000; TimeTicks_Now := 1600000;
     Time_Now := 1330000100; MetricsLogBase_GetCurrentTime := 1 |}.

(** ** The version string *)

(** What [GetVersionString] asks of [chrome::VersionInfo]. *)
Module VersionInfo.
Record t : Type := {
  is_valid : bool;
  Version : string;
  IsOfficialBuild : bool
}.
End VersionInfo.

(** [g_version_extension] is a global string, passed here as the
    argument [g]; [set_version_extension] overwrites it and
    [version_extension] reads it. *)
Definition set_version_extension (extension : string) (g : string) : string :=
  extension.
Definition version_extension (g : string) : string := g.

Definition GetVersionString (P : Platform) (version_info : VersionInfo.t)
    (g : string) : M string :=
  if negb (VersionInfo.is_valid version_info) then
    NOTREACHED P;; ret ""
  else
    let version := VersionInfo.Version version_info in
    let version :=
      if negb (String.eqb (version_extension g) "")
      then version ++ version_extension g else version in
    let version :=
      if negb (VersionInfo.IsOfficialBuild version_info)
      then version ++ "-devel" else version in
    ret version.

(** Usage records among entries that are no dictionaries. *)
Definition malformed_stats : list Value :=
  [IntegerValue 7; usage_record "Foo" 1 1 2; StringValue "Bar"].
Definition malformed_world : World :=
  sample_world_in "stability" (sample_prefs [] (Some malformed_stats)).

(** * Properties *)

(** ** The monad *)

Lemma bind_Done {A B : Type} (m : M A) (k : A -> M B) w a w1 :
  m w = Done a w1 -> (m ≫= k) w = k a w1.
Proof. intros H. unfold mbind, M_bind, bind. by rewrite H. Qed.

Lemma bind_Crash {A B : Type} (m : M A) (k : A -> M B) w w1 :
  m w = Crash w1 -> (m ≫= k) w = Crash w1.
Proof. intros H. unfold mbind, M_bind, bind. by rewrite H. Qed.

Lemma bind_Done_inv {A B : Type} (m : M A) (k : A -> M B) w b w2 :
  (m ≫= k) w = Done b w2 ->
  exists a w1, m w = Done a w1 /\ k a w1 = Done b w2.
Proof.
  unfold mbind, M_bind, bind. destruct (m w) as [a w1|w1]; [eauto|done].
Qed.

Lemma for_each_app {A : Type} (l1 l2 : list A) (body : A -> M unit) w :
  for_each (l1 ++ l2) body w = (for_each l1 body;; for_each l2 body) w.
Proof.
  revert w. induction l1 as [|x l1 IH]; intros w; simpl.
  - done.
  - unfold mbind, M_bind, bind in *. destruct (body x w); [apply IH|done].
Qed.

Lemma total_ret {A : Type} (a : A) : total (mret a).
Proof. by intros w. Qed.
Lemma total_gets {A : Type} (f : World -> A) : total (gets f).
Proof. by intros w. Qed.
Lemma total_modify f : total (modify f).
Proof. by intros w. Qed.
Lemma total_bind {A B : Type} (m : M A) (k : A -> M B) :
  total m -> (forall a, total (k a)) -> total (m ≫= k).
Proof.
  intros Hm Hk w. unfold mbind, M_bind, bind.
  specialize (Hm w). destruct (m w); [apply Hk|done].
Qed.
Lemma total_when b m : total m -> total (when b m).
Proof. intros H. destruct b; [done|apply total_ret]. Qed.
Lemma total_for_each {A : Type} (l : list A) (body : A -> M unit) :
  (forall x, total (body x)) -> total (for_each l body).
Proof.
  intros H. induction l as [|x l IH]; simpl.
  - apply total_ret.
  - apply total_bind; auto.
Qed.

Lemma crashes_bind_l {A B : Type} (m : M A) (k : A -> M B) :
  crashes m -> crashes (m ≫= k).
Proof.
  intros Hm w. unfold mbind, M_bind, bind.
  specialize (Hm w). by destruct (m w).
Qed.
Lemma crashes_bind_r {A B : Type} (m : M A) (k : A -> M B) :
  (forall a, crashes (k a)) -> crashes (m ≫= k).
Proof.
  intros Hk w. unfold mbind, M_bind, bind.
  destruct (m w); [apply Hk|done].
Qed.
Lemma crashes_for_each {A : Type} (l : list A) (body : A -> M unit) x :
  In x l -> crashes (body x) -> crashes (for_each l body).
Proof.
  intros Hin Hx. induction l as [|y l IH]; simpl; [done|].
  destruct Hin as [->|Hin].
  - by apply crashes_bind_l.
  - apply crashes_bind_r. auto.
Qed.

(** ** Shapes of the attribute tree *)

Lemma extend_top_nonempty A C l f rest :
  xml_open l = f :: rest ->
  xml_open (extend_top A C l) = extend_frame A C f :: rest.
Proof. intros H. unfold extend_top. by rewrite H. Qed.

Lemma extend_frame_nil f : extend_frame [] [] f = f.
Proof. destruct f. unfold extend_frame. simpl. by rewrite !app_nil_r. Qed.

Lemma extend_frame_extend_frame A1 C1 A2 C2 f :
  extend_frame A2 C2 (extend_frame A1 C1 f) =
  extend_frame (A1 ++ A2) (C1 ++ C2) f.
Proof. unfold extend_frame. simpl. by rewrite !app_assoc. Qed.

Lemma wrote_wrote A1 C1 u1 A2 C2 u2 w :
  wrote A2 C2 u2 (wrote A1 C1 u1 w) =
  wrote (A1 ++ A2) (C1 ++ C2) (fun x => u2 (u1 x)) w.
Proof.
  destruct w as [l p t n1 n2]. destruct l as [lk s c o u n].
  unfold wrote, with_log, with_uma_proto, extend_top, with_xml. simpl.
  destruct o as [|f rest]; simpl; [done|].
  by rewrite extend_frame_extend_frame.
Qed.

Lemma wrote_open A C u w f rest :
  xml_open (this w) = f :: rest ->
  xml_open (this (wrote A C u w)) = extend_frame A C f :: rest.
Proof.
  intros H. unfold wrote. simpl. unfold extend_top. rewrite H. done.
Qed.

(** A loop whose iterations each attach children and update the
    protobuf does so in the order of the list. *)
Lemma for_each_wrote {X : Type} (good : X -> Prop) (body : X -> M unit)
    (C : X -> list Element)
    (u : X -> ChromeUserMetricsExtension.t -> ChromeUserMetricsExtension.t)
    (l : list X) :
  (forall x w f rest, good x -> xml_open (this w) = f :: rest ->
     body x w = Done tt (wrote [] (C x) (u x) w)) ->
  Forall good l ->
  forall w f rest, xml_open (this w) = f :: rest ->
    for_each l body w =
    Done tt (wrote [] (concat (map C l))
               (fun p => fold_left (fun p x => u x p) l p) w).
Proof.
  intros Hbody Hl. induction Hl as [|x l Hx Hl IH]; intros w f rest Hw; simpl.
  - f_equal. destruct w as [lg p t n1 n2]. destruct lg as [lk s c o up n].
    simpl in Hw. subst o.
    unfold wrote, with_log, with_uma_proto, with_xml, extend_top. simpl.
    by rewrite extend_frame_nil.
  - erewrite bind_Done; [|by eapply Hbody].
    erewrite IH; [|by eapply wrote_open].
    by rewrite wrote_wrote.
Qed.

Ltac unfold_monad :=
  unfold OPEN_ELEMENT_FOR_SCOPE, StartElement, EndElement, WriteAttribute,
    WriteIntAttribute, WriteInt64Attribute, write_attribute,
    modify_stability, modify_system_profile, modify_proto, NOTREACHED,
    DCHECK, GetInteger, SetInteger, GetInt64, SetInt64, GetString, GetList,
    ClearPref, is_locked, when, gets, modify, mbind, M_bind, bind, mret,
    M_ret, ret.
Ltac unfold_world :=
  cbv [wrote attach extend_top extend_frame add_plugin_entries
       set_stability_field Stability.set_field stability_of with_log
       with_local_state with_last_updated_time with_uma_proto with_xml
       with_num_events ChromeUserMetricsExtension.with_system_profile
       SystemProfileProto.with_stability Stability.add_plugin_stability
       add_child add_attribute close_frame new_frame
       this local_state last_updated_time TimeTicks_Now Time_Now
       MetricsLogBase_GetCurrentTime
       locked session_id xml_closed xml_open uma_proto num_events
       frame_tag frame_attributes frame_children
       ChromeUserMetricsExtension.system_profile
       ChromeUserMetricsExtension.omnibox_event
       SystemProfileProto.install_date SystemProfileProto.application_locale
       SystemProfileProto.hardware SystemProfileProto.os
       SystemProfileProto.plugin SystemProfileProto.field_trial
       SystemProfileProto.stability Stability.fields
       Stability.plugin_stability].
Ltac finish_world :=
  unfold_world; simpl; rewrite ?app_nil_r, <- ?app_assoc; simpl;
  try reflexivity.
Ltac destruct_world w :=
  destruct w as [[lk sid xc xo up ne] ps lut tn wn ct]; simpl in *.
Ltac destruct_proto u :=
  destruct u as [[idt loc hw os pl ft [fl pst]] ev].

Section PluginPass.
Context (P : Platform) (plugin_list : list WebPluginInfo.t).

Lemma children_of_dictionaries stats :
  concat (map (iteration_children P) stats) =
  map (legacy_plugin_element P) (dictionaries stats).
Proof.
  induction stats as [|v stats IH]; simpl; [done|].
  unfold iteration_children at 1, dictionaries. simpl.
  destruct (as_dictionary v); simpl; by rewrite IH.
Qed.

Lemma entries_of_dictionaries stats u :
  fold_left (fun p v => add_plugin_entries (iteration_entries P plugin_list v) p) stats u =
  add_plugin_entries
    (omap (structured_plugin_entry P plugin_list) (dictionaries stats)) u.
Proof.
  revert u. induction stats as [|v stats IH]; intros u; simpl.
  - destruct_proto u.
    unfold_world. simpl. by rewrite app_nil_r.
  - rewrite IH. unfold iteration_entries, dictionaries. simpl.
    destruct (as_dictionary v) as [d|]; simpl.
    + destruct (structured_plugin_entry P plugin_list d); simpl.
      * destruct_proto u.
        unfold_world. simpl. by rewrite <- app_assoc.
      * destruct_proto u.
        unfold_world. simpl. by rewrite app_nil_r.
    + destruct_proto u.
      unfold_world. simpl. by rewrite app_nil_r.
Qed.

Lemma wrote_nothing w f rest :
  xml_open (this w) = f :: rest -> wrote [] [] (add_plugin_entries []) w = w.
Proof.
  intros H. destruct_world w. subst.
  destruct_proto up.
  unfold_world. simpl. rewrite !app_nil_r. by destruct f.
Qed.

Lemma plugin_iteration v w f rest :
  passes P plugin_list v -> xml_open (this w) = f :: rest ->
  WritePluginStabilityElements_iteration P plugin_list (GetPluginPrefs P) v w
  = Done tt
      (wrote [] (iteration_children P v)
         (add_plugin_entries (iteration_entries P plugin_list v)) w).
Proof.
  intros Hv Hw.
  assert (Hnot : as_dictionary v = None -> dcheck_is_on P = false).
  { intros Hn. destruct Hv as [Hv|Hv]; [done|]. by destruct v. }
  destruct v as [| | | | | |d|];
    try (unfold WritePluginStabilityElements_iteration, iteration_children,
           iteration_entries; simpl; unfold_monad;
         rewrite Hnot by done; simpl; f_equal; symmetry;
         by eapply wrote_nothing).
  clear Hnot.
  unfold WritePluginStabilityElements_iteration, iteration_children,
    iteration_entries, structured_plugin_entry, matching_item,
    legacy_plugin_element, record_name, record_launches, record_instances,
    record_crashes.
  simpl.
  destruct Hv as [Hv|Hv].
  - destruct_world w. subst. unfold_monad. simpl.
    destruct (find_plugin_info _ plugin_list) as [info|]; simpl.
    + f_equal. destruct_proto up.
      unfold_world. simpl. by rewrite !app_nil_r.
    + rewrite Hv. simpl. f_equal.
      destruct_proto up.
      unfold_world. simpl. by rewrite !app_nil_r.
  - simpl in Hv. apply bool_decide_eq_true in Hv. destruct Hv as [info Hv].
    unfold matching_item, record_name in Hv.
    destruct_world w. subst. unfold_monad. simpl. rewrite Hv. simpl.
    f_equal. destruct_proto up.
    unfold_world. simpl. by rewrite !app_nil_r.
Qed.

Lemma plugin_pass_closed_form stats w :
  PrefService_GetList prefs.kStabilityPluginStats (local_state w) = Some stats ->
  Forall (passes P plugin_list) stats ->
  WritePluginStabilityElements P plugin_list w =
  Done tt (plugin_pass_result P plugin_list stats w).
Proof.
  intros Hlist Hall.
  unfold WritePluginStabilityElements.
  erewrite bind_Done; [|unfold GetList, gets; by rewrite Hlist].
  unfold OPEN_ELEMENT_FOR_SCOPE at 1.
  erewrite bind_Done; [|reflexivity].
  erewrite bind_Done.
  2:{ erewrite bind_Done.
      2:{ eapply for_each_wrote with (good := passes P plugin_list);
            [|exact Hall|reflexivity].
          intros x w0 f0 rest0 Hx Hw0. by eapply plugin_iteration. }
      reflexivity. }
  rewrite children_of_dictionaries.
  destruct_world w.
  unfold plugin_pass_result. unfold_monad. unfold_world. simpl.
  rewrite entries_of_dictionaries.
  destruct xo as [|f rest]; simpl.
  - f_equal.
  - f_equal.
Qed.
End PluginPass.

(** ** Frame reasoning *)

#[global] Instance same_preorder {T : Type} (proj : World -> T) :
  PreOrder (same proj).
Proof.
  split.
  - by intros w.
  - intros w1 w2 w3 H1 H2. unfold same in *. congruence.
Qed.

Section Respects.
Context (R : relation World) `{!PreOrder R}.

Lemma respects_ret {A : Type} (a : A) : respects R (mret a).
Proof. intros w. simpl. reflexivity. Qed.

Lemma respects_gets {A : Type} (f : World -> A) : respects R (gets f).
Proof. intros w. simpl. reflexivity. Qed.

Lemma respects_bind {A B : Type} (m : M A) (k : A -> M B) :
  respects R m -> (forall a, respects R (k a)) -> respects R (m ≫= k).
Proof.
  intros Hm Hk w. unfold mbind, M_bind, bind.
  specialize (Hm w). destruct (m w) as [a w1|w1]; simpl in *; [|done].
  etransitivity; [exact Hm|apply Hk].
Qed.

Lemma respects_when b (m : M unit) : respects R m -> respects R (when b m).
Proof. intros H. destruct b; [done|apply respects_ret]. Qed.

Lemma respects_for_each {A : Type} (l : list A) (body : A -> M unit) :
  (forall x, respects R (body x)) -> respects R (for_each l body).
Proof.
  intros H. induction l as [|x l IH]; simpl.
  - apply respects_ret.
  - apply respects_bind; auto.
Qed.

Lemma respects_Done {A : Type} (m : M A) w a w' :
  respects R m -> m w = Done a w' -> R w w'.
Proof. intros H E. specialize (H w). by rewrite E in H. Qed.
End Respects.

(** A primitive respects [same proj] when [proj] does not look at what
    the primitive writes. *)
Ltac respects_primitive :=
  let w := fresh "w" in
  intros w; unfold same; unfold_monad; repeat case_match;
  unfold_world; simpl; try reflexivity.

Ltac respects_step :=
  first
    [ apply respects_ret; apply _
    | apply respects_gets; apply _
    | apply respects_bind; [apply _| |intros ?]
    | apply respects_when; [apply _|]
    | apply respects_for_each; [apply _|intros ?]
    | match goal with
      | |- respects _ (match ?x with _ => _ end) => destruct x
      | |- respects _ (let _ := _ in _) => cbv zeta
      end ].

Section FramesOfThePluginPass.
Context (P : Platform).

Lemma iteration_keeps_local_state pl pp v :
  respects (same local_state)
    (WritePluginStabilityElements_iteration P pl pp v).
Proof.
  unfold WritePluginStabilityElements_iteration, OPEN_ELEMENT_FOR_SCOPE.
  repeat respects_step; respects_primitive.
Qed.
End FramesOfThePluginPass.

Section PluginPassFacts.
Context (P : Platform) (plugin_list : list WebPluginInfo.t).

Lemma passes_when_dchecks_off stats :
  dcheck_is_on P = false -> Forall (passes P plugin_list) stats.
Proof. intros H. apply Forall_forall. intros v _. by left. Qed.

Lemma ClearPref_GetList path p :
  PrefService_GetList path (PrefService_ClearPref path p) = None.
Proof. unfold PrefService_GetList. simpl. apply lookup_delete_eq. Qed.

Lemma pass_clears_the_list stats w w' :
  PrefService_GetList prefs.kStabilityPluginStats (local_state w) = Some stats ->
  WritePluginStabilityElements P plugin_list w = Done tt w' ->
  local_state w' =
  PrefService_ClearPref prefs.kStabilityPluginStats (local_state w).
Proof.
  intros Hlist Hrun. unfold WritePluginStabilityElements in Hrun.
  erewrite bind_Done in Hrun; [|unfold GetList, gets; by rewrite Hlist].
  unfold OPEN_ELEMENT_FOR_SCOPE in Hrun.
  apply bind_Done_inv in Hrun as ([] & w1 & H1 & Hrun).
  apply bind_Done_inv in Hrun as ([] & w2 & H2 & Hrun).
  apply bind_Done_inv in H2 as ([] & w3 & H3 & H2).
  assert (E1 : local_state w1 = local_state w).
  { unfold StartElement, modify in H1. by inversion H1. }
  assert (E3 : local_state w3 = local_state w1).
  { eapply (respects_Done (same local_state)); [|exact H3].
    apply respects_for_each; [apply _|].
    intros v. apply iteration_keeps_local_state. }
  assert (E2 : local_state w2 =
               PrefService_ClearPref prefs.kStabilityPluginStats
                 (local_state w3)).
  { unfold ClearPref, modify in H2. by inversion H2. }
  assert (E4 : local_state w' = local_state w2).
  { eapply (respects_Done (same local_state)); [|exact Hrun].
    respects_primitive. }
  congruence.
Qed.

Lemma unmatched_iteration_crashes d :
  dcheck_is_on P = true -> matching_item P plugin_list d = None ->
  crashes
    (WritePluginStabilityElements_iteration P plugin_list (GetPluginPrefs P)
       (DictionaryValue d)).
Proof.
  intros Hd Hm w. unfold matching_item, record_name in Hm.
  unfold WritePluginStabilityElements_iteration. destruct_world w.
  unfold_monad. simpl. rewrite Hm. simpl. by rewrite Hd.
Qed.

Lemma plugin_pass_on_null_list w :
  PrefService_GetList prefs.kStabilityPluginStats (local_state w) = None ->
  WritePluginStabilityElements P plugin_list w = Done tt w.
Proof.
  intros H. unfold WritePluginStabilityElements.
  erewrite bind_Done; [|unfold GetList, gets; by rewrite H]. done.
Qed.
End PluginPassFacts.

(** ** The stability snapshot *)

Section Snapshot.
Context (P : Platform).

Lemma bind_assoc_at {A B C : Type} (m : M A) (k : A -> M B) (K : B -> M C) w :
  ((m ≫= k) ≫= K) w = (m ≫= (fun a => k a ≫= K)) w.
Proof. unfold mbind, M_bind, bind. by destruct (m w). Qed.

Lemma block_with_attribute key attr field (K : unit -> M unit) w f rest :
  xml_open (this w) = f :: rest ->
  (count ← GetInteger key;
   when (negb (count =? 0))
     (WriteIntAttribute P attr count;;
      modify_stability (Stability.set_field field count);;
      SetInteger key 0) ≫= K) w =
  K tt (counter_step key (Some attr) field w).
Proof.
  intros Hw. destruct_world w. subst. unfold counter_step. unfold_monad.
  simpl. destruct (_ =? 0); simpl; [done|].
  finish_world.
Qed.

Lemma block_without_attribute key field (K1 K2 : unit -> M unit) w :
  ((count ← GetInteger key;
    when (negb (count =? 0))
      (modify_stability (Stability.set_field field count);;
       SetInteger key 0) ≫= K1) ≫= K2) w =
  (K1 tt ≫= K2) (counter_step key None field w).
Proof.
  destruct_world w. unfold counter_step. unfold_monad.
  simpl. destruct (_ =? 0); simpl; [done|].
  destruct xo as [|f rest]; finish_world.
  by destruct f.
Qed.

Lemma last_block_without_attribute key field (K2 : unit -> M unit) w :
  ((count ← GetInteger key;
    when (negb (count =? 0))
      (modify_stability (Stability.set_field field count);;
       SetInteger key 0)) ≫= K2) w =
  K2 tt (counter_step key None field w).
Proof.
  destruct_world w. unfold counter_step. unfold_monad.
  simpl. destruct (_ =? 0); simpl; [done|].
  destruct xo as [|f rest]; finish_world.
  by destruct f.
Qed.

Lemma counter_step_open key attr field w f rest :
  xml_open (this w) = f :: rest ->
  xml_open (this (counter_step key attr field w)) =
  extend_frame (optional_attribute attr (counter key w)) [] f :: rest.
Proof.
  intros Hw. unfold counter_step.
  destruct (_ =? 0) eqn:E.
  - rewrite Hw. unfold optional_attribute, counter. rewrite E.
    destruct attr; by rewrite extend_frame_nil.
  - unfold wrote. simpl. unfold extend_top. by rewrite Hw.
Qed.

Lemma required_step_run w f rest :
  xml_open (this w) = f :: rest ->
  WriteRequiredStabilityAttributes P w = Done tt (required_step w).
Proof.
  intros Hw. destruct_world w. subst.
  unfold WriteRequiredStabilityAttributes, required_step,
    Stability.set_launch_count, Stability.set_crash_count.
  unfold_monad. simpl. finish_world.
  unfold PrefService_GetInteger. simpl.
  rewrite lookup_insert_ne by done. reflexivity.
Qed.

Lemma required_step_open w f rest :
  xml_open (this w) = f :: rest ->
  xml_open (this (required_step w)) =
  extend_frame
    [("launchcount", AttrInt (counter prefs.kStabilityLaunchCount w));
     ("crashcount", AttrInt (counter prefs.kStabilityCrashCount w))] [] f
  :: rest.
Proof.
  intros Hw. unfold required_step, wrote. simpl. unfold extend_top.
  by rewrite Hw.
Qed.

Lemma uptime_step_run w f rest :
  xml_open (this w) = f :: rest ->
  (recent_duration ← GetIncrementalUptime;
   when (negb (recent_duration =? 0))
     (WriteInt64Attribute P "uptimesec" recent_duration;;
      modify_stability (Stability.set_uptime_sec recent_duration))) w =
  Done tt (uptime_step w).
Proof.
  intros Hw. destruct_world w. subst.
  unfold uptime_step, GetIncrementalUptime, Stability.set_uptime_sec.
  unfold_monad. simpl.
  destruct (0 <? _); simpl; destruct (_ =? 0); simpl; finish_world.
Qed.

Lemma counter_step_nonempty key attr field w f rest :
  xml_open (this w) = f :: rest ->
  exists f', xml_open (this (counter_step key attr field w)) = f' :: rest.
Proof. intros Hw. eexists. by eapply counter_step_open. Qed.

Lemma realtime_run w f rest :
  xml_open (this w) = f :: rest ->
  WriteRealtimeStabilityAttributes P w =
  Done tt (uptime_step (chromeos_steps P (realtime_steps w))).
Proof.
  intros Hw.
  unfold WriteRealtimeStabilityAttributes, realtime_steps.
  unfold Stability.set_page_load_count, Stability.set_renderer_crash_count,
    Stability.set_extension_renderer_crash_count,
    Stability.set_renderer_hang_count,
    Stability.set_child_process_crash_count,
    Stability.set_other_user_crash_count, Stability.set_kernel_crash_count,
    Stability.set_unclean_system_shutdown_count.
  erewrite block_with_attribute; [|exact Hw].
  destruct (counter_step_nonempty prefs.kStabilityPageLoadCount
              (Some "pageloadcount") "page_load_count" _ _ _ Hw) as [f1 H1].
  erewrite block_with_attribute; [|exact H1].
  destruct (counter_step_nonempty prefs.kStabilityRendererCrashCount
              (Some "renderercrashcount") "renderer_crash_count"
              _ _ _ H1) as [f2 H2].
  erewrite block_with_attribute; [|exact H2].
  destruct (counter_step_nonempty
              prefs.kStabilityExtensionRendererCrashCount
              (Some "extensionrenderercrashcount")
              "extension_renderer_crash_count" _ _ _ H2) as [f3 H3].
  erewrite block_with_attribute; [|exact H3].
  destruct (counter_step_nonempty prefs.kStabilityRendererHangCount
              (Some "rendererhangcount") "renderer_hang_count"
              _ _ _ H3) as [f4 H4].
  erewrite block_with_attribute; [|exact H4].
  destruct (counter_step_nonempty prefs.kStabilityChildProcessCrashCount
              (Some "childprocesscrashcount") "child_process_crash_count"
              _ _ _ H4) as [f5 H5].
  unfold chromeos_steps. destruct (OS_CHROMEOS P).
  - change (when true ?m) with m.
    rewrite block_without_attribute, block_without_attribute,
      last_block_without_attribute.
    destruct (counter_step_nonempty prefs.kStabilityOtherUserCrashCount
                None "other_user_crash_count" _ _ _ H5) as [f6 H6].
    destruct (counter_step_nonempty prefs.kStabilityKernelCrashCount
                None "kernel_crash_count" _ _ _ H6) as [f7 H7].
    destruct (counter_step_nonempty
                prefs.kStabilitySystemUncleanShutdownCount
                None "unclean_system_shutdown_count" _ _ _ H7) as [f8 H8].
    eapply uptime_step_run. exact H8.
  - change (when false ?m) with (mret tt : M unit).
    erewrite bind_Done; [|reflexivity].
    eapply uptime_step_run. exact H5.
Qed.

(** What one step does to the counters, to the protobuf fields and to
    the rest of the world. *)
Lemma counter_step_counter key attr field key' w :
  counter key' (counter_step key attr field w) =
  if String.eqb key' key then 0 else counter key' w.
Proof.
  unfold counter, counter_step.
  destruct (String.eqb_spec key' key) as [->|Hne];
    destruct (_ =? 0) eqn:E; simpl; try done.
  - by apply Z.eqb_eq in E.
  - unfold PrefService_GetInteger. simpl. by rewrite lookup_insert_eq.
  - unfold PrefService_GetInteger. simpl. by rewrite lookup_insert_ne.
Qed.

Lemma counter_step_field key attr field field' w :
  stability_field field' (counter_step key attr field w) =
  if String.eqb field' field && negb (counter key w =? 0)
  then Some (counter key w)
  else stability_field field' w.
Proof.
  unfold stability_field, counter, counter_step.
  destruct (_ =? 0) eqn:E; simpl; [by rewrite andb_false_r|].
  rewrite andb_true_r. destruct_world w.
  destruct_proto up.
  unfold_world. unfold Stability.field. simpl.
  destruct xo; simpl;
    (destruct (String.eqb_spec field' field) as [->|Hne];
     [by rewrite lookup_insert_eq|by rewrite lookup_insert_ne]).
Qed.

Lemma counter_step_clock key attr field w :
  TimeTicks_Now (counter_step key attr field w) = TimeTicks_Now w /\
  last_updated_time (counter_step key attr field w) = last_updated_time w.
Proof. unfold counter_step. by destruct (_ =? 0). Qed.

Lemma required_step_counter key' w :
  counter key' (required_step w) =
  if String.eqb key' prefs.kStabilityLaunchCount
     || String.eqb key' prefs.kStabilityCrashCount
  then 0 else counter key' w.
Proof.
  unfold counter, required_step, PrefService_GetInteger. simpl.
  destruct (String.eqb_spec key' prefs.kStabilityCrashCount) as [->|Hc].
  - rewrite lookup_insert_eq. by rewrite orb_true_r.
  - rewrite lookup_insert_ne by done. rewrite orb_false_r.
    destruct (String.eqb_spec key' prefs.kStabilityLaunchCount) as [->|Hl].
    + by rewrite lookup_insert_eq.
    + by rewrite lookup_insert_ne.
Qed.

Lemma required_step_field field' w :
  stability_field field' (required_step w) =
  if String.eqb field' "crash_count"
  then Some (counter prefs.kStabilityCrashCount w)
  else if String.eqb field' "launch_count"
  then Some (counter prefs.kStabilityLaunchCount w)
  else stability_field field' w.
Proof.
  unfold stability_field, counter, required_step. destruct_world w.
  destruct_proto up.
  unfold_world. unfold Stability.field. simpl.
  destruct xo; simpl;
    (destruct (String.eqb_spec field' "crash_count") as [->|Hc];
     [by rewrite lookup_insert_eq|rewrite lookup_insert_ne by done];
     destruct (String.eqb_spec field' "launch_count") as [->|Hl];
     [by rewrite lookup_insert_eq|by rewrite lookup_insert_ne]).
Qed.

Lemma required_step_clock w :
  TimeTicks_Now (required_step w) = TimeTicks_Now w /\
  last_updated_time (required_step w) = last_updated_time w.
Proof. done. Qed.

Lemma uptime_step_counter key' w :
  counter key' (uptime_step w) = counter key' w.
Proof.
  unfold counter, uptime_step, GetIncrementalUptime. unfold_monad. simpl.
  destruct (0 <? _); simpl; by destruct (_ =? 0).
Qed.

Lemma uptime_step_field field' w :
  stability_field field' (uptime_step w) =
  if String.eqb field' "uptime_sec" && negb (recent_duration_of w =? 0)
  then Some (recent_duration_of w)
  else stability_field field' w.
Proof.
  unfold stability_field, uptime_step, GetIncrementalUptime,
    recent_duration_of.
  unfold_monad. simpl. destruct_world w.
  destruct_proto up.
  destruct (0 <? _); simpl; destruct (_ =? 0); simpl;
    rewrite ?andb_false_r, ?andb_true_r; try done;
    unfold_world; unfold Stability.field; simpl;
    destruct xo; simpl;
    (destruct (String.eqb_spec field' "uptime_sec") as [->|Hne];
     [by rewrite lookup_insert_eq|by rewrite lookup_insert_ne]).
Qed.

Lemma uptime_step_open w f rest :
  xml_open (this w) = f :: rest ->
  xml_open (this (uptime_step w)) =
  extend_frame
    (if recent_duration_of w =? 0 then []
     else [("uptimesec", AttrInt64 (recent_duration_of w))]) [] f :: rest.
Proof.
  intros Hw. unfold uptime_step, GetIncrementalUptime, recent_duration_of.
  unfold_monad. simpl. destruct_world w. subst.
  destruct (0 <? _); simpl; destruct (_ =? 0); simpl;
    unfold extend_frame; simpl; rewrite ?app_nil_r; try done; by destruct f.
Qed.
Lemma snapshot_run w f rest :
  xml_open (this w) = f :: rest ->
  (WriteRequiredStabilityAttributes P;; WriteRealtimeStabilityAttributes P) w
  = Done tt (snapshot_result P w).
Proof.
  intros Hw. erewrite bind_Done; [|by eapply required_step_run].
  eapply realtime_run. by eapply required_step_open.
Qed.


End Snapshot.

Ltac through_steps :=
  unfold snapshot_result, chromeos_steps, realtime_steps;
  repeat
    (rewrite ?uptime_step_field, ?uptime_step_counter, ?counter_step_field,
       ?counter_step_counter, ?required_step_field, ?required_step_counter;
     simpl).

Ltac each_counter H :=
  simpl in H;
  repeat match type of H with
         | _ \/ _ => destruct H as [H|H]
         | False => destruct H
         | (_, _) = (_, _) => inversion H; subst; clear H
         end.

Section SnapshotProperties.
Context (P : Platform).

Lemma snapshot_resets_required key attr field w :
  In (key, attr, field) required_counters ->
  counter key (snapshot_result P w) = 0 /\
  stability_field field (snapshot_result P w) = Some (counter key w).
Proof.
  intros Hin. each_counter Hin;
    (destruct (OS_CHROMEOS P) eqn:Hos; through_steps; rewrite ?Hos;
     through_steps; done).
Qed.

Lemma snapshot_resets_realtime key attr field w :
  In (key, attr, field) realtime_counters ->
  counter key (snapshot_result P w) = 0 /\
  stability_field field (snapshot_result P w) =
    (if counter key w =? 0 then stability_field field w
     else Some (counter key w)).
Proof.
  intros Hin. each_counter Hin;
    (destruct (OS_CHROMEOS P) eqn:Hos; through_steps; rewrite ?Hos;
     through_steps; (split; [done|]);
     repeat (destruct (_ =? 0); simpl; try done)).
Qed.

Lemma snapshot_resets_platform key field w :
  In (key, field) platform_counters ->
  (OS_CHROMEOS P = true -> counter key (snapshot_result P w) = 0) /\
  stability_field field (snapshot_result P w) =
    (if OS_CHROMEOS P && negb (counter key w =? 0)
     then Some (counter key w)
     else stability_field field w).
Proof.
  intros Hin. each_counter Hin;
    (destruct (OS_CHROMEOS P) eqn:Hos; through_steps; rewrite ?Hos;
     through_steps; split; try done;
     repeat (destruct (_ =? 0); simpl; try done)).
Qed.

Lemma chromeos_steps_open w f rest :
  xml_open (this w) = f :: rest ->
  xml_open (this (chromeos_steps P w)) = f :: rest.
Proof.
  intros Hw. unfold chromeos_steps. destruct (OS_CHROMEOS P); [|done].
  pose proof (counter_step_open prefs.kStabilityOtherUserCrashCount None
                "other_user_crash_count" _ _ _ Hw) as H1.
  pose proof (counter_step_open prefs.kStabilityKernelCrashCount None
                "kernel_crash_count" _ _ _ H1) as H2.
  pose proof (counter_step_open prefs.kStabilitySystemUncleanShutdownCount
                None "unclean_system_shutdown_count" _ _ _ H2) as H3.
  rewrite H3. unfold optional_attribute. by rewrite !extend_frame_nil.
Qed.

Lemma chromeos_steps_clock w :
  recent_duration_of (chromeos_steps P w) = recent_duration_of w.
Proof.
  unfold chromeos_steps, recent_duration_of.
  destruct (OS_CHROMEOS P); [|done].
  repeat
    (rewrite (proj1 (counter_step_clock _ _ _ _)),
       (proj2 (counter_step_clock _ _ _ _))).
  done.
Qed.

Lemma realtime_steps_clock w :
  recent_duration_of (realtime_steps w) = recent_duration_of w.
Proof.
  unfold realtime_steps, recent_duration_of.
  repeat
    (rewrite (proj1 (counter_step_clock _ _ _ _)),
       (proj2 (counter_step_clock _ _ _ _))).
  done.
Qed.

(** The attributes that the snapshot adds to the open element. *)
Lemma snapshot_open w f rest :
  xml_open (this w) = f :: rest ->
  xml_open (this (snapshot_result P w)) =
  extend_frame (snapshot_attributes w) [] f :: rest.
Proof.
  intros Hw. unfold snapshot_result.
  pose proof (required_step_open _ _ _ Hw) as H0.
  pose proof (counter_step_open prefs.kStabilityPageLoadCount
                (Some "pageloadcount") "page_load_count" _ _ _ H0) as H1.
  pose proof (counter_step_open prefs.kStabilityRendererCrashCount
                (Some "renderercrashcount") "renderer_crash_count"
                _ _ _ H1) as H2.
  pose proof (counter_step_open prefs.kStabilityExtensionRendererCrashCount
                (Some "extensionrenderercrashcount")
                "extension_renderer_crash_count" _ _ _ H2) as H3.
  pose proof (counter_step_open prefs.kStabilityRendererHangCount
                (Some "rendererhangcount") "renderer_hang_count"
                _ _ _ H3) as H4.
  pose proof (counter_step_open prefs.kStabilityChildProcessCrashCount
                (Some "childprocesscrashcount") "child_process_crash_count"
                _ _ _ H4) as H5.
  fold (realtime_steps (required_step w)) in H5.
  apply chromeos_steps_open in H5.
  apply uptime_step_open in H5. rewrite H5.
  rewrite chromeos_steps_clock, realtime_steps_clock.
  change (recent_duration_of (required_step w)) with (recent_duration_of w).
  repeat (rewrite ?counter_step_counter, ?required_step_counter; simpl).
  rewrite !extend_frame_extend_frame. simpl.
  done.
Qed.
End SnapshotProperties.

(** ** The record operations around the snapshot *)

Ltac run_monad :=
  cbv [OPEN_ELEMENT_FOR_SCOPE StartElement EndElement WriteAttribute
       WriteIntAttribute WriteInt64Attribute write_attribute
       WriteCommonEventAttributes WriteInstallElement GetInstallDate
       GetCurrentTime modify_stability modify_system_profile modify_proto
       NOTREACHED DCHECK GetInteger SetInteger GetInt64 SetInt64 GetString
       GetList ClearPref is_locked when gets modify mbind M_bind bind mret
       M_ret ret final_world
       with_log with_local_state with_last_updated_time with_uma_proto
       with_xml with_num_events add_child add_attribute close_frame
       new_frame this local_state last_updated_time TimeTicks_Now Time_Now
       MetricsLogBase_GetCurrentTime
       locked session_id xml_closed xml_open uma_proto num_events
       frame_tag frame_attributes frame_children].
Ltac run_monad_everywhere :=
  cbv [OPEN_ELEMENT_FOR_SCOPE StartElement EndElement WriteAttribute
       WriteIntAttribute WriteInt64Attribute write_attribute
       WriteCommonEventAttributes WriteInstallElement GetInstallDate
       GetCurrentTime modify_stability modify_system_profile modify_proto
       NOTREACHED DCHECK GetInteger SetInteger GetInt64 SetInt64 GetString
       GetList ClearPref is_locked when gets modify mbind M_bind bind mret
       M_ret ret final_world
       with_log with_local_state with_last_updated_time with_uma_proto
       with_xml with_num_events add_child add_attribute close_frame
       new_frame this local_state last_updated_time TimeTicks_Now Time_Now
       MetricsLogBase_GetCurrentTime
       locked session_id xml_closed xml_open uma_proto num_events
       frame_tag frame_attributes frame_children] in *.

Section RecordOperations.
Context (P : Platform) (plugin_list : list WebPluginInfo.t).

Lemma runnable_check w :
  runnable P w -> dcheck_is_on P && negb (negb (locked (this w))) = false.
Proof.
  intros [H|H]; rewrite H; [by rewrite andb_false_r|done].
Qed.

Lemma incremental_prefix_open w :
  exists f rest, xml_open (this (incremental_prefix P w)) = f :: rest.
Proof. unfold incremental_prefix. run_monad. eauto. Qed.

Lemma incremental_prefix_frame w key field :
  counter key (incremental_prefix P w) = counter key w /\
  stability_field field (incremental_prefix P w) = stability_field field w.
Proof. unfold incremental_prefix. run_monad. done. Qed.

Lemma RecordIncrementalStabilityElements_run w :
  runnable P w ->
  RecordIncrementalStabilityElements P plugin_list w =
  (WritePluginStabilityElements P plugin_list;; EndElement P;; EndElement P)
    (snapshot_result P (incremental_prefix P w)).
Proof.
  intros Hrun.
  destruct (incremental_prefix_open w) as (f & rest & Hopen).
  pose proof (snapshot_run P _ _ _ Hopen) as Hsnap.
  apply bind_Done_inv in Hsnap as ([] & w1 & Hreq & Hreal).
  apply runnable_check in Hrun. clear Hopen.
  destruct w as [[lk s c o u n] p t n1 n2 n5].
  unfold RecordIncrementalStabilityElements, incremental_prefix in *.
  run_monad_everywhere. rewrite Hrun, Hreq.
  cbv iota beta. rewrite Hreal.
  destruct (WritePluginStabilityElements P plugin_list _); reflexivity.
Qed.

Ltac respects_observation :=
  let w := fresh "w" in
  intros w; unfold same, counter, stability_field, Stability.field;
  unfold_monad; repeat case_match; unfold_world; simpl; try reflexivity.

Lemma ClearPref_respects_counter key :
  key <> prefs.kStabilityPluginStats ->
  respects (same (counter key)) (ClearPref prefs.kStabilityPluginStats).
Proof.
  intros Hne w. unfold same, counter, PrefService_GetInteger. simpl.
  by rewrite lookup_delete_ne.
Qed.

Lemma plugin_pass_respects_field field :
  respects (same (stability_field field))
    (WritePluginStabilityElements P plugin_list).
Proof.
  unfold WritePluginStabilityElements,
    WritePluginStabilityElements_iteration, OPEN_ELEMENT_FOR_SCOPE.
  repeat respects_step; respects_observation.
Qed.

Lemma plugin_pass_respects_counter key :
  key <> prefs.kStabilityPluginStats ->
  respects (same (counter key))
    (WritePluginStabilityElements P plugin_list).
Proof.
  intros Hne.
  unfold WritePluginStabilityElements,
    WritePluginStabilityElements_iteration, OPEN_ELEMENT_FOR_SCOPE.
  repeat respects_step;
    try (by apply ClearPref_respects_counter); respects_observation.
Qed.

Lemma EndElement_respects_field field :
  respects (same (stability_field field)) (EndElement P).
Proof. respects_observation. Qed.

Lemma EndElement_respects_counter key :
  respects (same (counter key)) (EndElement P).
Proof. respects_observation. Qed.

(** The counters and the protobuf fields at the end of
    [RecordIncrementalStabilityElements], whether it returns or stops in
    the plugin pass, are those of the snapshot. *)
Lemma RecordIncrementalStabilityElements_observed w key field :
  runnable P w -> key <> prefs.kStabilityPluginStats ->
  let w' :=
    final_world (RecordIncrementalStabilityElements P plugin_list w) in
  counter key w' = counter key (snapshot_result P (incremental_prefix P w)) /\
  stability_field field w' =
    stability_field field (snapshot_result P (incremental_prefix P w)).
Proof.
  intros Hrun Hne. simpl.
  rewrite RecordIncrementalStabilityElements_run by done. split.
  - apply (respects_bind (same (counter key)));
      [by apply plugin_pass_respects_counter|intros _].
    apply (respects_bind (same (counter key)));
      intros; apply EndElement_respects_counter.
  - apply (respects_bind (same (stability_field field)));
      [by apply plugin_pass_respects_field|intros _].
    apply (respects_bind (same (stability_field field)));
      intros; apply EndElement_respects_field.
Qed.

Lemma session_step_counter key' w :
  counter key' (session_step w) =
  if is_session_counter key' then 0 else counter key' w.
Proof.
  unfold counter, session_step, PrefService_GetInteger, is_session_counter.
  simpl.
  repeat (match goal with
          | |- context [String.eqb ?a ?b] =>
              destruct (String.eqb_spec a b) as [->|?]; simpl
          end;
          [by rewrite ?lookup_insert_eq; rewrite ?lookup_insert_ne by done;
              rewrite ?lookup_insert_eq|]).
  by rewrite !lookup_insert_ne by done.
Qed.

Lemma session_step_other_field field' w :
  is_session_field field' = false ->
  stability_field field' (session_step w) = stability_field field' w.
Proof.
  unfold stability_field, session_step, is_session_field. simpl.
  intros H. repeat (apply orb_false_elim in H as [? H]).
  repeat match goal with
         | E : String.eqb _ _ = false |- _ => apply String.eqb_neq in E
         end.
  destruct_world w. destruct_proto up. unfold_world. unfold Stability.field. simpl.
  destruct xo; simpl; by rewrite !lookup_insert_ne by done.
Qed.

Lemma session_step_resets key attr field w :
  In (key, attr, field) session_counters ->
  counter key (session_step w) = 0 /\
  stability_field field (session_step w) = Some (counter key w) /\
  lookup_attribute attr (session_attributes w) = Some (AttrInt (counter key w)).
Proof.
  intros Hin. split; [|split].
  - rewrite session_step_counter. by each_counter Hin.
  - unfold stability_field, session_step. destruct_world w.
    destruct_proto up.
    each_counter Hin; unfold_world; unfold Stability.field; simpl;
      destruct xo; simpl;
      by rewrite ?lookup_insert_eq; rewrite ?lookup_insert_ne by done;
         rewrite ?lookup_insert_eq.
  - by each_counter Hin.
Qed.

Lemma enter_stability_open w :
  xml_open (this (enter_stability w)) =
  new_frame "stability" :: xml_open (this w).
Proof. done. Qed.

Lemma WriteStabilityElement_run w :
  runnable P w ->
  WriteStabilityElement P plugin_list w =
  (WritePluginStabilityElements P plugin_list;; EndElement P)
    (session_step (snapshot_result P (enter_stability w))).
Proof.
  intros Hrun.
  pose proof (enter_stability_open w) as Hopen.
  pose proof (snapshot_run P _ _ _ Hopen) as Hsnap.
  pose proof (snapshot_open P _ _ _ Hopen) as Hopen'.
  apply bind_Done_inv in Hsnap as ([] & w1 & Hreq & Hreal).
  apply runnable_check in Hrun. clear Hopen.
  set (w2 := snapshot_result P (enter_stability w)) in *.
  set (f2 := extend_frame _ _ _) in *. clearbody f2. 
  destruct w as [[lk s c o u n] p t n1 n2 n5].
  unfold WriteStabilityElement, enter_stability, session_step, wrote,
    extend_top in *.
  run_monad_everywhere. rewrite Hrun, Hreq.
  cbv iota beta. rewrite Hreal. cbv iota beta.
  rewrite !Hopen'. cbv iota beta.
  clear Hreq Hreal. clearbody w2.
  destruct w2 as [[lk2 s2 c2 o2 u2 m2] p2 t2 n3 n4 n6].
  cbv iota beta in Hopen'. subst o2.
  unfold counter, session_counters, PrefService_GetInteger.
  unfold_world. simpl.
  rewrite !lookup_insert_ne by done.
  unfold Stability.set_incomplete_shutdown_count,
    Stability.set_breakpad_registration_success_count,
    Stability.set_breakpad_registration_failure_count,
    Stability.set_debugger_present_count,
    Stability.set_debugger_not_present_count, Stability.set_field.
  destruct u2 as [[? ? ? ? ? ? [fl ps]] ev]. simpl.
  rewrite ?app_nil_r, <- ?app_assoc. simpl.
  reflexivity.
Qed.

Lemma WriteStabilityElement_observed w key field :
  runnable P w -> key <> prefs.kStabilityPluginStats ->
  let w' := final_world (WriteStabilityElement P plugin_list w) in
  let snapshot := session_step (snapshot_result P (enter_stability w)) in
  counter key w' = counter key snapshot /\
  stability_field field w' = stability_field field snapshot.
Proof.
  intros Hrun Hne. simpl.
  rewrite WriteStabilityElement_run by done. split.
  - apply (respects_bind (same (counter key)));
      [by apply plugin_pass_respects_counter|intros _].
    apply EndElement_respects_counter.
  - apply (respects_bind (same (stability_field field)));
      [by apply plugin_pass_respects_field|intros _].
    apply EndElement_respects_field.
Qed.

Lemma enter_stability_frame w key field :
  counter key (enter_stability w) = counter key w /\
  stability_field field (enter_stability w) = stability_field field w.
Proof. done. Qed.
End RecordOperations.

Lemma increments_counter key I p :
  PrefService_GetInteger key (increments I p) =
  PrefService_GetInteger key p + count_of key I.
Proof.
  revert p. unfold increments.
  induction I as [|k I IH]; intros p; [simpl; lia|].
  cbn [fold_left count_of]. rewrite IH.
  assert (E : PrefService_GetInteger key (PrefService_Increment k p) =
              PrefService_GetInteger key p +
              (if String.eqb key k then 1 else 0)).
  { unfold PrefService_Increment, PrefService_SetInteger.
    unfold PrefService_GetInteger at 1. cbn [pref_integers].
    destruct (String.eqb_spec key k) as [->|Hne].
    - rewrite lookup_insert_eq. simpl. unfold PrefService_GetInteger. lia.
    - rewrite lookup_insert_ne by done. unfold PrefService_GetInteger. lia. }
  rewrite E. lia.
Qed.

(** ** Attributes of the snapshot *)

Lemma lookup_attribute_app name A B :
  lookup_attribute name (A ++ B) =
  match lookup_attribute name A with
  | Some v => Some v
  | None => lookup_attribute name B
  end.
Proof.
  induction A as [|[k v] A IH]; simpl; [done|].
  by destruct (String.eqb k name).
Qed.

Lemma lookup_optional_attribute name attr count :
  lookup_attribute name (optional_attribute (Some attr) count) =
  if String.eqb attr name && negb (count =? 0)
  then Some (AttrInt count) else None.
Proof.
  unfold optional_attribute. destruct (count =? 0); simpl.
  - by rewrite andb_false_r.
  - rewrite andb_true_r. by destruct (String.eqb attr name).
Qed.

Lemma snapshot_attribute_required key attr field w :
  In (key, attr, field) required_counters ->
  lookup_attribute attr (snapshot_attributes w) =
  Some (AttrInt (counter key w)).
Proof. intros Hin. by each_counter Hin. Qed.

Lemma snapshot_attribute_realtime key attr field w :
  In (key, attr, field) realtime_counters ->
  lookup_attribute attr (snapshot_attributes w) =
  if counter key w =? 0 then None else Some (AttrInt (counter key w)).
Proof.
  intros Hin. unfold snapshot_attributes.
  each_counter Hin; cbn [app lookup_attribute String.eqb Ascii.eqb Bool.eqb];
    repeat (rewrite lookup_attribute_app, lookup_optional_attribute;
            cbn [String.eqb Ascii.eqb Bool.eqb andb negb]);
    repeat (destruct (counter _ w =? 0); cbn [negb]; try done);
    by destruct (recent_duration_of w =? 0).
Qed.

Lemma snapshot_attribute_names_complete name v w :
  In (name, v) (snapshot_attributes w) -> In name snapshot_attribute_names.
Proof.
  unfold snapshot_attributes, optional_attribute. simpl.
  repeat (destruct (_ =? 0); simpl); intuition congruence.
Qed.

(** ** What a snapshot consumes *)

Section Consumption.
Context (P : Platform).

Lemma snapshot_keeps_session_counters key attr field w :
  In (key, attr, field) session_counters ->
  counter key (snapshot_result P w) = counter key w.
Proof.
  intros Hin. each_counter Hin;
    (destruct (OS_CHROMEOS P) eqn:Hos; through_steps; rewrite ?Hos;
     through_steps; done).
Qed.

Lemma consumed_cases key field full :
  In (key, field) (consumed P full) ->
  (exists attr, In (key, attr, field) required_counters) \/
  (exists attr, In (key, attr, field) realtime_counters) \/
  (OS_CHROMEOS P = true /\ In (key, field) platform_counters) \/
  (full = true /\ exists attr, In (key, attr, field) session_counters).
Proof.
  unfold consumed. rewrite !in_app_iff. intros [H|[H|H]].
  - apply in_map_iff in H as ([[k a] f] & E & H).
    apply in_app_iff in H as [H|H]; inversion E; subst;
      [left|right; left]; eauto.
  - destruct (OS_CHROMEOS P); [|done]. right. right. left. eauto.
  - destruct full; [|done]. apply in_map_iff in H as ([[k a] f] & E & H).
    inversion E; subst. right. right. right. eauto.
Qed.

Lemma consumed_is_not_the_plugin_list key field full :
  In (key, field) (consumed P full) -> key <> prefs.kStabilityPluginStats.
Proof.
  intros H. apply consumed_cases in H
    as [[a H]|[[a H]|[[_ H]|[_ [a H]]]]]; by each_counter H.
Qed.

Lemma before_snapshot_frame full w key field :
  counter key (before_snapshot P full w) = counter key w /\
  stability_field field (before_snapshot P full w) = stability_field field w.
Proof.
  destruct full; [apply enter_stability_frame|apply incremental_prefix_frame].
Qed.

Lemma after_snapshot_consumed key field full w :
  In (key, field) (consumed P full) ->
  counter key (after_snapshot P full w) = 0 /\
  (fresh_report w -> reported field (after_snapshot P full w) = counter key w).
Proof.
  intros Hin.
  destruct (before_snapshot_frame full w key field) as [Ec Ef].
  assert (Hcore :
    (exists attr,
       In (key, attr, field) (required_counters ++ realtime_counters)) \/
    (OS_CHROMEOS P = true /\ In (key, field) platform_counters) ->
    counter key (snapshot_result P (before_snapshot P full w)) = 0 /\
    (fresh_report w ->
     reported field (snapshot_result P (before_snapshot P full w)) =
     counter key w)).
  { intros [[attr H]|[Hos H]].
    - apply in_app_iff in H as [H|H].
      + destruct (snapshot_resets_required P _ _ _ (before_snapshot P full w) H)
          as [H0 Hf].
        split; [done|]. intros _. unfold reported. rewrite Hf, Ec. done.
      + destruct (snapshot_resets_realtime P _ _ _ (before_snapshot P full w) H)
          as [H0 Hf].
        split; [done|]. intros Hfresh. unfold reported.
        rewrite Hf, Ef, Ec, Hfresh.
        destruct (counter key w =? 0) eqn:E; simpl; [|done].
        apply Z.eqb_eq in E. lia.
    - destruct (snapshot_resets_platform P _ _ (before_snapshot P full w) H)
        as [H0 Hf].
      split; [by apply H0|]. intros Hfresh. unfold reported.
      rewrite Hf, Ef, Ec, Hfresh, Hos. simpl.
      destruct (counter key w =? 0) eqn:E; simpl; [|done].
      apply Z.eqb_eq in E. lia. }
  assert (Hlift :
    is_session_counter key = false -> is_session_field field = false ->
    counter key (snapshot_result P (before_snapshot P full w)) = 0 /\
    (fresh_report w ->
     reported field (snapshot_result P (before_snapshot P full w)) =
     counter key w) ->
    counter key (after_snapshot P full w) = 0 /\
    (fresh_report w -> reported field (after_snapshot P full w) = counter key w)).
  { intros Hk Hf Hc. destruct full; [|exact Hc].
    unfold after_snapshot, reported.
    rewrite session_step_counter, Hk, session_step_other_field by done.
    exact Hc. }
  apply consumed_cases in Hin as [[a H]|[[a H]|[[Hos H]|[-> [a H]]]]].
  - apply Hlift; [by each_counter H|by each_counter H|].
    apply Hcore. left. exists a. apply in_app_iff. by left.
  - apply Hlift; [by each_counter H|by each_counter H|].
    apply Hcore. left. exists a. apply in_app_iff. by right.
  - apply Hlift; [by each_counter H|by each_counter H|].
    apply Hcore. by right.
  - unfold after_snapshot.
    destruct (session_step_resets _ _ _
                (snapshot_result P (enter_stability w)) H) as (H0 & Hf & _).
    split; [done|]. intros _. unfold reported. rewrite Hf. simpl.
    erewrite snapshot_keeps_session_counters by exact H. done.
Qed.

Lemma take_snapshot_observed full plugin_list w key field :
  runnable P w -> key <> prefs.kStabilityPluginStats ->
  let w' := final_world (take_snapshot P full plugin_list w) in
  counter key w' = counter key (after_snapshot P full w) /\
  stability_field field w' = stability_field field (after_snapshot P full w).
Proof.
  destruct full.
  - apply WriteStabilityElement_observed.
  - apply RecordIncrementalStabilityElements_observed.
Qed.
End Consumption.

(** ** Builds without debug checks return *)

Section WithoutDebugChecks.
Context (P : Platform) (Hoff : dcheck_is_on P = false).

Lemma total_DCHECK c : total (DCHECK P c).
Proof. intros w. unfold DCHECK. by rewrite Hoff. Qed.

Lemma total_write_attribute name v : total (write_attribute P name v).
Proof.
  intros w. unfold write_attribute, NOTREACHED, DCHECK. rewrite Hoff.
  by destruct (xml_open (this w)).
Qed.

Lemma total_EndElement : total (EndElement P).
Proof.
  intros w. unfold EndElement, NOTREACHED, DCHECK. rewrite Hoff.
  by destruct (xml_open (this w)) as [|? [|? ?]].
Qed.
End WithoutDebugChecks.

Ltac total_step Hoff :=
  first
    [ apply total_ret
    | apply total_gets
    | apply total_modify
    | apply total_bind; [|intros ?]
    | apply total_when
    | apply total_for_each; intros ?
    | apply (total_DCHECK _ Hoff)
    | apply (total_write_attribute _ Hoff)
    | apply (total_EndElement _ Hoff)
    | match goal with
      | |- total (match ?x with _ => _ end) => destruct x
      | |- total (let _ := _ in _) => cbv zeta
      end ].

Ltac unfold_operations :=
  unfold RecordEnvironment, RecordIncrementalStabilityElements,
    RecordOmniboxOpenedURL, RecordEnvironmentProto, WriteAllProfilesMetrics,
    WriteProfileMetrics, WriteProfileMetrics_iteration, WritePluginList,
    WriteStabilityElement, WritePluginStabilityElements,
    WritePluginStabilityElements_iteration,
    WriteRequiredStabilityAttributes, WriteRealtimeStabilityAttributes,
    GetIncrementalUptime, WriteInstallElement, WriteCommonEventAttributes,
    WriteFieldTrials, AsOmniboxEventProviderType, AsOmniboxEventResultType,
    GetInstallDate, GetCurrentTime, OPEN_ELEMENT_FOR_SCOPE, StartElement,
    WriteAttribute, WriteIntAttribute, WriteInt64Attribute, NOTREACHED,
    modify_stability, modify_system_profile, modify_proto, GetInteger,
    SetInteger, GetInt64, SetInt64, GetString, GetList, ClearPref,
    is_locked.

Section Totality.
Context (P : Platform) (Hoff : dcheck_is_on P = false).

Lemma total_RecordEnvironment plugin_list profile_metrics :
  total (RecordEnvironment P plugin_list profile_metrics).
Proof. unfold_operations. repeat total_step Hoff. Qed.

Lemma total_RecordIncrementalStabilityElements plugin_list :
  total (RecordIncrementalStabilityElements P plugin_list).
Proof. unfold_operations. repeat total_step Hoff. Qed.

Lemma total_RecordOmniboxOpenedURL alog :
  total (RecordOmniboxOpenedURL P alog).
Proof. unfold_operations. repeat total_step Hoff. Qed.
End Totality.

(** ** Per-profile metrics *)

Section ProfileMetrics.
Context (P : Platform).

Lemma unrecognized_value_crashes profile k v :
  dcheck_is_on P = true ->
  GetWithoutPathExpansion k profile = Some v -> recognized v = false ->
  crashes (WriteProfileMetrics_iteration P profile k).
Proof.
  intros Hon Hk Hv w. unfold WriteProfileMetrics_iteration. rewrite Hk.
  unfold mbind, M_bind, bind, DCHECK.
  destruct (dcheck_is_on P && negb (negb (String.eqb k "id"))); [done|].
  unfold recognized in Hv.
  destruct (GetType v); try done; unfold NOTREACHED, DCHECK; by rewrite Hon.
Qed.

Lemma WriteProfileMetrics_crashes h profile k v :
  dcheck_is_on P = true -> In k (map fst profile) ->
  GetWithoutPathExpansion k profile = Some v -> recognized v = false ->
  crashes (WriteProfileMetrics P h profile).
Proof.
  intros Hon Hin Hk Hv. unfold WriteProfileMetrics, OPEN_ELEMENT_FOR_SCOPE.
  apply crashes_bind_r. intros _. apply crashes_bind_l.
  apply crashes_bind_r. intros _.
  eapply crashes_for_each; [exact Hin|].
  by eapply unrecognized_value_crashes.
Qed.

Lemma WriteAllProfilesMetrics_crashes all key_name profile k v :
  dcheck_is_on P = true ->
  In key_name (map fst all) ->
  String.prefix prefs.kProfilePrefix key_name = true ->
  GetDictionaryWithoutPathExpansion key_name all = Some profile ->
  In k (map fst profile) ->
  GetWithoutPathExpansion k profile = Some v -> recognized v = false ->
  crashes (WriteAllProfilesMetrics P all).
Proof.
  intros Hon Hkey Hprefix Hprofile Hin Hk Hv.
  unfold WriteAllProfilesMetrics.
  eapply crashes_for_each; [exact Hkey|].
  cbv zeta. rewrite Hprefix, Hprofile.
  by eapply WriteProfileMetrics_crashes.
Qed.

Lemma RecordEnvironment_crashes plugin_list all key_name profile k v :
  dcheck_is_on P = true ->
  In key_name (map fst all) ->
  String.prefix prefs.kProfilePrefix key_name = true ->
  GetDictionaryWithoutPathExpansion key_name all = Some profile ->
  In k (map fst profile) ->
  GetWithoutPathExpansion k profile = Some v -> recognized v = false ->
  crashes (RecordEnvironment P plugin_list (Some all)).
Proof.
  intros Hon Hkey Hprefix Hprofile Hin Hk Hv.
  unfold RecordEnvironment, OPEN_ELEMENT_FOR_SCOPE at 1.
  do 3 (apply crashes_bind_r; intros ?).
  apply crashes_bind_l.
  do 11 (apply crashes_bind_r; intros ?).
  apply crashes_bind_l.
  by eapply WriteAllProfilesMetrics_crashes.
Qed.

(** Without debug checks, the loop over the keys writes one
    "profileparam" per recognized value and skips the others. *)
Lemma profile_iteration_wrote profile i w f rest :
  dcheck_is_on P = false -> xml_open (this w) = f :: rest ->
  WriteProfileMetrics_iteration P profile i w =
  Done tt (wrote [] (option_list (profile_param profile i)) (fun u => u) w).
Proof.
  intros Hoff Hw. destruct_world w. subst.
  unfold WriteProfileMetrics_iteration, profile_param.
  destruct (GetWithoutPathExpansion i profile) as [v|]; simpl.
  - unfold_monad. rewrite Hoff. simpl.
    destruct v; simpl; rewrite ?Hoff; finish_world; by destruct f.
  - unfold_monad. finish_world. by destruct f.
Qed.

Lemma fold_left_identity {X U : Type} (l : list X) (u : U) :
  fold_left (fun p _ => p) l u = u.
Proof. by induction l. Qed.

Lemma concat_option_list {X Y : Type} (g : X -> option Y) (l : list X) :
  concat (map (fun x => option_list (g x)) l) = omap g l.
Proof.
  induction l as [|x l IH]; simpl; [done|].
  rewrite IH. by destruct (g x).
Qed.

Lemma WriteProfileMetrics_closed_form h profile w :
  dcheck_is_on P = false ->
  WriteProfileMetrics P h profile w =
  Done tt
    (with_log
       (attach
          (Elem "userprofile" [("profileidhash", AttrString h)]
             (omap (profile_param profile) (map fst profile)))) w).
Proof.
  intros Hoff. unfold WriteProfileMetrics, OPEN_ELEMENT_FOR_SCOPE.
  erewrite bind_Done; [|reflexivity].
  erewrite bind_Done.
  2:{ erewrite bind_Done; [|reflexivity].
      eapply for_each_wrote with (good := fun _ => True);
        [|by apply Forall_forall|reflexivity].
      intros x w0 f0 rest0 _ Hw0. by eapply profile_iteration_wrote. }
  rewrite concat_option_list. destruct_world w.
  unfold_monad. unfold_world. simpl.
  destruct xo as [|f rest]; simpl; by rewrite fold_left_identity.
Qed.
End ProfileMetrics.

(** ** Both encodings of the stability facts *)

Section DualEncoding.
Context (P : Platform).

Lemma snapshot_uptime w :
  lookup_attribute "uptimesec" (snapshot_attributes w) =
    (if recent_duration_of w =? 0 then None
     else Some (AttrInt64 (recent_duration_of w))) /\
  stability_field "uptime_sec" (snapshot_result P w) =
    (if recent_duration_of w =? 0 then stability_field "uptime_sec" w
     else Some (recent_duration_of w)).
Proof.
  split.
  - unfold snapshot_attributes.
    cbn [app lookup_attribute String.eqb Ascii.eqb Bool.eqb].
    repeat (rewrite lookup_attribute_app, lookup_optional_attribute;
            cbn [String.eqb Ascii.eqb Bool.eqb andb negb]).
    by destruct (recent_duration_of w =? 0).
  - unfold snapshot_result. rewrite uptime_step_field.
    rewrite chromeos_steps_clock, realtime_steps_clock.
    change (recent_duration_of (required_step w))
      with (recent_duration_of w).
    cbn [String.eqb Ascii.eqb Bool.eqb andb].
    destruct (recent_duration_of w =? 0); cbn [negb]; [|done].
    destruct (OS_CHROMEOS P) eqn:Hos; through_steps; rewrite ?Hos;
      through_steps; done.
Qed.

Lemma session_step_open w f rest :
  xml_open (this w) = f :: rest ->
  xml_open (this (session_step w)) =
  extend_frame (session_attributes w) [] f :: rest.
Proof.
  intros Hw. unfold session_step, wrote. simpl. unfold extend_top.
  by rewrite Hw.
Qed.

Lemma snapshot_dual key attr field w :
  In (key, attr, field) (required_counters ++ realtime_counters) ->
  stability_field field w = None ->
  attribute_number (lookup_attribute attr (snapshot_attributes w)) =
  stability_field field (snapshot_result P w).
Proof.
  intros Hin Hfresh. apply in_app_iff in Hin as [Hin|Hin].
  - rewrite (snapshot_attribute_required _ _ _ _ Hin).
    by rewrite (proj2 (snapshot_resets_required P _ _ _ w Hin)).
  - rewrite (snapshot_attribute_realtime _ _ _ _ Hin).
    rewrite (proj2 (snapshot_resets_realtime P _ _ _ w Hin)), Hfresh.
    by destruct (counter key w =? 0).
Qed.

Lemma plugin_dual plugin_list d e :
  structured_plugin_entry P plugin_list d = Some e ->
  let attrs := attributes_of (legacy_plugin_element P d) in
  attribute_number (lookup_attribute "launchcount" attrs) =
    PluginStability.launch_count e /\
  attribute_number (lookup_attribute "instancecount" attrs) =
    PluginStability.instance_count e /\
  attribute_number (lookup_attribute "crashcount" attrs) =
    PluginStability.crash_count e.
Proof.
  unfold structured_plugin_entry.
  destruct (matching_item P plugin_list d); [|done].
  intros E. inversion E; subst. done.
Qed.
End DualEncoding.

(** ** The tree of an incremental report *)

Section IncrementalReport.
Context (P : Platform) (plugin_list : list WebPluginInfo.t).

Lemma kept_refl w : kept w w.
Proof. by repeat split. Qed.

Lemma kept_trans w1 w2 w3 : kept w1 w2 -> kept w2 w3 -> kept w1 w3.
Proof. unfold kept. intuition congruence. Qed.

Lemma counter_step_kept key attr field w :
  kept w (counter_step key attr field w).
Proof.
  unfold counter_step. destruct (_ =? 0); [apply kept_refl|].
  destruct_world w. destruct_proto up. unfold kept. unfold_world. simpl.
  by destruct xo.
Qed.

Lemma required_step_kept w : kept w (required_step w).
Proof.
  destruct_world w. destruct_proto up. unfold kept, required_step.
  unfold_world. simpl. by destruct xo.
Qed.

Lemma uptime_step_kept w : kept w (uptime_step w).
Proof.
  destruct_world w. destruct_proto up.
  unfold kept, uptime_step, GetIncrementalUptime.
  unfold_monad. simpl.
  destruct (0 <? _); simpl; destruct (_ =? 0); unfold_world; simpl;
    by destruct xo.
Qed.

Lemma snapshot_result_kept w : kept w (snapshot_result P w).
Proof.
  unfold snapshot_result, chromeos_steps, realtime_steps.
  eapply kept_trans; [|apply uptime_step_kept].
  destruct (OS_CHROMEOS P);
    repeat (eapply kept_trans; [|apply counter_step_kept]);
    apply required_step_kept.
Qed.

Lemma EndElement_nested w f parent rest :
  xml_open (this w) = f :: parent :: rest ->
  EndElement P w =
  Done tt
    (with_log
       (with_xml (xml_closed (this w))
          (add_child (close_frame f) parent :: rest)) w).
Proof. intros H. unfold EndElement. by rewrite H. Qed.

Lemma EndElement_attach w f rest :
  xml_open (this w) = f :: rest ->
  exists w',
    EndElement P w = Done tt w' /\
    xml_open (this w') =
      xml_open (attach (close_frame f) (with_xml (xml_closed (this w)) rest
                                          (this w))) /\
    xml_closed (this w') =
      xml_closed (attach (close_frame f) (with_xml (xml_closed (this w)) rest
                                            (this w))) /\
    same (fun w => (local_state w, uma_proto (this w))) w w'.
Proof.
  intros H. unfold EndElement. rewrite H.
  destruct rest as [|parent rest]; eexists; (split; [reflexivity|]); done.
Qed.

Lemma incremental_prefix_shape w :
  xml_open (this (incremental_prefix P w)) =
    new_frame "stability" :: profile_frame w :: xml_open (this w) /\
  kept w (incremental_prefix P w) /\
  snapshot_attributes (incremental_prefix P w) = snapshot_attributes w.
Proof.
  destruct_world w.
  unfold incremental_prefix, kept, snapshot_attributes, counter,
    recent_duration_of, profile_frame.
  run_monad. done.
Qed.

Lemma plugin_pass_tree w f rest :
  xml_open (this w) = f :: rest ->
  plugin_pass_passes P plugin_list w ->
  exists w',
    WritePluginStabilityElements P plugin_list w = Done tt w' /\
    xml_open (this w') = extend_frame [] (plugin_children P w) f :: rest /\
    xml_closed (this w') = xml_closed (this w) /\
    Stability.plugin_stability (stability_of (this w')) =
      (Stability.plugin_stability (stability_of (this w)) ++
       plugin_entries P plugin_list w)%list.
Proof.
  intros Hw Hpass.
  unfold plugin_pass_passes, plugin_children, plugin_entries in *.
  destruct (PrefService_GetList _ _) as [stats|] eqn:Hlist.
  - eexists. split; [by apply plugin_pass_closed_form|].
    destruct_world w. subst. unfold plugin_pass_result. unfold_world. simpl.
    by rewrite app_nil_r.
  - eexists. split; [by apply plugin_pass_on_null_list|].
    rewrite Hw, extend_frame_nil, app_nil_r. done.
Qed.

Lemma incremental_report_tree w :
  runnable P w -> plugin_pass_passes P plugin_list w ->
  exists w',
    RecordIncrementalStabilityElements P plugin_list w = Done tt w' /\
    xml_open (this w') =
      xml_open (attach (incremental_profile_element P w) (this w)) /\
    xml_closed (this w') =
      xml_closed (attach (incremental_profile_element P w) (this w)) /\
    Stability.plugin_stability (stability_of (this w')) =
      (Stability.plugin_stability (stability_of (this w)) ++
       plugin_entries P plugin_list w)%list.
Proof.
  intros Hrun Hpass.
  rewrite RecordIncrementalStabilityElements_run by done.
  destruct (incremental_prefix_shape w) as (Hopen0 & Hkept0 & Hattrs).
  pose proof (snapshot_open P _ _ _ Hopen0) as Hopen1.
  pose proof (snapshot_result_kept (incremental_prefix P w)) as Hkept1.
  pose proof (kept_trans _ _ _ Hkept0 Hkept1) as Hkept.
  set (w1 := snapshot_result P (incremental_prefix P w)) in *.
  assert (Hpass1 : plugin_pass_passes P plugin_list w1).
  { unfold plugin_pass_passes, PrefService_GetList in *.
    by rewrite (proj1 (proj2 Hkept)). }
  assert (Hchildren : plugin_children P w1 = plugin_children P w).
  { unfold plugin_children, PrefService_GetList.
    by rewrite (proj1 (proj2 Hkept)). }
  assert (Hentries :
    plugin_entries P plugin_list w1 = plugin_entries P plugin_list w).
  { unfold plugin_entries, PrefService_GetList.
    by rewrite (proj1 (proj2 Hkept)). }
  destruct (plugin_pass_tree w1 _ _ Hopen1 Hpass1)
    as (w2 & Hrun2 & Ho2 & Hc2 & Hp2).
  destruct Hkept as (Hk1 & Hk2 & Hk3 & Hk4 & Hk5 & Hk6).
  rewrite Hk6, Hentries in Hp2.
  erewrite bind_Done by exact Hrun2.
  erewrite bind_Done by (by eapply EndElement_nested).
  unfold EndElement. simpl. rewrite Hc2, Hk1.
  rewrite Hchildren, Hattrs.
  unfold attach, incremental_profile_element, stability_element,
    profile_frame.
  destruct (xml_open (this w)) as [|parent rest];
    eexists; (split; [reflexivity|]);
    unfold extend_frame, close_frame, add_child, new_frame; simpl;
    rewrite ?app_nil_r; done.
Qed.
End IncrementalReport.

(** ** Stopping at a failed check *)

Section StopsWithin.
Context (R : relation World) `{!PreOrder R}.

Lemma stops_bind_l {A B : Type} (m : M A) (k : A -> M B) :
  stops_within R m -> stops_within R (m ≫= k).
Proof.
  intros Hm w. unfold mbind, M_bind, bind.
  destruct (Hm w) as [H1 H2]. by destruct (m w).
Qed.

Lemma stops_bind_r {A B : Type} (m : M A) (k : A -> M B) :
  respects R m -> (forall a, stops_within R (k a)) ->
  stops_within R (m ≫= k).
Proof.
  intros Hm Hk w. unfold mbind, M_bind, bind.
  specialize (Hm w). destruct (m w) as [a w1|w1]; simpl in *.
  - destruct (Hk a w1) as [H1 H2]. split; [done|].
    etransitivity; [exact Hm|exact H2].
  - done.
Qed.

Lemma stops_for_each {A : Type} (l : list A) (body : A -> M unit) x :
  In x l -> (forall y, respects R (body y)) -> stops_within R (body x) ->
  stops_within R (for_each l body).
Proof.
  intros Hin Hbody Hx. induction l as [|y l IH]; simpl; [done|].
  destruct Hin as [->|Hin].
  - by apply stops_bind_l.
  - apply stops_bind_r; [apply Hbody|intros _; auto].
Qed.
End StopsWithin.

(** One statement that is passed before the stop: it respects the
    relation, shown from the primitives it is made of. *)
Ltac stops_after_step :=
  apply stops_bind_r;
    [apply _|repeat respects_step; respects_primitive|intros ?].

(** ** The omnibox event *)

Section Omnibox.
Context (P : Platform).

Lemma AsOmniboxEventProviderType_returns provider w :
  dcheck_is_on P = false \/ known_provider provider = true ->
  AsOmniboxEventProviderType P provider w =
  Done (provider_type_of provider) w.
Proof.
  intros H. destruct provider as [name|]; [|done].
  unfold AsOmniboxEventProviderType, provider_type_of, known_provider in *.
  simpl in *.
  repeat (destruct (String.eqb name _); [done|]).
  simpl in H. destruct H as [H|H]; [|done].
  unfold NOTREACHED, DCHECK, mbind, M_bind, bind. by rewrite H.
Qed.

Lemma AsOmniboxEventProviderType_stops name w :
  dcheck_is_on P = true -> known_provider (Some name) = false ->
  AsOmniboxEventProviderType P (Some name) w = Crash w.
Proof.
  intros Hd H.
  unfold AsOmniboxEventProviderType, known_provider in *. simpl in *.
  repeat (destruct (String.eqb name _); [done|]).
  unfold NOTREACHED, DCHECK, mbind, M_bind, bind. by rewrite Hd.
Qed.

Lemma AsOmniboxEventResultType_returns type w :
  dcheck_is_on P = false \/ known_type type = true ->
  AsOmniboxEventResultType P type w = Done (result_type_of type) w.
Proof.
  intros H. destruct type; try done.
  destruct H as [H|H]; [|done].
  unfold AsOmniboxEventResultType, NOTREACHED, DCHECK, mbind, M_bind, bind.
  by rewrite H.
Qed.

Lemma autocomplete_item_written m w f rest :
  xml_open (this w) = f :: rest ->
  OPEN_ELEMENT_FOR_SCOPE P "autocompleteitem"
    (match AutocompleteMatch.provider m with
     | Some name => WriteAttribute P "provider" name
     | None => ret tt
     end;;
     (let result_type :=
        AutocompleteMatch_TypeToString P (AutocompleteMatch.type m) in
      when (negb (String.eqb result_type ""))
        (WriteAttribute P "resulttype" result_type));;
     WriteIntAttribute P "relevance" (AutocompleteMatch.relevance m);;
     WriteIntAttribute P "isstarred"
       (if AutocompleteMatch.starred m then 1 else 0)) w =
  Done tt (wrote [] [autocomplete_item P m] (fun u => u) w).
Proof.
  intros Hw. destruct_world w. subst xo.
  unfold autocomplete_item, optional_string_attribute.
  destruct (AutocompleteMatch.provider m);
    destruct (String.eqb (AutocompleteMatch_TypeToString P _) "");
    run_monad; unfold_world; simpl; by rewrite ?app_nil_r.
Qed.
End Omnibox.

(** ** Loops *)

Lemma concat_map_singleton {X Y : Type} (g : X -> Y) (l : list X) :
  concat (map (fun x => [g x]) l) = map g l.
Proof. induction l as [|x l IH]; simpl; by rewrite ?IH. Qed.

Lemma alter_last_snoc {X : Type} (g : X -> X) (l : list X) (x : X) :
  alter_last g (l ++ [x])%list = (l ++ [g x])%list.
Proof.
  induction l as [|y l IH]; simpl; [done|].
  rewrite IH. by destruct l.
Qed.

(** A loop whose iterations each update the protobuf, and nothing else,
    does so in the order of the list. *)
Lemma for_each_modify_proto {X : Type} (good : X -> Prop)
    (body : X -> M unit)
    (u : X -> ChromeUserMetricsExtension.t -> ChromeUserMetricsExtension.t)
    (l : list X) :
  (forall x w, good x ->
     body x w = Done tt (with_log (with_uma_proto (u x)) w)) ->
  Forall good l ->
  forall w,
    for_each l body w =
    Done tt
      (with_log
         (with_uma_proto (fun p => fold_left (fun p x => u x p) l p)) w).
Proof.
  intros Hbody Hl. induction Hl as [|x l Hx Hl IH]; intros w; simpl.
  - by destruct_world w.
  - erewrite bind_Done; [|by apply Hbody].
    rewrite IH. by destruct_world w.
Qed.

Section OmniboxEvent.
Context (P : Platform).

Lemma autocomplete_written alog w f rest :
  xml_open (this w) = f :: rest ->
  OPEN_ELEMENT_FOR_SCOPE P "autocomplete"
    (WriteIntAttribute P "typedlength"
       (wrap_int (Z.of_nat (length (AutocompleteLog.text alog))));;
     WriteIntAttribute P "numterms" (num_terms_of P alog);;
     WriteIntAttribute P "selectedindex"
       (wrap_int (AutocompleteLog.selected_index alog));;
     WriteIntAttribute P "completedlength"
       (wrap_int (AutocompleteLog.inline_autocompleted_length alog));;
     when
       (negb
          (AutocompleteLog.elapsed_time_since_user_first_modified_omnibox alog
           =? FromMilliseconds (-1)))
       (WriteInt64Attribute P "typingduration"
          (InMilliseconds
             (AutocompleteLog.elapsed_time_since_user_first_modified_omnibox
                alog)));;
     (let input_type :=
        AutocompleteInput_TypeToString P (AutocompleteLog.input_type alog) in
      when (negb (String.eqb input_type ""))
        (WriteAttribute P "inputtype" input_type));;
     for_each (AutocompleteLog.result alog) (fun i =>
       OPEN_ELEMENT_FOR_SCOPE P "autocompleteitem"
         (match AutocompleteMatch.provider i with
          | Some name => WriteAttribute P "provider" name
          | None => ret tt
          end;;
          (let result_type :=
             AutocompleteMatch_TypeToString P (AutocompleteMatch.type i) in
           when (negb (String.eqb result_type ""))
             (WriteAttribute P "resulttype" result_type));;
          WriteIntAttribute P "relevance" (AutocompleteMatch.relevance i);;
          WriteIntAttribute P "isstarred"
            (if AutocompleteMatch.starred i then 1 else 0)))) w =
  Done tt (wrote [] [autocomplete_element P alog] (fun u => u) w).
Proof.
  intros Hw. destruct_world w. subst xo.
  unfold OPEN_ELEMENT_FOR_SCOPE at 1.
  set (body := fun i : AutocompleteMatch.t => _).
  assert (Hbody : forall x w f rest, True -> xml_open (this w) = f :: rest ->
            body x w = Done tt (wrote [] [autocomplete_item P x] (fun u => u) w)).
  { intros x w f0 rest0 _ Hw. by eapply autocomplete_item_written. }
  pose proof (for_each_wrote (fun _ => True) body _ _
                (AutocompleteLog.result alog) Hbody) as Hloop.
  assert (Hall : Forall (fun _ : AutocompleteMatch.t => True)
                   (AutocompleteLog.result alog))
    by (by apply Forall_forall).
  specialize (Hloop Hall). clear Hbody Hall. clearbody body.
  unfold autocomplete_element, typing_duration, optional_string_attribute.
  cbv zeta.
  destruct (_ =? FromMilliseconds (-1));
    destruct (String.eqb (AutocompleteInput_TypeToString P _) "");
    cbn [negb]; run_monad;
    (erewrite Hloop; [|reflexivity]);
    unfold_world; simpl;
    by rewrite concat_map_singleton, fold_left_identity, ?app_nil_r.
Qed.
End OmniboxEvent.

Section OmniboxOperation.
Context (P : Platform).

Lemma alter_last_alter_last {X : Type} (g h : X -> X) (l : list X) :
  alter_last g (alter_last h l) = alter_last (fun x => g (h x)) l.
Proof.
  induction l as [|x l IH]; simpl; [done|].
  destruct l as [|y l]; [done|].
  change (alter_last g (x :: alter_last h (y :: l)) =
          x :: alter_last (fun x => g (h x)) (y :: l)).
  rewrite <- IH. simpl. by destruct l.
Qed.

Lemma alter_last_ext {X : Type} (g h : X -> X) (l : list X) :
  (forall x, g x = h x) -> alter_last g l = alter_last h l.
Proof.
  intros E. induction l as [|x l IH]; simpl; [done|].
  rewrite IH, E. done.
Qed.

(** A setter after [add_suggestion()] writes into the suggestion that was
    added. *)
Lemma in_last_suggestion_added f s u :
  in_last_suggestion f (add_suggestion_to_last_event s u) =
  add_suggestion_to_last_event (f s) u.
Proof.
  unfold in_last_suggestion, add_suggestion_to_last_event. simpl.
  f_equal. rewrite alter_last_alter_last. apply alter_last_ext.
  intros e. unfold with_suggestion, add_suggestion. simpl.
  by rewrite alter_last_snoc.
Qed.

Lemma suggestion_written m w :
  dcheck_is_on P = false \/ known_match m = true ->
  (modify_proto (add_suggestion_to_last_event new_Suggestion);;
   provider ← AsOmniboxEventProviderType P (AutocompleteMatch.provider m);
   modify_proto (in_last_suggestion (set_provider provider));;
   result_type ← AsOmniboxEventResultType P (AutocompleteMatch.type m);
   modify_proto (in_last_suggestion (set_result_type result_type));;
   modify_proto
     (in_last_suggestion (set_relevance (AutocompleteMatch.relevance m)));;
   modify_proto
     (in_last_suggestion (set_is_starred (AutocompleteMatch.starred m)))) w =
  Done tt
    (with_log (with_uma_proto (add_suggestion_to_last_event (suggestion_of m)))
       w).
Proof.
  intros H.
  erewrite bind_Done; [|reflexivity].
  erewrite bind_Done.
  2:{ apply AsOmniboxEventProviderType_returns.
      destruct H as [H|H]; [by left|right].
      unfold known_match in H. by apply andb_prop in H as [H _]. }
  erewrite bind_Done; [|reflexivity].
  erewrite bind_Done.
  2:{ apply AsOmniboxEventResultType_returns.
      destruct H as [H|H]; [by left|right].
      unfold known_match in H. by apply andb_prop in H as [_ H]. }
  erewrite bind_Done; [|reflexivity].
  erewrite bind_Done; [|reflexivity].
  destruct_world w. unfold modify_proto, modify, with_log, with_uma_proto.
  simpl. by rewrite !in_last_suggestion_added.
Qed.

Lemma suggestions_added (ms : list AutocompleteMatch.t) events e :
  fold_left (fun p m => add_suggestion_to_last_event (suggestion_of m) p) ms
    {| ChromeUserMetricsExtension.system_profile := events;
       ChromeUserMetricsExtension.omnibox_event := e |} =
  {| ChromeUserMetricsExtension.system_profile := events;
     ChromeUserMetricsExtension.omnibox_event :=
       fold_left (fun es m => alter_last (add_suggestion (suggestion_of m)) es)
         ms e |}.
Proof. revert e. induction ms as [|m ms IH]; intros e; simpl; [done|apply IH]. Qed.

Lemma suggestions_of_last (ms : list AutocompleteMatch.t) es e :
  fold_left (fun es m => alter_last (add_suggestion (suggestion_of m)) es) ms
    (es ++ [e])%list =
  (es ++
   [{| OmniboxEventProto.time := OmniboxEventProto.time e;
       OmniboxEventProto.tab_id := OmniboxEventProto.tab_id e;
       OmniboxEventProto.typed_length := OmniboxEventProto.typed_length e;
       OmniboxEventProto.num_typed_terms :=
         OmniboxEventProto.num_typed_terms e;
       OmniboxEventProto.selected_index := OmniboxEventProto.selected_index e;
       OmniboxEventProto.completed_length :=
         OmniboxEventProto.completed_length e;
       OmniboxEventProto.typing_duration_ms :=
         OmniboxEventProto.typing_duration_ms e;
       OmniboxEventProto.input_type := OmniboxEventProto.input_type e;
       OmniboxEventProto.suggestion :=
         OmniboxEventProto.suggestion e ++ map suggestion_of ms |}])%list.
Proof.
  revert e. induction ms as [|m ms IH]; intros e; simpl.
  - rewrite app_nil_r. by destruct e.
  - rewrite alter_last_snoc, IH. simpl. by rewrite <- app_assoc.
Qed.

Lemma matches_pass_Forall alog :
  matches_pass P alog ->
  Forall (fun m => dcheck_is_on P = false \/ known_match m = true)
    (AutocompleteLog.result alog).
Proof.
  intros [H|H]; apply Forall_forall; intros m Hm; [by left|right].
  rewrite forallb_forall in H. apply H. by apply list_elem_of_In.
Qed.

Lemma RecordOmniboxOpenedURL_closed_form alog w :
  runnable P w -> matches_pass P alog ->
  RecordOmniboxOpenedURL P alog w = Done tt (omnibox_result P alog w).
Proof.
  intros Hrun Hpass. apply runnable_check in Hrun.
  pose proof (fun w f rest => autocomplete_written P alog w f rest) as Hinner.
  assert (Hloop : forall w,
    for_each (AutocompleteLog.result alog) (fun i =>
      modify_proto (add_suggestion_to_last_event new_Suggestion);;
      provider ← AsOmniboxEventProviderType P (AutocompleteMatch.provider i);
      modify_proto (in_last_suggestion (set_provider provider));;
      result_type ← AsOmniboxEventResultType P (AutocompleteMatch.type i);
      modify_proto (in_last_suggestion (set_result_type result_type));;
      modify_proto
        (in_last_suggestion (set_relevance (AutocompleteMatch.relevance i)));;
      modify_proto
        (in_last_suggestion (set_is_starred (AutocompleteMatch.starred i))))
      w =
    Done tt
      (with_log
         (with_uma_proto (fun p =>
            fold_left
              (fun p m => add_suggestion_to_last_event (suggestion_of m) p)
              (AutocompleteLog.result alog) p)) w)).
  { apply (for_each_modify_proto
             (fun m => dcheck_is_on P = false \/ known_match m = true));
      [|by apply matches_pass_Forall].
    intros m w1 H. by apply suggestion_written. }
  clear Hpass.
  unfold RecordOmniboxOpenedURL. unfold num_terms_of in Hinner.
  cbv zeta. cbv zeta in Hinner.
  set (inner := OPEN_ELEMENT_FOR_SCOPE P "autocomplete" _) in *.
  set (body := fun i : AutocompleteMatch.t => _) in *.
  clearbody inner body.
  destruct_world w.
  unfold omnibox_result, uielement, omnibox_event_of, known_tab,
    typing_duration, num_terms_of.
  destruct (AutocompleteLog.tab_id alog =? -1); cbn [negb];
    run_monad; rewrite Hrun; cbv iota beta;
    (erewrite Hinner; [|reflexivity]);
    unfold_world; cbv iota beta;
    destruct xo as [|f0 rest0]; cbv iota beta;
    rewrite Hloop; unfold_world; cbv iota beta;
    unfold ChromeUserMetricsExtension.add_omnibox_event;
    rewrite suggestions_added, suggestions_of_last; simpl;
    rewrite ?app_nil_r;
    destruct (_ =? FromMilliseconds (-1)); reflexivity.
Qed.
End OmniboxOperation.

Section OmniboxStops.
Context (P : Platform).

(** What the writing of an event, up to its last statement, leaves
    alone: the event counter, the preference store and the system
    profile. *)
Lemma unknown_match_stops m :
  dcheck_is_on P = true -> known_match m = false ->
  stops_within
    (same (fun w => (num_events (this w), local_state w,
                     ChromeUserMetricsExtension.system_profile
                       (uma_proto (this w)))))
    (modify_proto (add_suggestion_to_last_event new_Suggestion);;
     provider ← AsOmniboxEventProviderType P (AutocompleteMatch.provider m);
     modify_proto (in_last_suggestion (set_provider provider));;
     result_type ← AsOmniboxEventResultType P (AutocompleteMatch.type m);
     modify_proto (in_last_suggestion (set_result_type result_type));;
     modify_proto
       (in_last_suggestion (set_relevance (AutocompleteMatch.relevance m)));;
     modify_proto
       (in_last_suggestion (set_is_starred (AutocompleteMatch.starred m)))).
Proof.
  intros Hd Hm. unfold known_match in Hm.
  stops_after_step.
  destruct (known_provider (AutocompleteMatch.provider m)) eqn:Hp.
  - simpl in Hm.
    apply stops_bind_r; [apply _| |intros provider].
    { unfold AsOmniboxEventProviderType.
      repeat respects_step; respects_primitive. }
    stops_after_step.
    apply stops_bind_l. intros w.
    destruct (AutocompleteMatch.type m); try done.
    unfold AsOmniboxEventResultType, NOTREACHED, DCHECK, mbind, M_bind, bind.
    by rewrite Hd.
  - apply stops_bind_l. intros w.
    destruct (AutocompleteMatch.provider m) as [name|]; [|done].
    by rewrite AsOmniboxEventProviderType_stops.
Qed.

Lemma RecordOmniboxOpenedURL_stops alog m :
  dcheck_is_on P = true ->
  In m (AutocompleteLog.result alog) -> known_match m = false ->
  stops_within
    (same (fun w => (num_events (this w), local_state w,
                     ChromeUserMetricsExtension.system_profile
                       (uma_proto (this w)))))
    (RecordOmniboxOpenedURL P alog).
Proof.
  intros Hd Hin Hm. unfold RecordOmniboxOpenedURL, OPEN_ELEMENT_FOR_SCOPE.
  do 2 stops_after_step. cbv zeta. stops_after_step.
  apply stops_bind_l.
  do 8 stops_after_step.
  apply stops_bind_l.
  eapply stops_for_each; [apply _|exact Hin| |by apply unknown_match_stops].
  intros y. unfold AsOmniboxEventProviderType, AsOmniboxEventResultType.
  repeat respects_step; respects_primitive.
Qed.
End OmniboxStops.

(** ** The plugin list *)

Section PluginList.
Context (P : Platform).

Lemma plugins_scope (block : M unit) C u w :
  (forall w1 f rest, xml_open (this w1) = f :: rest ->
     block w1 = Done tt (wrote [] C u w1)) ->
  OPEN_ELEMENT_FOR_SCOPE P "plugins" block w =
  Done tt
    (with_log (fun l => with_uma_proto u (attach (Elem "plugins" [] C) l)) w).
Proof.
  intros Hblock. unfold OPEN_ELEMENT_FOR_SCOPE.
  erewrite bind_Done; [|reflexivity].
  erewrite bind_Done; [|by eapply Hblock].
  destruct_world w. unfold EndElement. unfold_world. simpl.
  destruct xo as [|f rest]; unfold_world; simpl; by rewrite ?app_nil_r.
Qed.

Lemma legacy_plugin_written info w f rest :
  xml_open (this w) = f :: rest ->
  (let base64_name_hash :=
     fst (CreateHashes P (UTF16ToUTF8 P (WebPluginInfo.name info))) in
   let filename_bytes := BaseName P (WebPluginInfo.path info) in
   let base64_filename_hash := fst (CreateHashes P filename_bytes) in
   OPEN_ELEMENT_FOR_SCOPE P "plugin"
     (WriteAttribute P "name" base64_name_hash;;
      WriteAttribute P "filename" base64_filename_hash;;
      WriteAttribute P "version"
        (UTF16ToUTF8 P (WebPluginInfo.version info));;
      match GetPluginPrefs P with
      | Some IsPluginEnabled =>
          WriteIntAttribute P "disabled"
            (if negb (IsPluginEnabled info) then 1 else 0)
      | None => ret tt
      end)) w =
  Done tt (wrote [] [legacy_plugin P info] (fun u => u) w).
Proof.
  intros Hw. destruct_world w. subst xo. unfold legacy_plugin.
  destruct (GetPluginPrefs P); run_monad; unfold_world; simpl;
    by rewrite ?app_nil_r.
Qed.

Lemma structured_plugin_written info w f rest :
  xml_open (this w) = f :: rest ->
  modify_system_profile
    (SystemProfileProto.add_plugin
       (SetPluginInfo P info (GetPluginPrefs P) Plugin.empty)) w =
  Done tt
    (wrote [] []
       (ChromeUserMetricsExtension.with_system_profile
          (SystemProfileProto.add_plugin (structured_plugin P info))) w).
Proof.
  intros Hw. destruct_world w. subst xo. run_monad. unfold_world. simpl.
  destruct f. simpl. by rewrite !app_nil_r.
Qed.

Lemma add_plugins_fold (l : list WebPluginInfo.t) u :
  fold_left
    (fun p x =>
       ChromeUserMetricsExtension.with_system_profile
         (SystemProfileProto.add_plugin (structured_plugin P x)) p) l u =
  add_plugins (map (structured_plugin P) l) u.
Proof.
  revert u. induction l as [|x l IH]; intros u; simpl.
  - by destruct u.
  - rewrite IH. by destruct u.
Qed.

Lemma WritePluginList_xml plugin_list w :
  runnable P w ->
  WritePluginList P plugin_list true w =
  Done tt
    (with_log
       (attach (Elem "plugins" [] (map (legacy_plugin P) plugin_list))) w).
Proof.
  intros Hrun. apply runnable_check in Hrun.
  unfold WritePluginList.
  erewrite bind_Done; [|reflexivity].
  erewrite bind_Done; [|unfold DCHECK; by rewrite Hrun].
  cbv zeta.
  erewrite plugins_scope.
  2:{ intros w1 f rest Hw1.
      eapply (for_each_wrote (fun _ => True));
        [|by apply Forall_forall|exact Hw1].
      intros x w2 f2 rest2 _ Hw2. by eapply legacy_plugin_written. }
  rewrite concat_map_singleton. destruct_world w. unfold_world. simpl.
  destruct xo as [|f rest]; simpl; by rewrite ?fold_left_identity.
Qed.

Lemma WritePluginList_proto plugin_list w :
  runnable P w ->
  WritePluginList P plugin_list false w =
  Done tt
    (with_log (fun l =>
       with_uma_proto (add_plugins (map (structured_plugin P) plugin_list))
         (attach (Elem "plugins" [] []) l)) w).
Proof.
  intros Hrun. apply runnable_check in Hrun.
  unfold WritePluginList.
  erewrite bind_Done; [|reflexivity].
  erewrite bind_Done; [|unfold DCHECK; by rewrite Hrun].
  cbv zeta.
  erewrite plugins_scope.
  2:{ intros w1 f rest Hw1.
      eapply (for_each_wrote (fun _ => True));
        [|by apply Forall_forall|exact Hw1].
      intros x w2 f2 rest2 _ Hw2. by eapply structured_plugin_written. }
  assert (E : concat (map (fun _ : WebPluginInfo.t => @nil Element)
                        plugin_list) = []).
  { by induction plugin_list. }
  rewrite E. destruct_world w. unfold with_log, with_uma_proto. simpl.
  rewrite add_plugins_fold. by destruct xo as [|f rest].
Qed.
End PluginList.

(** ** The environment *)

Section EnvironmentProto.
Context (P : Platform).

Lemma WriteFieldTrials_closed_form (ids : list NameGroupId.t) w :
  WriteFieldTrials ids w =
  Done tt
    (with_log
       (with_uma_proto
          (ChromeUserMetricsExtension.with_system_profile (fun p =>
             fold_left
               (fun p it =>
                  SystemProfileProto.add_field_trial (field_trial_of it) p)
               ids p))) w).
Proof.
  unfold WriteFieldTrials.
  rewrite (for_each_modify_proto (fun _ => True) _
             (fun it =>
                ChromeUserMetricsExtension.with_system_profile
                  (SystemProfileProto.add_field_trial (field_trial_of it))));
    [|done|by apply Forall_forall].
  assert (E : forall u,
    fold_left
      (fun p x =>
         ChromeUserMetricsExtension.with_system_profile
           (SystemProfileProto.add_field_trial (field_trial_of x)) p) ids u =
    ChromeUserMetricsExtension.with_system_profile (fun p =>
      fold_left
        (fun p it => SystemProfileProto.add_field_trial (field_trial_of it) p)
        ids p) u).
  { induction ids as [|x l IH]; intros u; simpl; [by destruct u|].
    rewrite IH. by destruct u. }
  destruct_world w. unfold with_log, with_uma_proto. simpl. by rewrite E.
Qed.

Lemma field_trials_appended (ids : list NameGroupId.t) p :
  fold_left
    (fun p it => SystemProfileProto.add_field_trial (field_trial_of it) p)
    ids p =
  {| SystemProfileProto.install_date := SystemProfileProto.install_date p;
     SystemProfileProto.application_locale :=
       SystemProfileProto.application_locale p;
     SystemProfileProto.hardware := SystemProfileProto.hardware p;
     SystemProfileProto.os := SystemProfileProto.os p;
     SystemProfileProto.plugin := SystemProfileProto.plugin p;
     SystemProfileProto.field_trial :=
       SystemProfileProto.field_trial p ++ map field_trial_of ids;
     SystemProfileProto.stability := SystemProfileProto.stability p |}.
Proof.
  revert p. induction ids as [|x l IH]; intros p; simpl.
  - rewrite app_nil_r. by destruct p.
  - rewrite IH. simpl. by rewrite <- app_assoc.
Qed.

Lemma plugins_appended (ps : list Plugin.t) p :
  fold_left (fun p x => SystemProfileProto.add_plugin x p) ps p =
  {| SystemProfileProto.install_date := SystemProfileProto.install_date p;
     SystemProfileProto.application_locale :=
       SystemProfileProto.application_locale p;
     SystemProfileProto.hardware := SystemProfileProto.hardware p;
     SystemProfileProto.os := SystemProfileProto.os p;
     SystemProfileProto.plugin := SystemProfileProto.plugin p ++ ps;
     SystemProfileProto.field_trial := SystemProfileProto.field_trial p;
     SystemProfileProto.stability := SystemProfileProto.stability p |}.
Proof.
  revert p. induction ps as [|x l IH]; intros p; simpl.
  - rewrite app_nil_r. by destruct p.
  - rewrite IH. simpl. by rewrite <- app_assoc.
Qed.

Lemma RecordEnvironmentProto_closed_form plugin_list w :
  runnable P w ->
  dcheck_is_on P = false \/ fst (parsed_install_date P w) = true ->
  RecordEnvironmentProto P plugin_list w =
  Done tt
    (with_log (fun l =>
       with_uma_proto
         (ChromeUserMetricsExtension.with_system_profile
            (environment_proto P (snd (parsed_install_date P w)) plugin_list))
         (attach (Elem "plugins" [] []) l)) w).
Proof.
  intros Hrun Hdate. unfold RecordEnvironmentProto, parsed_install_date in *.
  erewrite bind_Done; [|reflexivity].
  destruct (StringToInt P _) as [success d]. simpl in Hdate.
  erewrite bind_Done.
  2:{ unfold DCHECK. destruct Hdate as [->| ->]; [done|].
      by rewrite andb_false_r. }
  do 5 (erewrite bind_Done; [|reflexivity]).
  cbv zeta.
  erewrite bind_Done.
  2:{ apply WritePluginList_proto. destruct Hrun as [H|H]; [by left|by right]. }
  rewrite WriteFieldTrials_closed_form.
  destruct_world w. unfold add_plugins, environment_proto.
  unfold_world. simpl. destruct_proto up. simpl.
  rewrite plugins_appended, field_trials_appended. simpl.
  by destruct xo as [|f rest].
Qed.
End EnvironmentProto.

(** ** Per-profile metrics *)

Section ProfileElements.
Context (P : Platform).

Lemma metric_written profile i w f rest :
  dcheck_is_on P = false \/ metric_passes profile i = true ->
  xml_open (this w) = f :: rest ->
  WriteProfileMetrics_iteration P profile i w =
  Done tt (wrote [] (option_list (profile_param profile i)) (fun u => u) w).
Proof.
  intros [Hoff|Hpass] Hw; [by eapply profile_iteration_wrote|].
  destruct_world w. subst.
  unfold WriteProfileMetrics_iteration, profile_param, metric_passes in *.
  destruct (GetWithoutPathExpansion i profile) as [v|]; simpl.
  - apply andb_prop in Hpass as [Hv Hid].
    unfold_monad. rewrite Hid, andb_false_r.
    destruct v; try done; simpl; finish_world; by destruct f.
  - unfold_monad. finish_world. by destruct f.
Qed.

Lemma WriteProfileMetrics_written h profile w :
  profile_passes P profile ->
  WriteProfileMetrics P h profile w =
  Done tt (with_log (attach (userprofile_element h profile)) w).
Proof.
  intros Hpass. unfold WriteProfileMetrics, OPEN_ELEMENT_FOR_SCOPE.
  erewrite bind_Done; [|reflexivity].
  erewrite bind_Done.
  2:{ erewrite bind_Done; [|reflexivity].
      eapply for_each_wrote
        with (good := fun i => dcheck_is_on P = false \/
                               metric_passes profile i = true);
        [| |reflexivity].
      - intros x w0 f0 rest0 Hx Hw0. by eapply metric_written.
      - apply Forall_forall. intros i Hi.
        destruct Hpass as [H|H]; [by left|right].
        rewrite forallb_forall in H. apply H. by apply list_elem_of_In. }
  rewrite concat_option_list. destruct_world w.
  unfold userprofile_element. unfold_monad. unfold_world. simpl.
  destruct xo as [|f rest]; simpl; by rewrite fold_left_identity.
Qed.

(** A loop whose iterations each attach at most one element. *)
Lemma for_each_attach {X : Type} (good : X -> Prop) (body : X -> M unit)
    (g : X -> option Element) (l : list X) :
  (forall x w, good x ->
     body x w =
     Done tt
       (match g x with Some e => with_log (attach e) w | None => w end)) ->
  Forall good l ->
  forall w,
    for_each l body w =
    Done tt
      (with_log (fun lg => fold_left (fun lg e => attach e lg) (omap g l) lg)
         w).
Proof.
  intros Hbody Hl. induction Hl as [|x l Hx Hl IH]; intros w; simpl.
  - by destruct_world w.
  - erewrite bind_Done; [|by apply Hbody].
    rewrite IH. destruct (g x); simpl; by destruct_world w.
Qed.

Lemma WriteAllProfilesMetrics_written all w :
  profiles_pass P all ->
  WriteAllProfilesMetrics P all w =
  Done tt
    (with_log
       (fun lg => fold_left (fun lg e => attach e lg) (profile_elements all) lg)
       w).
Proof.
  intros Hpass. unfold WriteAllProfilesMetrics, profile_elements. cbv zeta.
  apply (for_each_attach
           (fun key_name =>
              match profile_of_key all key_name with
              | Some hp => profile_passes P (snd hp)
              | None => True
              end)).
  - intros key_name w0. unfold profile_of_key.
    destruct (String.prefix prefs.kProfilePrefix key_name); [|done].
    destruct (GetDictionaryWithoutPathExpansion key_name all); [|done].
    simpl. intros Hp. by apply WriteProfileMetrics_written.
  - apply Forall_forall. intros key_name Hkey.
    destruct (profile_of_key all key_name) as [hp|] eqn:E; [|done].
    destruct Hpass as [H|H]; [by left|right].
    rewrite forallb_forall in H.
    specialize (H key_name (proj1 (list_elem_of_In _ _) Hkey)).
    by rewrite E in H.
Qed.

Lemma metric_named_id_stops profile v :
  dcheck_is_on P = true ->
  GetWithoutPathExpansion "id" profile = Some v ->
  crashes (WriteProfileMetrics_iteration P profile "id").
Proof.
  intros Hon Hk w. unfold WriteProfileMetrics_iteration. rewrite Hk.
  unfold mbind, M_bind, bind, DCHECK. by rewrite Hon.
Qed.
End ProfileElements.

(** ** The full stability element *)

Section FullStability.
Context (P : Platform) (plugin_list : list WebPluginInfo.t).

Lemma stability_key_cases key :
  is_stability_key key = false ->
  is_session_counter key = false /\
  (forall k a f, In (k, a, f) (required_counters ++ realtime_counters) ->
     String.eqb key k = false) /\
  (forall k f, In (k, f) platform_counters -> String.eqb key k = false).
Proof.
  unfold is_stability_key, stability_keys, is_session_counter. simpl.
  intros H. repeat (apply orb_false_elim in H as [? H]).
  split; [|split].
  - simpl. by repeat (apply orb_false_intro; [done|]).
  - intros k a f Hin. by each_counter Hin.
  - intros k f Hin. by each_counter Hin.
Qed.

Lemma snapshot_keeps_other_counters key w :
  is_stability_key key = false ->
  counter key (snapshot_result P w) = counter key w.
Proof.
  intros H. apply stability_key_cases in H as (_ & Hr & Hp).
  pose proof (Hr _ _ _ (or_introl eq_refl)) as H1.
  pose proof (Hr _ _ _ (or_intror (or_introl eq_refl))) as H2.
  pose proof (Hr _ _ _ (or_intror (or_intror (or_introl eq_refl)))) as H3.
  pose proof (Hr _ _ _ (or_intror (or_intror (or_intror (or_introl eq_refl)))))
    as H4.
  pose proof (Hr _ _ _ (or_intror (or_intror (or_intror (or_intror
                          (or_introl eq_refl)))))) as H5.
  pose proof (Hr _ _ _ (or_intror (or_intror (or_intror (or_intror
                          (or_intror (or_introl eq_refl))))))) as H6.
  pose proof (Hr _ _ _ (or_intror (or_intror (or_intror (or_intror
                          (or_intror (or_intror (or_introl eq_refl))))))))
    as H7.
  pose proof (Hp _ _ (or_introl eq_refl)) as H8.
  pose proof (Hp _ _ (or_intror (or_introl eq_refl))) as H9.
  pose proof (Hp _ _ (or_intror (or_intror (or_introl eq_refl)))) as H10.
  clear Hr Hp.
  unfold snapshot_result, chromeos_steps, realtime_steps.
  rewrite uptime_step_counter.
  destruct (OS_CHROMEOS P);
    rewrite ?counter_step_counter, ?required_step_counter,
      ?H1, ?H2, ?H3, ?H4, ?H5, ?H6, ?H7, ?H8, ?H9, ?H10; done.
Qed.

Lemma full_snapshot_keeps_other_counters key w :
  is_stability_key key = false ->
  counter key (session_step (snapshot_result P w)) = counter key w.
Proof.
  intros H. rewrite session_step_counter.
  rewrite (proj1 (stability_key_cases key H)).
  by apply snapshot_keeps_other_counters.
Qed.

Lemma WriteStabilityElement_stops w :
  dcheck_is_on P && negb (negb (locked (this w))) = true ->
  WriteStabilityElement P plugin_list w = Crash w.
Proof.
  intros H. unfold WriteStabilityElement.
  erewrite bind_Done; [|reflexivity].
  apply bind_Crash. unfold DCHECK. by rewrite H.
Qed.

Lemma WriteStabilityElement_keeps_other_counters key w :
  is_stability_key key = false -> key <> prefs.kStabilityPluginStats ->
  counter key (final_world (WriteStabilityElement P plugin_list w)) =
  counter key w.
Proof.
  intros Hkey Hne.
  destruct (dcheck_is_on P && negb (negb (locked (this w)))) eqn:E.
  - by rewrite WriteStabilityElement_stops.
  - assert (Hrun : runnable P w).
    { unfold runnable. destruct (dcheck_is_on P); [left|by right].
      simpl in E. by destruct (locked (this w)). }
    rewrite (proj1 (WriteStabilityElement_observed P plugin_list w key
                      "launch_count" Hrun Hne)).
    by rewrite full_snapshot_keeps_other_counters.
Qed.

Lemma WriteStabilityElement_outside :
  respects (same outside_stability) (WriteStabilityElement P plugin_list).
Proof.
  unfold WriteStabilityElement, WriteRequiredStabilityAttributes,
    WriteRealtimeStabilityAttributes, GetIncrementalUptime,
    WritePluginStabilityElements, WritePluginStabilityElements_iteration,
    OPEN_ELEMENT_FOR_SCOPE.
  repeat respects_step;
    (intros w0; unfold same, outside_stability, PrefService_GetString;
     unfold_monad; repeat case_match; unfold_world; simpl;
     rewrite ?lookup_delete_ne by done; reflexivity).
Qed.
End FullStability.

Section FullStabilityTree.
Context (P : Platform) (plugin_list : list WebPluginInfo.t).

Lemma session_step_kept w : kept w (session_step w).
Proof.
  destruct_world w. destruct_proto up. unfold kept, session_step.
  unfold_world. simpl. by destruct xo.
Qed.

Lemma session_attributes_after_snapshot w :
  session_attributes (snapshot_result P w) = session_attributes w.
Proof.
  unfold session_attributes.
  apply map_ext_in. intros [[key attr] field] Hin.
  by rewrite (snapshot_keeps_session_counters P key attr field).
Qed.

Lemma WriteStabilityElement_tree w :
  runnable P w -> plugin_pass_passes P plugin_list w ->
  exists w',
    WriteStabilityElement P plugin_list w = Done tt w' /\
    xml_open (this w') =
      xml_open (attach (full_stability_element P w) (this w)) /\
    xml_closed (this w') =
      xml_closed (attach (full_stability_element P w) (this w)) /\
    Stability.plugin_stability (stability_of (this w')) =
      (Stability.plugin_stability (stability_of (this w)) ++
       plugin_entries P plugin_list w)%list.
Proof.
  intros Hrun Hpass.
  rewrite WriteStabilityElement_run by done.
  pose proof (enter_stability_open w) as Hopen0.
  pose proof (snapshot_open P _ _ _ Hopen0) as Hopen1.
  pose proof (session_step_open _ _ _ Hopen1) as Hopen2.
  rewrite session_attributes_after_snapshot in Hopen2.
  assert (Hkept : kept w (session_step (snapshot_result P (enter_stability w)))).
  { eapply kept_trans; [|apply session_step_kept].
    eapply kept_trans; [|apply snapshot_result_kept].
    by destruct_world w. }
  set (w1 := session_step (snapshot_result P (enter_stability w))) in *.
  assert (Hpass1 : plugin_pass_passes P plugin_list w1).
  { unfold plugin_pass_passes, PrefService_GetList in *.
    by rewrite (proj1 (proj2 Hkept)). }
  assert (Hchildren : plugin_children P w1 = plugin_children P w).
  { unfold plugin_children, PrefService_GetList.
    by rewrite (proj1 (proj2 Hkept)). }
  assert (Hentries :
    plugin_entries P plugin_list w1 = plugin_entries P plugin_list w).
  { unfold plugin_entries, PrefService_GetList.
    by rewrite (proj1 (proj2 Hkept)). }
  destruct (plugin_pass_tree P plugin_list w1 _ _ Hopen2 Hpass1)
    as (w2 & Hrun2 & Ho2 & Hc2 & Hp2).
  destruct Hkept as (Hk1 & Hk2 & Hk3 & Hk4 & Hk5 & Hk6).
  rewrite Hk6, Hentries in Hp2.
  erewrite bind_Done by exact Hrun2.
  unfold EndElement. rewrite Ho2, Hc2, Hk1, Hchildren.
  unfold attach, full_stability_element.
  destruct (xml_open (this w)) as [|parent rest];
    eexists; (split; [reflexivity|]);
    unfold extend_frame, close_frame, add_child, new_frame; simpl;
    rewrite ?app_nil_r; done.
Qed.

Lemma WriteStabilityElement_clears_list w w' :
  runnable P w ->
  WriteStabilityElement P plugin_list w = Done tt w' ->
  PrefService_GetList prefs.kStabilityPluginStats (local_state w') = None.
Proof.
  intros Hrun Hdone. rewrite WriteStabilityElement_run in Hdone by done.
  apply bind_Done_inv in Hdone as ([] & w2 & Hpass & Hend).
  assert (E : local_state w' = local_state w2).
  { eapply (respects_Done (same local_state)); [|exact Hend].
    respects_primitive. }
  rewrite E. clear E Hend.
  set (w1 := session_step _) in *. clearbody w1.
  destruct (PrefService_GetList prefs.kStabilityPluginStats (local_state w1))
    as [stats|] eqn:Hlist.
  - rewrite (pass_clears_the_list P plugin_list stats w1 w2 Hlist Hpass).
    apply ClearPref_GetList.
  - rewrite plugin_pass_on_null_list in Hpass by done.
    inversion Hpass. by subst.
Qed.
End FullStabilityTree.

(** ** The environment report *)

Lemma bind_run {A B : Type} (m : M A) (k : A -> M B) w :
  (m ≫= k) w =
  match m w with Done a w1 => k a w1 | Crash w1 => Crash w1 end.
Proof. reflexivity. Qed.

Section EnvironmentReport.
Context (P : Platform) (plugin_list : list WebPluginInfo.t).

Lemma attach_all_open (es : list Element) l f rest :
  xml_open l = f :: rest ->
  fold_left (fun lg e => attach e lg) es l =
  with_xml (xml_closed l) (extend_frame [] es f :: rest) l.
Proof.
  revert l f. induction es as [|e es IH]; intros l f Hl; simpl.
  - rewrite extend_frame_nil. destruct l. simpl in *. by subst.
  - erewrite IH.
    2:{ unfold attach. rewrite Hl. reflexivity. }
    unfold attach. rewrite Hl. destruct l, f. simpl.
    unfold with_xml, extend_frame, add_child. simpl.
    by rewrite <- !app_assoc, app_nil_r.
Qed.

Lemma report_prefix_written (K : M unit) w f rest :
  xml_open (this w) = f :: rest ->
  (WriteCommonEventAttributes P;; WriteInstallElement P;; K) w =
  K (wrote
       [("session", AttrString (session_id (this w)));
        ("time", AttrInt64 (Time_Now w))]
       [install_element w] (fun u => u) w).
Proof.
  intros Hw. destruct_world w. subst xo. unfold install_element.
  run_monad. unfold_world. simpl.
  by rewrite ?app_nil_r, <- ?app_assoc.
Qed.

Lemma environment_written (K : M unit) w f rest :
  xml_open (this w) = f :: rest ->
  (OPEN_ELEMENT_FOR_SCOPE P "cpu"
     (WriteAttribute P "arch" (CPUArchitecture P));;
   OPEN_ELEMENT_FOR_SCOPE P "memory"
     (WriteIntAttribute P "mb" (AmountOfPhysicalMemoryMB P);;
      when (OS_WIN P)
        (WriteIntAttribute P "dllbase" (wrap_int (ImageBase P))));;
   OPEN_ELEMENT_FOR_SCOPE P "os"
     (WriteAttribute P "name" (OperatingSystemName P);;
      WriteAttribute P "version" (OperatingSystemVersion P));;
   OPEN_ELEMENT_FOR_SCOPE P "gpu"
     (WriteIntAttribute P "vendorid"
        (wrap_int (GPUInfo.vendor_id (GetGPUInfo P)));;
      WriteIntAttribute P "deviceid"
        (wrap_int (GPUInfo.device_id (GetGPUInfo P))));;
   OPEN_ELEMENT_FOR_SCOPE P "display"
     (WriteIntAttribute P "xsize" (fst (GetScreenSize P));;
      WriteIntAttribute P "ysize" (snd (GetScreenSize P));;
      WriteIntAttribute P "screens" (GetScreenCount P));;
   OPEN_ELEMENT_FOR_SCOPE P "bookmarks"
     (num_bookmarks_on_bookmark_bar ←
        GetInteger prefs.kNumBookmarksOnBookmarkBar;
      num_folders_on_bookmark_bar ←
        GetInteger prefs.kNumFoldersOnBookmarkBar;
      num_bookmarks_in_other_bookmarks_folder ←
        GetInteger prefs.kNumBookmarksInOtherBookmarkFolder;
      num_folders_in_other_bookmarks_folder ←
        GetInteger prefs.kNumFoldersInOtherBookmarkFolder;
      OPEN_ELEMENT_FOR_SCOPE P "bookmarklocation"
        (WriteAttribute P "name" "full-tree";;
         WriteIntAttribute P "foldercount"
           (wrap_int (num_folders_on_bookmark_bar +
                      num_folders_in_other_bookmarks_folder));;
         WriteIntAttribute P "itemcount"
           (wrap_int (num_bookmarks_on_bookmark_bar +
                      num_bookmarks_in_other_bookmarks_folder)));;
      OPEN_ELEMENT_FOR_SCOPE P "bookmarklocation"
        (WriteAttribute P "name" "toolbar";;
         WriteIntAttribute P "foldercount" num_folders_on_bookmark_bar;;
         WriteIntAttribute P "itemcount" num_bookmarks_on_bookmark_bar));;
   OPEN_ELEMENT_FOR_SCOPE P "keywords"
     (count ← GetInteger prefs.kNumKeywords;
      WriteIntAttribute P "count" count);;
   K) w =
  K (wrote [] (environment_elements P w) (fun u => u) w).
Proof.
  intros Hw. destruct_world w. subst xo.
  unfold environment_elements, counter.
  destruct (OS_WIN P); run_monad; unfold_world; simpl;
    by rewrite ?app_nil_r, <- ?app_assoc.
Qed.

Lemma RecordEnvironment_tree profile_metrics w :
  runnable P w -> plugin_pass_passes P plugin_list w ->
  metrics_pass P profile_metrics ->
  dcheck_is_on P = false \/ fst (parsed_install_date P w) = true ->
  exists w',
    RecordEnvironment P plugin_list profile_metrics w = Done tt w' /\
    xml_open (this w') =
      xml_open
        (attach (environment_profile_element P plugin_list profile_metrics w)
           (this w)) /\
    xml_closed (this w') =
      xml_closed
        (attach (environment_profile_element P plugin_list profile_metrics w)
           (this w)) /\
    environment_of (system_profile_of w') =
      environment_of
        (environment_proto P (snd (parsed_install_date P w)) plugin_list
           (system_profile_of w)) /\
    Stability.plugin_stability (stability_of (this w')) =
      (Stability.plugin_stability (stability_of (this w)) ++
       plugin_entries P plugin_list w)%list /\
    (forall key field,
       In (key, field) (consumed P true) ->
       counter key w' = 0 /\
       (fresh_report w -> reported field w' = counter key w)) /\
    PrefService_GetList prefs.kStabilityPluginStats (local_state w') = None.
Proof.
  intros Hrun Hpass Hmetrics Hdate.
  pose proof (runnable_check P w Hrun) as Hcheck.
  unfold RecordEnvironment.
  erewrite bind_Done; [|reflexivity].
  erewrite bind_Done; [|unfold DCHECK; by rewrite Hcheck].
  unfold OPEN_ELEMENT_FOR_SCOPE at 1.
  erewrite bind_Done; [|reflexivity].
  cbv zeta. rewrite bind_run.
  erewrite report_prefix_written; [|reflexivity].
  rewrite bind_run.
  rewrite WritePluginList_xml by (destruct Hrun; [by left|by right]).
  set (w2 := with_log (attach _) _).
  assert (Hopen2 : xml_open (this w2) =
            {| frame_tag := "profile";
               frame_attributes :=
                 [("session", AttrString (session_id (this w)));
                  ("time", AttrInt64 (Time_Now w))];
               frame_children :=
                 [install_element w;
                  Elem "plugins" [] (map (legacy_plugin P) plugin_list)] |}
            :: xml_open (this w)) by reflexivity.
  assert (Hclosed2 : xml_closed (this w2) = xml_closed (this w))
    by reflexivity.
  assert (Hout2 : outside_stability w2 = outside_stability w) by reflexivity.
  assert (Hstate2 : local_state w2 = local_state w) by reflexivity.
  assert (Hstab2 : stability_of (this w2) = stability_of (this w))
    by reflexivity.
  assert (Helem2 : full_stability_element P w2 = full_stability_element P w)
    by reflexivity.
  assert (Hentries2 :
    plugin_entries P plugin_list w2 = plugin_entries P plugin_list w)
    by reflexivity.
  assert (Hrun2 : runnable P w2) by exact Hrun.
  assert (Hpass2 : plugin_pass_passes P plugin_list w2) by exact Hpass.
  assert (Hconsumed : forall key field,
    In (key, field) (consumed P true) ->
    counter key (after_snapshot P true w2) = 0 /\
    (fresh_report w ->
     reported field (after_snapshot P true w2) = counter key w)).
  { intros key field Hin. by apply (after_snapshot_consumed P key field true w2). }
  clearbody w2.
  destruct (WriteStabilityElement_tree P plugin_list w2 Hrun2 Hpass2)
    as (w4 & Hrun4 & Hopen4 & Hclosed4 & Hentries4).
  pose proof (respects_Done _ _ _ _ _
                (WriteStabilityElement_outside P plugin_list) Hrun4) as Hout4.
  pose proof (WriteStabilityElement_clears_list P plugin_list w2 w4
                Hrun2 Hrun4) as Hlist4.
  assert (Hconsumed4 : forall key field,
    In (key, field) (consumed P true) ->
    counter key w4 = 0 /\
    (fresh_report w -> reported field w4 = counter key w)).
  { intros key field Hin.
    pose proof (WriteStabilityElement_observed P plugin_list w2 key field
                  Hrun2 (consumed_is_not_the_plugin_list P _ _ _ Hin)) as E.
    rewrite Hrun4 in E. simpl in E. destruct E as [Ec Ef].
    unfold reported. rewrite Ec, Ef. by apply Hconsumed. }
  clear Hconsumed.
  assert (Hcount4 : forall key,
    is_stability_key key = false -> key <> prefs.kStabilityPluginStats ->
    counter key w4 = counter key w).
  { intros key Hk Hne.
    pose proof (WriteStabilityElement_keeps_other_counters P plugin_list
                  key w2 Hk Hne) as E.
    rewrite Hrun4 in E. simpl in E. rewrite E. unfold counter.
    by rewrite Hstate2. }
  unfold attach in Hopen4, Hclosed4. rewrite Hopen2 in Hopen4, Hclosed4.
  rewrite Helem2 in Hopen4. simpl in Hopen4, Hclosed4.
  rewrite Hclosed2 in Hclosed4.
  rewrite Hstab2, Hentries2 in Hentries4.
  unfold same in Hout4. rewrite Hout2 in Hout4.
  clear Hopen2 Hclosed2 Hout2 Hstate2 Hstab2 Helem2 Hentries2 Hrun2 Hpass2.
  rewrite bind_run, Hrun4.
  erewrite environment_written by exact Hopen4.
  assert (Henv : environment_elements P w4 = environment_elements P w).
  { unfold environment_elements. by rewrite !Hcount4. }
  rewrite Henv. clear Henv Hcount4.
  set (w5 := wrote _ _ _ w4).
  assert (Hopen5 : xml_open (this w5) =
            extend_frame [] (environment_elements P w)
              (add_child (full_stability_element P w)
                 {| frame_tag := "profile";
                    frame_attributes :=
                      [("session", AttrString (session_id (this w)));
                       ("time", AttrInt64 (Time_Now w))];
                    frame_children :=
                      [install_element w;
                       Elem "plugins" []
                         (map (legacy_plugin P) plugin_list)] |})
            :: xml_open (this w)).
  { subst w5. by erewrite wrote_open by exact Hopen4. }
  assert (Hclosed5 : xml_closed (this w5) = xml_closed (this w)).
  { subst w5. rewrite <- Hclosed4. unfold wrote, extend_top. simpl.
    by destruct (xml_open (this w4)). }
  assert (Hout5 : outside_stability w5 = outside_stability w).
  { subst w5. rewrite <- Hout4. unfold wrote, extend_top, outside_stability.
    simpl. by destruct (xml_open (this w4)). }
  assert (Hstab5 : stability_of (this w5) = stability_of (this w4)).
  { subst w5. unfold wrote, extend_top, stability_of. simpl.
    by destruct (xml_open (this w4)). }
  assert (Hstate5 : local_state w5 = local_state w4) by done.
  clearbody w5. clear Hopen4 Hclosed4 Hout4 Hrun4.
  set (f5 := extend_frame _ _ _) in Hopen5.
  assert (Hprofiles : exists w6,
    match profile_metrics with
    | Some all => WriteAllProfilesMetrics P all
    | None => ret tt
    end w5 = Done tt w6 /\
    xml_open (this w6) =
      extend_frame []
        match profile_metrics with
        | Some all => profile_elements all
        | None => []
        end f5 :: xml_open (this w) /\
    xml_closed (this w6) = xml_closed (this w) /\
    outside_stability w6 = outside_stability w /\
    stability_of (this w6) = stability_of (this w4) /\
    local_state w6 = local_state w4).
  { destruct profile_metrics as [all|].
    - eexists. split; [by apply WriteAllProfilesMetrics_written|].
      rewrite <- Hclosed5, <- Hout5, <- Hstab5, <- Hstate5. simpl.
      erewrite attach_all_open by exact Hopen5.
      split; [done|]. split; [done|]. split; [|done].
      unfold outside_stability. simpl.
      by erewrite attach_all_open by exact Hopen5.
    - exists w5. by rewrite extend_frame_nil. }
  destruct Hprofiles
    as (w6 & Hrun6 & Hopen6 & Hclosed6 & Hout6 & Hstab6 & Hstate6).
  rewrite bind_run, Hrun6.
  clear Hrun6 Hopen5 Hclosed5 Hout5 Hstab5 Hstate5.
  assert (Hrun' : runnable P w6).
  { unfold runnable in *. unfold outside_stability in Hout6.
    assert (E : locked (this w6) = locked (this w)) by congruence.
    by rewrite E. }
  assert (Hdate' : parsed_install_date P w6 = parsed_install_date P w).
  { unfold parsed_install_date. unfold outside_stability in Hout6.
    assert (E : PrefService_GetString prefs.kMetricsClientIDTimestamp
                  (local_state w6) =
                PrefService_GetString prefs.kMetricsClientIDTimestamp
                  (local_state w)) by congruence.
    by rewrite E. }
  rewrite RecordEnvironmentProto_closed_form by (by rewrite ?Hdate').
  rewrite Hdate'. clear Hrun' Hdate'.
  assert (Hconsumed6 : forall key field,
    In (key, field) (consumed P true) ->
    PrefService_GetInteger key (local_state w6) = 0 /\
    (fresh_report w ->
     default 0 (Stability.field field (stability_of (this w6))) =
     counter key w)).
  { intros key field Hin. rewrite Hstate6, Hstab6.
    by apply Hconsumed4. }
  rewrite <- Hstate6 in Hlist4. clear Hconsumed4 Hstate6.
  rewrite <- Hstab6 in Hentries4. clear Hstab6.
  unfold outside_stability in Hout6.
  destruct w6 as [[lk6 sid6 xc6 xo6 up6 ne6] ps6 lut6 tn6 wn6 ct6].
  simpl in Hopen6, Hclosed6, Hout6, Hentries4, Hconsumed6, Hlist4.
  subst xo6 xc6.
  injection Hout6 as _ _ _ _ _ Hid Hloc Hhw Hos Hpl Hft _.
  unfold EndElement, attach, environment_profile_element, environment_of,
    system_profile_of, environment_proto, stability_of, reported,
    stability_field, counter in *.
  subst f5. simpl.
  destruct (xml_open (this w)) as [|parent rest];
    eexists; (split; [reflexivity|]); simpl;
    rewrite ?Hhw, ?Hpl, ?Hft, ?app_nil_r, <- ?app_assoc; simpl; done.
Qed.
End EnvironmentReport.

(** ** The lock *)

Section LockBlind.

Lemma lock_blind_ret {A : Type} (a : A) : lock_blind (mret a : M A).
Proof. by intros b w. Qed.

Lemma lock_blind_gets {A : Type} (f : World -> A) :
  (forall b w, f (with_log (with_locked b) w) = f w) -> lock_blind (gets f).
Proof. intros H b w. unfold gets. simpl. by rewrite H. Qed.

Lemma lock_blind_modify (f : World -> World) :
  (forall b w,
     f (with_log (with_locked b) w) = with_log (with_locked b) (f w)) ->
  lock_blind (modify f).
Proof. intros H b w. unfold modify. simpl. by rewrite H. Qed.

Lemma lock_blind_bind {A B : Type} (m : M A) (k : A -> M B) :
  lock_blind m -> (forall a, lock_blind (k a)) -> lock_blind (m ≫= k).
Proof.
  intros Hm Hk b w. unfold mbind, M_bind, bind. rewrite Hm.
  destruct (m w) as [a w1|w1]; simpl; [apply Hk|done].
Qed.

Lemma lock_blind_when c (m : M unit) : lock_blind m -> lock_blind (when c m).
Proof. intros H. destruct c; [done|apply lock_blind_ret]. Qed.

Lemma lock_blind_for_each {A : Type} (l : list A) (body : A -> M unit) :
  (forall x, lock_blind (body x)) -> lock_blind (for_each l body).
Proof.
  intros H. induction l as [|x l IH]; simpl.
  - apply lock_blind_ret.
  - apply lock_blind_bind; auto.
Qed.
End LockBlind.

(** The check of the lock, compiled out. *)
Lemma lock_check_compiled_out (P : Platform) {A : Type} (k : M A) :
  dcheck_is_on P = false -> lock_blind k ->
  lock_blind (l ← is_locked; DCHECK P (negb l);; k).
Proof.
  intros Hoff Hk b w.
  unfold is_locked, DCHECK, gets, mbind, M_bind, bind.
  rewrite Hoff. simpl. apply Hk.
Qed.

(** A primitive is blind to the lock when it is a function of the other
    components of the world. *)
Ltac lock_blind_primitive :=
  let b := fresh "b" in
  let w := fresh "w" in
  intros b w; destruct_world w; unfold relocked; unfold_monad; simpl;
  repeat case_match; try reflexivity.

Ltac lock_blind_step :=
  first
    [ apply lock_check_compiled_out; [assumption|]
    | apply lock_blind_ret
    | apply lock_blind_bind; [|intros ?]
    | apply lock_blind_when
    | apply lock_blind_for_each; intros ?
    | match goal with
      | |- lock_blind (match ?x with _ => _ end) => destruct x
      | |- lock_blind (let _ := _ in _) => cbv zeta
      end ].

Section LockBlindOperations.
Context (P : Platform) (Hoff : dcheck_is_on P = false).

Lemma RecordOmniboxOpenedURL_lock_blind alog :
  lock_blind (RecordOmniboxOpenedURL P alog).
Proof.
  unfold RecordOmniboxOpenedURL, OPEN_ELEMENT_FOR_SCOPE,
    WriteCommonEventAttributes, AsOmniboxEventProviderType,
    AsOmniboxEventResultType.
  repeat lock_blind_step; lock_blind_primitive.
Qed.

Lemma RecordIncrementalStabilityElements_lock_blind plugin_list :
  lock_blind (RecordIncrementalStabilityElements P plugin_list).
Proof.
  unfold RecordIncrementalStabilityElements,
    WriteRequiredStabilityAttributes, WriteRealtimeStabilityAttributes,
    GetIncrementalUptime, WritePluginStabilityElements,
    WritePluginStabilityElements_iteration, OPEN_ELEMENT_FOR_SCOPE,
    WriteCommonEventAttributes, WriteInstallElement, GetInstallDate.
  repeat lock_blind_step; lock_blind_primitive.
Qed.

Lemma RecordEnvironment_lock_blind plugin_list profile_metrics :
  lock_blind (RecordEnvironment P plugin_list profile_metrics).
Proof.
  unfold RecordEnvironment, WriteStabilityElement,
    WriteRequiredStabilityAttributes, WriteRealtimeStabilityAttributes,
    GetIncrementalUptime, WritePluginStabilityElements,
    WritePluginStabilityElements_iteration, OPEN_ELEMENT_FOR_SCOPE,
    WriteCommonEventAttributes, WriteInstallElement, GetInstallDate,
    WritePluginList, WriteAllProfilesMetrics, WriteProfileMetrics,
    WriteProfileMetrics_iteration, RecordEnvironmentProto,
    WriteFieldTrials, OPEN_ELEMENT_FOR_SCOPE.
  repeat lock_blind_step; lock_blind_primitive.
Qed.
End LockBlindOperations.

(** * Properties of the report builder *)

(** C2.  Zero suppression.  A stability snapshot, taken inside an open
    element, writes "launchcount" and "crashcount" and their protobuf
    fields whatever the counters hold.  Each realtime counter is written,
    as its attribute and as its protobuf field, exactly when it is not
    zero; a platform-conditional counter has no attribute and is written
    as its protobuf field exactly when the build is for Chrome OS and the
    counter is not zero. *)
Theorem zero_suppression (P : Platform) (w : World) (f : Frame)
    (rest : list Frame) :
  xml_open (this w) = f :: rest ->
  let w' := snapshot_result P w in
  let A := snapshot_attributes w in
  (WriteRequiredStabilityAttributes P;; WriteRealtimeStabilityAttributes P) w
    = Done tt w' /\
  xml_open (this w') = extend_frame A [] f :: rest /\
  (forall key attr field,
     In (key, attr, field) required_counters ->
     lookup_attribute attr A = Some (AttrInt (counter key w)) /\
     stability_field field w' = Some (counter key w)) /\
  (forall key attr field,
     In (key, attr, field) realtime_counters ->
     lookup_attribute attr A =
       (if counter key w =? 0 then None
        else Some (AttrInt (counter key w))) /\
     stability_field field w' =
       (if counter key w =? 0 then stability_field field w
        else Some (counter key w))) /\
  (forall key field,
     In (key, field) platform_counters ->
     stability_field field w' =
       (if OS_CHROMEOS P && negb (counter key w =? 0)
        then Some (counter key w)
        else stability_field field w)) /\
  (forall name v, In (name, v) A -> In name snapshot_attribute_names).
Proof.
  intros Hw w' A. split; [by eapply snapshot_run|].
  split; [by apply snapshot_open|].
  split; [|split; [|split]].
  - intros key attr field Hin. split.
    + by eapply snapshot_attribute_required.
    + by apply (snapshot_resets_required P key attr field w).
  - intros key attr field Hin. split.
    + by eapply snapshot_attribute_realtime.
    + by apply (snapshot_resets_realtime P key attr field w).
  - intros key field Hin.
    by apply (snapshot_resets_platform P key field w).
  - intros name v. apply snapshot_attribute_names_complete.
Qed.

Lemma zero_suppression_witness :
  let w := sample_world_in "stability" scenario_prefs in
  let A := snapshot_attributes w in
  lookup_attribute "launchcount" A = Some (AttrInt 3) /\
  lookup_attribute "crashcount" A = Some (AttrInt 0) /\
  lookup_attribute "pageloadcount" A = Some (AttrInt 5) /\
  lookup_attribute "rendererhangcount" A = None.
Proof.
  pose proof (zero_suppression (sample_platform true false)
                (sample_world_in "stability" scenario_prefs) _ _ eq_refl)
    as (_ & _ & Hreq & Hreal & _).
  split; [|split; [|split]].
  - exact (proj1 (Hreq _ _ _ (or_introl eq_refl))).
  - exact (proj1 (Hreq _ _ _ (or_intror (or_introl eq_refl)))).
  - exact (proj1 (Hreal _ _ _ (or_introl eq_refl))).
  - exact (proj1 (Hreal _ _ _
             (or_intror (or_intror (or_intror (or_introl eq_refl)))))).
Defined.

(** C3.  Read and reset, no double count.  Take a report A in a fresh,
    runnable report (by [RecordIncrementalStabilityElements], or by the
    full [WriteStabilityElement]).  For every counter that the snapshot
    consumes, report A shows the value the counter had, and the store
    holds zero afterwards.  If the counters are then incremented as [I2]
    says and a report B is taken in another fresh report, B shows for
    each counter exactly the number of its increments in [I2].  If the
    store before A came from zeroed counters by the increments [I1],
    report A shows exactly the increments of [I1]. *)
Theorem read_and_reset_no_double_count (P : Platform) (full : bool)
    (plugins_A plugins_B : list WebPluginInfo.t) (key field : string)
    (wA wB : World) (I2 : list string) :
  In (key, field) (consumed P full) ->
  runnable P wA -> fresh_report wA ->
  runnable P wB -> fresh_report wB ->
  local_state wB =
    increments I2
      (local_state (final_world (take_snapshot P full plugins_A wA))) ->
  let wA' := final_world (take_snapshot P full plugins_A wA) in
  let wB' := final_world (take_snapshot P full plugins_B wB) in
  reported field wA' = counter key wA /\
  counter key wA' = 0 /\
  reported field wB' = count_of key I2 /\
  counter key wB' = 0 /\
  (forall I1 p0,
     local_state wA = increments I1 p0 ->
     PrefService_GetInteger key p0 = 0 ->
     reported field wA' = count_of key I1).
Proof.
  intros Hin HrA HfA HrB HfB Hstore wA' wB'.
  pose proof (consumed_is_not_the_plugin_list P _ _ _ Hin) as Hne.
  destruct (take_snapshot_observed P full plugins_A wA key field HrA Hne)
    as [EcA EfA].
  destruct (take_snapshot_observed P full plugins_B wB key field HrB Hne)
    as [EcB EfB].
  destruct (after_snapshot_consumed P key field full wA Hin) as [ZA RA].
  destruct (after_snapshot_consumed P key field full wB Hin) as [ZB RB].
  fold wA' in EcA, EfA, Hstore. fold wB' in EcB, EfB.
  assert (HA : reported field wA' = counter key wA).
  { unfold reported. rewrite EfA. by apply RA. }
  assert (H0 : counter key wA' = 0) by (by rewrite EcA).
  repeat split.
  - exact HA.
  - exact H0.
  - unfold reported. rewrite EfB. fold (reported field (after_snapshot P full wB)).
    rewrite (RB HfB). unfold counter. rewrite Hstore, increments_counter.
    fold (counter key wA'). lia.
  - by rewrite EcB.
  - intros I1 p0 HI1 Hp0. rewrite HA. unfold counter.
    rewrite HI1, increments_counter. lia.
Qed.

(** C1, as amended.  The stability facts of an incremental report are
    the same in both encodings wherever both encodings hold them.  When
    [RecordIncrementalStabilityElements] runs on a fresh report and no
    debug check stops it, it attaches one "profile" element whose
    "stability" child has the attributes of the snapshot.  For the
    required and the realtime counters and for the uptime, the attribute
    and the protobuf field are both absent or hold the same number.  The
    platform-conditional counters have a protobuf field and no attribute.
    Every usage record that is a dictionary has a legacy element; a
    structured entry exists only for a record with a matching inventory
    item, and then the three counters agree. *)
Theorem dual_encoding_of_stability_facts (P : Platform)
    (plugin_list : list WebPluginInfo.t) (w : World) :
  runnable P w -> fresh_report w -> plugin_pass_passes P plugin_list w ->
  exists w',
    RecordIncrementalStabilityElements P plugin_list w = Done tt w' /\
    xml_open (this w') =
      xml_open (attach (incremental_profile_element P w) (this w)) /\
    xml_closed (this w') =
      xml_closed (attach (incremental_profile_element P w) (this w)) /\
    find_child "stability" (incremental_profile_element P w) =
      Some (stability_element P w) /\
    (forall key attr field,
       In (key, attr, field) (required_counters ++ realtime_counters) ->
       attribute_number
         (lookup_attribute attr (attributes_of (stability_element P w))) =
       stability_field field w') /\
    attribute_number
      (lookup_attribute "uptimesec" (attributes_of (stability_element P w))) =
    stability_field "uptime_sec" w' /\
    (forall key field,
       In (key, field) platform_counters ->
       stability_field field w' =
         (if OS_CHROMEOS P && negb (counter key w =? 0)
          then Some (counter key w) else None)) /\
    (forall name v,
       In (name, v) (attributes_of (stability_element P w)) ->
       In name snapshot_attribute_names) /\
    children_of (stability_element P w) = plugin_children P w /\
    Stability.plugin_stability (stability_of (this w')) =
      (Stability.plugin_stability (stability_of (this w)) ++
       plugin_entries P plugin_list w)%list /\
    (forall d e,
       structured_plugin_entry P plugin_list d = Some e ->
       let attrs := attributes_of (legacy_plugin_element P d) in
       attribute_number (lookup_attribute "launchcount" attrs) =
         PluginStability.launch_count e /\
       attribute_number (lookup_attribute "instancecount" attrs) =
         PluginStability.instance_count e /\
       attribute_number (lookup_attribute "crashcount" attrs) =
         PluginStability.crash_count e).
Proof.
  intros Hrun Hfresh Hpass.
  destruct (incremental_report_tree P plugin_list w Hrun Hpass)
    as (w' & Hdone & Hopen & Hclosed & Hentries).
  exists w'. split; [exact Hdone|]. split; [exact Hopen|].
  split; [exact Hclosed|]. split; [reflexivity|].
  assert (Hfield : forall field,
    stability_field field w' =
    stability_field field (snapshot_result P (incremental_prefix P w))).
  { intros field.
    pose proof (RecordIncrementalStabilityElements_observed P plugin_list w
                  prefs.kStabilityLaunchCount field Hrun) as Hobs.
    rewrite Hdone in Hobs. simpl in Hobs. apply Hobs. done. }
  destruct (incremental_prefix_shape P w) as (_ & _ & Hattrs).
  assert (Hfresh0 : forall field,
    stability_field field (incremental_prefix P w) = None).
  { intros field.
    rewrite (proj2 (incremental_prefix_frame P w
                      prefs.kStabilityLaunchCount field)).
    apply Hfresh. }
  split; [|split; [|split; [|split; [|split; [|split]]]]].
  - intros key attr field Hin. rewrite Hfield.
    change (attributes_of (stability_element P w))
      with (snapshot_attributes w).
    rewrite <- Hattrs.
    exact (snapshot_dual P key attr field _ Hin (Hfresh0 field)).
  - rewrite Hfield.
    change (attributes_of (stability_element P w))
      with (snapshot_attributes w).
    rewrite <- Hattrs.
    destruct (snapshot_uptime P (incremental_prefix P w)) as [Ha Hf].
    rewrite Ha, Hf, Hfresh0.
    by destruct (recent_duration_of (incremental_prefix P w) =? 0).
  - intros key field Hin. rewrite Hfield.
    rewrite (proj2 (snapshot_resets_platform P _ _
                      (incremental_prefix P w) Hin)).
    rewrite Hfresh0.
    by rewrite (proj1 (incremental_prefix_frame P w key field)).
  - intros name v. apply snapshot_attribute_names_complete.
  - reflexivity.
  - exact Hentries.
  - intros d e. apply plugin_dual.
Qed.

Lemma fresh_sample_world p : fresh_report (sample_world p).
Proof. intros field. apply lookup_empty. Qed.

Lemma dual_encoding_of_stability_facts_witness :
  exists w',
    RecordIncrementalStabilityElements (sample_platform true true)
      foo_inventory (sample_world scenario_prefs) = Done tt w' /\
    stability_field "page_load_count" w' = Some 5 /\
    stability_field "renderer_hang_count" w' = None.
Proof.
  destruct (dual_encoding_of_stability_facts (sample_platform true true)
              foo_inventory (sample_world scenario_prefs)
              (or_introl eq_refl) (fresh_sample_world _) I)
    as (w' & Hdone & _ & _ & _ & Hdual & _).
  exists w'. split; [exact Hdone|]. split.
  - exact (eq_sym (Hdual _ _ _
             (or_intror (or_intror (or_introl eq_refl))))).
  - exact (eq_sym (Hdual _ _ _
             (or_intror (or_intror (or_intror (or_intror
                (or_intror (or_introl eq_refl)))))))).
Defined.

(** C1 as stated fails.  On Chrome OS, with two kernel crashes counted
    and a usage record "Bar" that matches no inventory item, the
    incremental report returns in a build without debug checks; its
    protobuf holds the kernel crash count, which no attribute of the
    legacy tree holds, and its legacy tree holds the counters of "Bar",
    for which the protobuf has no entry. *)
Lemma dual_encoding_counterexample :
  let o :=
    RecordIncrementalStabilityElements (sample_platform false true) []
      chromeos_world in
  returned o = true /\
  xml_closed (this (final_world o)) =
    [Elem "profile"
       [("session", AttrString "7"); ("time", AttrInt64 1330000100)]
       [Elem "install"
          [("installdate", AttrString "1330000000"); ("buildid", AttrInt 0)]
          [];
        Elem "stability"
          [("launchcount", AttrInt 0); ("crashcount", AttrInt 0)]
          [Elem "plugins" []
             [Elem "pluginstability"
                [("filename", AttrString "md5:Bar");
                 ("launchcount", AttrInt 4); ("instancecount", AttrInt 5);
                 ("crashcount", AttrInt 6)] []]]]] /\
  stability_field "kernel_crash_count" (final_world o) = Some 2 /\
  Stability.plugin_stability (stability_of (this (final_world o))) = [].
Proof. vm_compute. repeat split. Qed.

Lemma read_and_reset_no_double_count_witness :
  let P := sample_platform true true in
  reported "launch_count"
    (final_world (take_snapshot P false [] report_A_world)) = 2 /\
  counter prefs.kStabilityLaunchCount
    (final_world (take_snapshot P false [] report_A_world)) = 0 /\
  reported "launch_count"
    (final_world (take_snapshot P false [] report_B_world)) = 1.
Proof.
  pose proof (read_and_reset_no_double_count (sample_platform true true)
                false [] [] prefs.kStabilityLaunchCount "launch_count"
                report_A_world report_B_world [prefs.kStabilityLaunchCount]
                (or_introl eq_refl) (or_introl eq_refl)
                (fresh_sample_world _) (or_introl eq_refl)
                (fun field => lookup_empty field) eq_refl)
    as (HA & H0 & HB & _).
  split; [exact HA|]. split; [exact H0|exact HB].
Defined.

(** C4, as amended.  A usage record whose name matches no inventory
    item reaches [NOTREACHED].  With debug checks the pass stops there and
    does not return.  Without them the pass runs to its end: the record
    gets its legacy element like every other record, it gets no
    structured entry, and the remaining records are processed.  The
    preference store changes only by the clearing of the persisted list
    and the event counter of the report stays as it was: nothing counts
    the dropped record. *)
Theorem unmatched_usage_record (P : Platform)
    (plugin_list : list WebPluginInfo.t) (stats : list Value)
    (d : list (string * Value)) (w : World) :
  PrefService_GetList prefs.kStabilityPluginStats (local_state w) = Some stats ->
  In (DictionaryValue d) stats ->
  matching_item P plugin_list d = None ->
  (dcheck_is_on P = true ->
   returned (WritePluginStabilityElements P plugin_list w) = false) /\
  (dcheck_is_on P = false ->
   let w' := plugin_pass_result P plugin_list stats w in
   WritePluginStabilityElements P plugin_list w = Done tt w' /\
   structured_plugin_entry P plugin_list d = None /\
   In (legacy_plugin_element P d)
      (map (legacy_plugin_element P) (dictionaries stats)) /\
   Stability.plugin_stability (stability_of (this w')) =
     (Stability.plugin_stability (stability_of (this w)) ++
      omap (structured_plugin_entry P plugin_list) (dictionaries stats))%list /\
   local_state w' =
     PrefService_ClearPref prefs.kStabilityPluginStats (local_state w) /\
   num_events (this w') = num_events (this w)).
Proof.
  intros Hlist Hin Hm. split.
  - intros Hd. unfold WritePluginStabilityElements.
    erewrite bind_Done; [|unfold GetList, gets; by rewrite Hlist].
    unfold OPEN_ELEMENT_FOR_SCOPE.
    apply crashes_bind_r. intros _. apply crashes_bind_l, crashes_bind_l.
    eapply crashes_for_each; [exact Hin|].
    by apply unmatched_iteration_crashes.
  - intros Hd w'. split; [|split; [|split; [|split; [|split]]]].
    + apply plugin_pass_closed_form; [done|].
      by apply passes_when_dchecks_off.
    + unfold structured_plugin_entry. by rewrite Hm.
    + apply in_map. unfold dictionaries.
      apply list_elem_of_In, list_elem_of_omap.
      exists (DictionaryValue d). split; [by apply list_elem_of_In|done].
    + subst w'. destruct_world w. unfold plugin_pass_result. unfold_world.
      simpl. by destruct xo.
    + reflexivity.
    + subst w'. destruct_world w. unfold plugin_pass_result. unfold_world.
      simpl. by destruct xo.
Qed.

Lemma unmatched_usage_record_witness :
  returned
    (WritePluginStabilityElements (sample_platform true false) foo_inventory
       bar_foo_world) = false.
Proof.
  refine (proj1 (unmatched_usage_record (sample_platform true false)
                   foo_inventory
                   [usage_record "Bar" 4 5 6; usage_record "Foo" 1 1 2]
                   _ bar_foo_world eq_refl (or_introl eq_refl) _) eq_refl).
  vm_compute. reflexivity.
Defined.

(** C4 as stated fails in both builds.  With debug checks the record
    "Bar", which has no inventory item, stops the pass: the record "Foo"
    behind it is never processed.  Without debug checks the pass returns,
    "Bar" has its legacy element, and the preference store afterwards is
    the old one without the persisted list: no fault was counted. *)
Lemma unmatched_usage_record_counterexample :
  let debug :=
    WritePluginStabilityElements (sample_platform true false) foo_inventory
      bar_foo_world in
  let release :=
    WritePluginStabilityElements (sample_platform false false) foo_inventory
      bar_foo_world in
  returned debug = false /\
  Stability.plugin_stability (stability_of (this (final_world debug))) = [] /\
  returned release = true /\
  map frame_children (xml_open (this (final_world release))) =
    [[Elem "plugins" []
        [Elem "pluginstability"
           [("filename", AttrString "md5:Bar"); ("launchcount", AttrInt 4);
            ("instancecount", AttrInt 5); ("crashcount", AttrInt 6)] [];
         Elem "pluginstability"
           [("filename", AttrString "md5:Foo"); ("launchcount", AttrInt 1);
            ("instancecount", AttrInt 1); ("crashcount", AttrInt 2)] []]]] /\
  local_state (final_world release) = sample_prefs [] None /\
  num_events (this (final_world release)) = num_events (this bar_foo_world).
Proof. vm_compute. repeat split. Qed.

(** C5, as amended.  When no debug check stops the pass, every usage
    record that is a dictionary gets one legacy element and, if an
    inventory item has exactly its name, one structured entry, in the
    order of the persisted list.  The structured entry carries the
    record's three counters and the matched item's name, file name and
    version as they are; the legacy element carries the three counters
    and the hash of the name under "filename", and no version. *)
Theorem plugin_correlation (P : Platform)
    (plugin_list : list WebPluginInfo.t) (stats : list Value) (w : World) :
  PrefService_GetList prefs.kStabilityPluginStats (local_state w) = Some stats ->
  Forall (passes P plugin_list) stats ->
  let records := dictionaries stats in
  WritePluginStabilityElements P plugin_list w =
    Done tt (plugin_pass_result P plugin_list stats w) /\
  Stability.plugin_stability
    (stability_of (this (plugin_pass_result P plugin_list stats w))) =
    (Stability.plugin_stability (stability_of (this w)) ++
     omap (structured_plugin_entry P plugin_list) records)%list /\
  (forall d info,
     In d records -> matching_item P plugin_list d = Some info ->
     WebPluginInfo.name info = UTF8ToUTF16 P (record_name d) /\
     structured_plugin_entry P plugin_list d =
       Some
         {| PluginStability.plugin :=
              {| Plugin.name :=
                   Some (UTF16ToUTF8 P (WebPluginInfo.name info));
                 Plugin.filename :=
                   Some (BaseName P (WebPluginInfo.path info));
                 Plugin.version :=
                   Some (UTF16ToUTF8 P (WebPluginInfo.version info));
                 Plugin.is_disabled :=
                   (fun enabled => negb (enabled info)) <$> GetPluginPrefs P |};
            PluginStability.launch_count := Some (record_launches d);
            PluginStability.instance_count := Some (record_instances d);
            PluginStability.crash_count := Some (record_crashes d) |}) /\
  (forall d,
     In d records ->
     legacy_plugin_element P d =
       Elem "pluginstability"
         [("filename", AttrString (fst (CreateHashes P (record_name d))));
          ("launchcount", AttrInt (record_launches d));
          ("instancecount", AttrInt (record_instances d));
          ("crashcount", AttrInt (record_crashes d))] [] /\
     lookup_attribute "version" (attributes_of (legacy_plugin_element P d))
       = None).
Proof.
  intros Hlist Hall records.
  split; [|split; [|split]].
  - by apply plugin_pass_closed_form.
  - destruct_world w. unfold plugin_pass_result. unfold_world. simpl.
    by destruct xo.
  - intros d info _ Hm. split.
    + unfold matching_item, find_plugin_info in Hm.
      apply find_some in Hm as [_ Hm].
      by apply bool_decide_eq_true in Hm.
    + unfold structured_plugin_entry. rewrite Hm. unfold SetPluginInfo.
      simpl. by destruct (GetPluginPrefs P).
  - intros d _. split; reflexivity.
Qed.

Lemma plugin_correlation_witness :
  let P := sample_platform true false in
  let stats := [usage_record "Foo" 1 1 2] in
  WritePluginStabilityElements P foo_inventory foo_world =
    Done tt (plugin_pass_result P foo_inventory stats foo_world) /\
  Stability.plugin_stability
    (stability_of (this (plugin_pass_result P foo_inventory stats foo_world)))
    = (Stability.plugin_stability (stability_of (this foo_world)) ++
       omap (structured_plugin_entry P foo_inventory)
         (dictionaries stats))%list.
Proof.
  assert (Hall : Forall (passes (sample_platform true false) foo_inventory)
                   [usage_record "Foo" 1 1 2]).
  { constructor; [|constructor]. right. vm_compute. reflexivity. }
  pose proof (plugin_correlation (sample_platform true false) foo_inventory
                [usage_record "Foo" 1 1 2] foo_world eq_refl Hall)
    as (Hrun & Hentries & _).
  split; [exact Hrun|exact Hentries].
Defined.

(** C5 as stated fails on the scenario of the spec.  The one usage record
    "Foo", with two crashes, matches the inventory item "Foo" in version
    "1.0".  The structured entry that carries the version carries the
    literal name "Foo"; the anonymized token is written to the legacy
    element only, which has no version. *)
Lemma plugin_correlation_counterexample :
  let o :=
    WritePluginStabilityElements (sample_platform true false) foo_inventory
      foo_world in
  returned o = true /\
  Stability.plugin_stability (stability_of (this (final_world o))) =
    [{| PluginStability.plugin :=
          {| Plugin.name := Some "Foo"; Plugin.filename := Some "Foo.so";
             Plugin.version := Some "1.0"; Plugin.is_disabled := None |};
        PluginStability.launch_count := Some 1;
        PluginStability.instance_count := Some 1;
        PluginStability.crash_count := Some 2 |}] /\
  map frame_children (xml_open (this (final_world o))) =
    [[Elem "plugins" []
        [Elem "pluginstability"
           [("filename", AttrString "md5:Foo"); ("launchcount", AttrInt 1);
            ("instancecount", AttrInt 1); ("crashcount", AttrInt 2)] []]]].
Proof. vm_compute. repeat split. Qed.

(** C8.  When the pass runs to its end over a present list, the
    preference that holds the list is cleared as a whole, whatever
    happened to the single records; a later pass finds no list and emits
    nothing.  In a build without debug checks the pass always runs to its
    end. *)
Theorem plugin_stats_cleared_after_pass (P : Platform)
    (plugin_list : list WebPluginInfo.t) (stats : list Value) (w : World) :
  PrefService_GetList prefs.kStabilityPluginStats (local_state w) = Some stats ->
  (dcheck_is_on P = false ->
   returned (WritePluginStabilityElements P plugin_list w) = true) /\
  (forall w',
     WritePluginStabilityElements P plugin_list w = Done tt w' ->
     local_state w' =
       PrefService_ClearPref prefs.kStabilityPluginStats (local_state w) /\
     PrefService_GetList prefs.kStabilityPluginStats (local_state w') = None /\
     forall P' later_list,
       WritePluginStabilityElements P' later_list w' = Done tt w').
Proof.
  intros Hlist. split.
  - intros Hd.
    by rewrite (plugin_pass_closed_form P plugin_list stats w Hlist
                  (passes_when_dchecks_off P plugin_list stats Hd)).
  - intros w' Hrun.
    pose proof (pass_clears_the_list _ _ _ _ _ Hlist Hrun) as E.
    assert (Hnone : PrefService_GetList prefs.kStabilityPluginStats
                      (local_state w') = None).
    { rewrite E. apply ClearPref_GetList. }
    split; [done|]. split; [done|].
    intros P' later_list. by apply plugin_pass_on_null_list.
Qed.

Lemma plugin_stats_cleared_after_pass_witness :
  returned
    (WritePluginStabilityElements (sample_platform false false) foo_inventory
       bar_foo_world) = true.
Proof.
  exact (proj1 (plugin_stats_cleared_after_pass (sample_platform false false)
                  foo_inventory
                  [usage_record "Bar" 4 5 6; usage_record "Foo" 1 1 2]
                  bar_foo_world eq_refl) eq_refl).
Defined.

(** C10.  When the persisted plugin-stats list is absent (the null
    pointer), the plugin stability pass returns at once and changes
    nothing: no element is opened, no structured entry is added, the
    preference store is left as it was, and no check fails. *)
Theorem WritePluginStabilityElements_null_list (P : Platform)
    (plugin_list : list WebPluginInfo.t) (w : World) :
  PrefService_GetList prefs.kStabilityPluginStats (local_state w) = None ->
  WritePluginStabilityElements P plugin_list w = Done tt w.
Proof. apply plugin_pass_on_null_list. Qed.

Lemma WritePluginStabilityElements_null_list_witness :
  WritePluginStabilityElements (sample_platform true false) foo_inventory
    (sample_world_in "stability" scenario_prefs) =
  Done tt (sample_world_in "stability" scenario_prefs).
Proof.
  exact (WritePluginStabilityElements_null_list (sample_platform true false)
           foo_inventory (sample_world_in "stability" scenario_prefs)
           eq_refl).
Defined.

(** C6, as amended.  In a build with debug checks, every record
    operation on a locked report stops at its first check, before it has
    changed anything: the world at the failed check is the world of the
    call.  In a build without debug checks the three operations return
    on a locked report, and their outcome is the one they have on the
    same report unlocked, up to the lock flag, which stays set.  They
    write to the locked report: [RecordEnvironment] and
    [RecordIncrementalStabilityElements] attach their "profile" element,
    [RecordOmniboxOpenedURL] attaches its "uielement" element, appends
    its event to the protobuf and counts it. *)
Theorem record_operations_on_locked_report (P : Platform)
    (plugin_list : list WebPluginInfo.t)
    (profile_metrics : option (list (string * Value)))
    (alog : AutocompleteLog.t) (w : World) :
  locked (this w) = true ->
  (dcheck_is_on P = true ->
   RecordEnvironment P plugin_list profile_metrics w = Crash w /\
   RecordIncrementalStabilityElements P plugin_list w = Crash w /\
   RecordOmniboxOpenedURL P alog w = Crash w) /\
  (dcheck_is_on P = false ->
   let unlocked := with_log (with_locked false) w in
   (returned (RecordEnvironment P plugin_list profile_metrics w) = true /\
    returned (RecordIncrementalStabilityElements P plugin_list w) = true /\
    returned (RecordOmniboxOpenedURL P alog w) = true) /\
   (RecordEnvironment P plugin_list profile_metrics w =
      relocked true
        (RecordEnvironment P plugin_list profile_metrics unlocked) /\
    RecordIncrementalStabilityElements P plugin_list w =
      relocked true
        (RecordIncrementalStabilityElements P plugin_list unlocked) /\
    RecordOmniboxOpenedURL P alog w =
      relocked true (RecordOmniboxOpenedURL P alog unlocked)) /\
   (exists w',
      RecordEnvironment P plugin_list profile_metrics w = Done tt w' /\
      locked (this w') = true /\
      xml_open (this w') =
        xml_open
          (attach
             (environment_profile_element P plugin_list profile_metrics w)
             (this w)) /\
      xml_closed (this w') =
        xml_closed
          (attach
             (environment_profile_element P plugin_list profile_metrics w)
             (this w))) /\
   (exists w',
      RecordIncrementalStabilityElements P plugin_list w = Done tt w' /\
      locked (this w') = true /\
      xml_open (this w') =
        xml_open (attach (incremental_profile_element P w) (this w)) /\
      xml_closed (this w') =
        xml_closed (attach (incremental_profile_element P w) (this w))) /\
   (exists w',
      RecordOmniboxOpenedURL P alog w = Done tt w' /\
      locked (this w') = true /\
      xml_open (this w') = xml_open (attach (uielement P alog w) (this w)) /\
      xml_closed (this w') =
        xml_closed (attach (uielement P alog w) (this w)) /\
      ChromeUserMetricsExtension.omnibox_event (uma_proto (this w')) =
        (ChromeUserMetricsExtension.omnibox_event (uma_proto (this w)) ++
         [omnibox_event_of P alog w])%list /\
      num_events (this w') = wrap_int (num_events (this w) + 1))).
Proof.
  intros Hl. split; intros Hd.
  - assert (Hcheck : forall (k : unit -> M unit),
      (l ← is_locked; DCHECK P (negb l) ≫= k) w = Crash w).
    { intros k. erewrite bind_Done; [|reflexivity].
      apply bind_Crash. unfold DCHECK. by rewrite Hl, Hd. }
    split; [|split]; apply Hcheck.
  - intros unlocked.
    assert (Hw : w = with_log (with_locked true) unlocked).
    { subst unlocked. destruct_world w. by subst lk. }
    assert (Hrun : runnable P w) by (by right).
    assert (Hpass : plugin_pass_passes P plugin_list w).
    { unfold plugin_pass_passes. case_match; [|done].
      by apply passes_when_dchecks_off. }
    assert (Hmetrics : metrics_pass P profile_metrics).
    { destruct profile_metrics; [by left|done]. }
    assert (Hlocked : forall (m : M unit) w',
      lock_blind m -> m w = Done tt w' -> locked (this w') = true).
    { intros m w' Hm E. rewrite Hw, Hm in E.
      destruct (m unlocked) as [[] w1|w1]; simpl in E; [|done].
      inversion E. by destruct_world w1. }
    split.
    { split; [|split].
      - by apply total_RecordEnvironment.
      - by apply total_RecordIncrementalStabilityElements.
      - by apply total_RecordOmniboxOpenedURL. }
    split.
    { split; [|split]; rewrite Hw at 1.
      - by apply RecordEnvironment_lock_blind.
      - by apply RecordIncrementalStabilityElements_lock_blind.
      - by apply RecordOmniboxOpenedURL_lock_blind. }
    split; [|split].
    + destruct (RecordEnvironment_tree P plugin_list profile_metrics w
                  Hrun Hpass Hmetrics (or_introl Hd))
        as (w' & Hdone & Hopen & Hclosed & _).
      exists w'. split; [exact Hdone|]. split; [|by split].
      eapply Hlocked; [|exact Hdone].
      by apply RecordEnvironment_lock_blind.
    + destruct (incremental_report_tree P plugin_list w Hrun Hpass)
        as (w' & Hdone & Hopen & Hclosed & _).
      exists w'. split; [exact Hdone|]. split; [|by split].
      eapply Hlocked; [|exact Hdone].
      by apply RecordIncrementalStabilityElements_lock_blind.
    + exists (omnibox_result P alog w).
      split; [apply RecordOmniboxOpenedURL_closed_form; [done|by left]|].
      destruct_world w. unfold omnibox_result. unfold_world. simpl.
      by destruct xo.
Qed.

Lemma record_operations_on_locked_report_witness :
  (RecordEnvironment (sample_platform true false) foo_inventory None
     locked_world = Crash locked_world /\
   RecordIncrementalStabilityElements (sample_platform true false)
     foo_inventory locked_world = Crash locked_world /\
   RecordOmniboxOpenedURL (sample_platform true false) sample_omnibox_log
     locked_world = Crash locked_world) /\
  exists w',
    RecordOmniboxOpenedURL (sample_platform false false) sample_omnibox_log
      locked_world = Done tt w' /\
    locked (this w') = true /\
    num_events (this w') = 1.
Proof.
  split.
  - exact (proj1 (record_operations_on_locked_report
                    (sample_platform true false) foo_inventory None
                    sample_omnibox_log locked_world eq_refl) eq_refl).
  - destruct (proj2 (record_operations_on_locked_report
                       (sample_platform false false) foo_inventory None
                       sample_omnibox_log locked_world eq_refl) eq_refl)
      as (_ & _ & _ & _ & w' & Hdone & Hlocked & _ & _ & _ & Hn).
    exists w'. split; [exact Hdone|]. split; [exact Hlocked|exact Hn].
Defined.

(** C6 as stated fails in a build without debug checks: recording an
    omnibox event on a locked report returns, and the report has gained a
    "uielement" section, an omnibox event and a count of one event. *)
Lemma lock_immutability_counterexample :
  let o :=
    RecordOmniboxOpenedURL (sample_platform false false) sample_omnibox_log
      locked_world in
  locked (this locked_world) = true /\
  xml_closed (this locked_world) = [] /\
  num_events (this locked_world) = 0 /\
  returned o = true /\
  map tag_of (xml_closed (this (final_world o))) = ["uielement"] /\
  length
    (ChromeUserMetricsExtension.omnibox_event
       (uma_proto (this (final_world o)))) = 1%nat /\
  num_events (this (final_world o)) = 1.
Proof. vm_compute. repeat split. Qed.

(** C7, as amended.  A per-profile metric whose value is not a string, a
    boolean or an integer reaches [NOTREACHED].  In a build with debug
    checks [RecordEnvironment] stops there and does not return.  In a
    build without debug checks it returns: the metric gets no
    "profileparam" element, and the "userprofile" element holds the
    elements of the recognized metrics only. *)
Theorem unrecognized_profile_metric_type (P : Platform)
    (plugin_list : list WebPluginInfo.t)
    (all profile : list (string * Value)) (key_name k : string) (v : Value) :
  In key_name (map fst all) ->
  String.prefix prefs.kProfilePrefix key_name = true ->
  GetDictionaryWithoutPathExpansion key_name all = Some profile ->
  In k (map fst profile) ->
  GetWithoutPathExpansion k profile = Some v ->
  recognized v = false ->
  (dcheck_is_on P = true ->
   forall w, returned (RecordEnvironment P plugin_list (Some all) w) = false) /\
  (dcheck_is_on P = false ->
   (forall w, returned (RecordEnvironment P plugin_list (Some all) w) = true) /\
   profile_param profile k = None /\
   forall h w,
     WriteProfileMetrics P h profile w =
     Done tt
       (with_log
          (attach
             (Elem "userprofile" [("profileidhash", AttrString h)]
                (omap (profile_param profile) (map fst profile)))) w)).
Proof.
  intros Hkey Hprefix Hprofile Hin Hk Hv. split; intros Hd.
  - by eapply RecordEnvironment_crashes.
  - split; [|split].
    + by apply total_RecordEnvironment.
    + unfold profile_param. rewrite Hk. by destruct v.
    + intros h w. by apply WriteProfileMetrics_closed_form.
Qed.

Lemma unrecognized_profile_metric_type_witness :
  returned
    (RecordEnvironment (sample_platform true false) foo_inventory
       (Some sample_profiles) (sample_world scenario_prefs)) = false.
Proof.
  exact (proj1 (unrecognized_profile_metric_type (sample_platform true false)
                  foo_inventory sample_profiles sample_profile "profile-abc"
                  "score" (DoubleValue 0)
                  (or_introl eq_refl) eq_refl eq_refl
                  (or_intror (or_introl eq_refl)) eq_refl eq_refl)
           eq_refl (sample_world scenario_prefs)).
Defined.

(** C7 as stated fails in a build without debug checks: with a profile
    whose metric "score" is a double, [RecordEnvironment] returns, and the
    "userprofile" element of the report holds the metric "homepage" and
    says nothing of "score". *)
Lemma unrecognized_profile_metric_type_counterexample :
  let o :=
    RecordEnvironment (sample_platform false false) foo_inventory
      (Some sample_profiles) (sample_world scenario_prefs) in
  returned o = true /\
  omap (find_child "userprofile") (xml_closed (this (final_world o))) =
    [Elem "userprofile" [("profileidhash", AttrString "abc")]
       [Elem "profileparam"
          [("name", AttrString "homepage");
           ("value", AttrString "about:blank")] []]].
Proof. vm_compute. repeat split. Qed.

Lemma wrap_int64_in_range z : in_int64 z -> wrap_int64 z = z.
Proof.
  unfold in_int64, wrap_int64. intros H.
  rewrite Z.mod_small; lia.
Qed.

(** C9.  [GetIncrementalUptime] returns the whole seconds since the
    checkpoint and moves the checkpoint to now; the first call, which
    finds no checkpoint, returns zero.  When the seconds are positive,
    the uninstall-metrics uptime preference grows by them (the sum being
    an int64); otherwise the preference store is left as it was.  No
    other preference and nothing of the report changes. *)
Theorem GetIncrementalUptime_effect (w : World) :
  let now := TimeTicks_Now w in
  let elapsed :=
    InSeconds (wrap_int64 (now - default now (last_updated_time w))) in
  let uptime :=
    PrefService_GetInt64 prefs.kUninstallMetricsUptimeSec (local_state w) in
  in_int64 (uptime + elapsed) ->
  exists w',
    GetIncrementalUptime w = Done elapsed w' /\
    (last_updated_time w = None -> elapsed = 0) /\
    last_updated_time w' = Some now /\
    PrefService_GetInt64 prefs.kUninstallMetricsUptimeSec (local_state w') =
      (if 0 <? elapsed then uptime + elapsed else uptime) /\
    (elapsed <= 0 -> local_state w' = local_state w) /\
    pref_integers (local_state w') = pref_integers (local_state w) /\
    pref_strings (local_state w') = pref_strings (local_state w) /\
    pref_lists (local_state w') = pref_lists (local_state w) /\
    (forall path,
       path <> prefs.kUninstallMetricsUptimeSec ->
       PrefService_GetInt64 path (local_state w') =
       PrefService_GetInt64 path (local_state w)) /\
    this w' = this w /\ TimeTicks_Now w' = now /\ Time_Now w' = Time_Now w.
Proof.
  intros now elapsed uptime Hrange.
  assert (Hfirst : last_updated_time w = None -> elapsed = 0).
  { intros Hnone. subst elapsed. rewrite Hnone. simpl.
    by rewrite Z.sub_diag. }
  unfold GetIncrementalUptime, GetInt64, SetInt64, gets, modify, when.
  unfold mbind, M_bind, bind, mret, M_ret, ret.
  fold now. fold elapsed.
  destruct (0 <? elapsed) eqn:Hpos.
  - eexists. split; [reflexivity|].
    split; [exact Hfirst|]. split; [reflexivity|].
    split.
    { unfold PrefService_GetInt64 at 1. simpl. rewrite lookup_insert_eq.
      simpl. fold uptime. by apply wrap_int64_in_range. }
    split; [intros Hle; apply Z.ltb_lt in Hpos; lia|].
    do 3 (split; [reflexivity|]).
    split; [|by repeat split].
    intros path Hpath. unfold PrefService_GetInt64. simpl.
    by rewrite lookup_insert_ne.
  - eexists. split; [reflexivity|].
    split; [exact Hfirst|]. by repeat split.
Qed.

Lemma GetIncrementalUptime_effect_witness :
  exists w',
    GetIncrementalUptime later_world = Done 4 w' /\
    last_updated_time w' = Some 5000000 /\
    PrefService_GetInt64 prefs.kUninstallMetricsUptimeSec (local_state w') = 4.
Proof.
  assert (Hrange : in_int64 (0 + 4)).
  { unfold in_int64. lia. }
  destruct (GetIncrementalUptime_effect later_world Hrange)
    as (w' & Hrun & _ & Hnow & Huptime & _).
  exists w'. split; [exact Hrun|]. split; [exact Hnow|exact Huptime].
Defined.

(** * Further properties of the report builder *)

(** ** The omnibox event *)

(** X1.  [RecordOmniboxOpenedURL], on a report that may be written and
    with matches that trip no debug check, returns after it has attached
    exactly one "uielement" element to the attribute tree, appended
    exactly one event to the protobuf, with one suggestion and one
    "autocompleteitem" per match, and counted one event (in [int]
    arithmetic).  It leaves the system profile, the preference store and
    the lock as they were. *)
Theorem omnibox_event_recorded (P : Platform) (alog : AutocompleteLog.t)
    (w : World) :
  runnable P w -> matches_pass P alog ->
  exists w',
    RecordOmniboxOpenedURL P alog w = Done tt w' /\
    xml_open (this w') = xml_open (attach (uielement P alog w) (this w)) /\
    xml_closed (this w') = xml_closed (attach (uielement P alog w) (this w)) /\
    ChromeUserMetricsExtension.omnibox_event (uma_proto (this w')) =
      (ChromeUserMetricsExtension.omnibox_event (uma_proto (this w)) ++
       [omnibox_event_of P alog w])%list /\
    length (OmniboxEventProto.suggestion (omnibox_event_of P alog w)) =
      length (AutocompleteLog.result alog) /\
    length (children_of (autocomplete_element P alog)) =
      length (AutocompleteLog.result alog) /\
    num_events (this w') = wrap_int (num_events (this w) + 1) /\
    ChromeUserMetricsExtension.system_profile (uma_proto (this w')) =
      ChromeUserMetricsExtension.system_profile (uma_proto (this w)) /\
    local_state w' = local_state w /\
    locked (this w') = locked (this w).
Proof.
  intros Hrun Hpass. exists (omnibox_result P alog w).
  split; [by apply RecordOmniboxOpenedURL_closed_form|].
  destruct_world w. unfold omnibox_result. unfold_world. simpl.
  rewrite !length_map.
  by destruct xo.
Qed.

Lemma omnibox_event_recorded_witness :
  exists w',
    RecordOmniboxOpenedURL (sample_platform true false) sample_omnibox_log
      (sample_world scenario_prefs) = Done tt w' /\
    num_events (this w') = 1 /\
    local_state w' = scenario_prefs.
Proof.
  destruct (omnibox_event_recorded (sample_platform true false)
              sample_omnibox_log (sample_world scenario_prefs)
              (or_introl eq_refl) (or_intror eq_refl))
    as (w' & Hdone & _ & _ & _ & _ & _ & Hn & _ & Hstate & _).
  exists w'. split; [exact Hdone|]. split; [exact Hn|exact Hstate].
Defined.

(** X2.  The two encodings of an omnibox event.  The event that
    [RecordOmniboxOpenedURL] appends and the "uielement" element that it
    attaches hold the same typed length, number of terms, selected index
    and completed length, and the typing duration is present in both or
    in neither, with the same value.  The tab is absent from both when
    the tab id is -1 and present in both otherwise: the protobuf field
    holds the id as it is, the attribute holds it cast to [int], which is
    the same value whenever the id fits an [int].  The
    "autocompleteitem" children carry, match by match, the relevance and
    the starred flag of the suggestions.  The two time stamps come from
    two calls of the base class, [WriteCommonEventAttributes] and
    [GetCurrentTime], and nothing is stated about how they compare. *)
Theorem omnibox_dual_encoding (P : Platform) (alog : AutocompleteLog.t)
    (w : World) :
  runnable P w -> matches_pass P alog ->
  let e := omnibox_event_of P alog w in
  let ui := uielement P alog w in
  let ac := autocomplete_element P alog in
  let number_of name el := attribute_number (lookup_attribute name (attributes_of el)) in
  exists w',
    RecordOmniboxOpenedURL P alog w = Done tt w' /\
    xml_open (this w') = xml_open (attach ui (this w)) /\
    xml_closed (this w') = xml_closed (attach ui (this w)) /\
    last (ChromeUserMetricsExtension.omnibox_event (uma_proto (this w'))) =
      Some e /\
    children_of ui = [ac] /\
    (AutocompleteLog.tab_id alog = -1 ->
     number_of "tab" ui = None /\ OmniboxEventProto.tab_id e = None) /\
    (AutocompleteLog.tab_id alog <> -1 ->
     number_of "tab" ui = Some (wrap_int (AutocompleteLog.tab_id alog)) /\
     OmniboxEventProto.tab_id e = Some (AutocompleteLog.tab_id alog)) /\
    (- 2 ^ 31 <= AutocompleteLog.tab_id alog < 2 ^ 31 ->
     number_of "tab" ui = OmniboxEventProto.tab_id e) /\
    number_of "typedlength" ac = OmniboxEventProto.typed_length e /\
    number_of "numterms" ac = OmniboxEventProto.num_typed_terms e /\
    number_of "selectedindex" ac = OmniboxEventProto.selected_index e /\
    number_of "completedlength" ac = OmniboxEventProto.completed_length e /\
    number_of "typingduration" ac = OmniboxEventProto.typing_duration_ms e /\
    map (number_of "relevance") (children_of ac) =
      map Suggestion.relevance (OmniboxEventProto.suggestion e) /\
    map (number_of "isstarred") (children_of ac) =
      map (fun s => (fun b : bool => if b then 1 else 0) <$>
                    Suggestion.is_starred s)
        (OmniboxEventProto.suggestion e).
Proof.
  intros Hrun Hpass e ui ac number_of. exists (omnibox_result P alog w).
  split; [by apply RecordOmniboxOpenedURL_closed_form|].
  split; [by destruct_world w; destruct xo|].
  split; [by destruct_world w; destruct xo|].
  split.
  { destruct_world w. unfold omnibox_result. unfold_world. simpl.
    by rewrite last_snoc. }
  split; [done|].
  subst e ui ac number_of.
  unfold uielement, autocomplete_element, omnibox_event_of, known_tab,
    typing_duration, optional_string_attribute.
  simpl.
  split.
  { intros E. by rewrite E. }
  split.
  { intros E. apply Z.eqb_neq in E. by rewrite E. }
  split.
  { intros Hrange. destruct (AutocompleteLog.tab_id alog =? -1); [done|].
    simpl. f_equal. unfold wrap_int. rewrite Z.mod_small; lia. }
  do 4 (split; [done|]).
  split.
  { destruct (_ =? FromMilliseconds (-1)); [|done].
    by destruct (String.eqb _ ""). }
  rewrite !map_map. split; apply map_ext; intros m;
    unfold autocomplete_item, optional_string_attribute; simpl;
    destruct (AutocompleteMatch.provider m);
    destruct (String.eqb _ ""); simpl; try done;
    by destruct (AutocompleteMatch.starred m).
Qed.

Lemma omnibox_dual_encoding_witness :
  exists w',
    RecordOmniboxOpenedURL (sample_platform true false) sample_omnibox_log
      (sample_world scenario_prefs) = Done tt w' /\
    attribute_number
      (lookup_attribute "tab"
         (attributes_of
            (uielement (sample_platform true false) sample_omnibox_log
               (sample_world scenario_prefs)))) = Some 3 /\
    OmniboxEventProto.tab_id
      (omnibox_event_of (sample_platform true false) sample_omnibox_log
         (sample_world scenario_prefs)) = Some 3.
Proof.
  destruct (omnibox_dual_encoding (sample_platform true false)
              sample_omnibox_log (sample_world scenario_prefs)
              (or_introl eq_refl) (or_intror eq_refl))
    as (w' & Hdone & _ & _ & _ & _ & _ & Htab & _).
  exists w'. split; [exact Hdone|]. apply Htab. done.
Defined.

(** X3.  [AsOmniboxEventProviderType] never changes the world.  A
    missing provider is reported as unknown without any check.  The
    eight provider names it knows are reported as eight different
    types, none of them the unknown one.  Any other name reaches
    [NOTREACHED]: a build with debug checks stops, a build without
    reports the provider as unknown. *)
Theorem provider_type_mapping (P : Platform) (w : World) :
  AsOmniboxEventProviderType P None w = Done UNKNOWN_PROVIDER w /\
  (forall name t,
     In (name, t) known_providers ->
     AsOmniboxEventProviderType P (Some name) w = Done t w /\
     t <> UNKNOWN_PROVIDER) /\
  (forall name1 name2 t,
     In (name1, t) known_providers -> In (name2, t) known_providers ->
     name1 = name2) /\
  (forall name,
     ~ In name (map fst known_providers) ->
     AsOmniboxEventProviderType P (Some name) w =
     if dcheck_is_on P then Crash w else Done UNKNOWN_PROVIDER w).
Proof.
  split; [done|]. split; [|split].
  - intros name t Hin. simpl in Hin.
    repeat (destruct Hin as [Hin|Hin];
            [inversion Hin; subst; by split|]).
    done.
  - intros name1 name2 t H1 H2. simpl in H1, H2.
    repeat (destruct H1 as [H1|H1]; [inversion H1; subst; clear H1|]);
      try done;
      repeat (destruct H2 as [H2|H2]; [by inversion H2|]); done.
  - intros name Hname.
    assert (Hk : known_provider (Some name) = false).
    { unfold known_provider. apply not_true_is_false. intros H.
      apply existsb_exists in H as ([n t] & Hin & E).
      apply String.eqb_eq in E. simpl in E. subst n.
      apply Hname. by apply (in_map fst) in Hin. }
    destruct (dcheck_is_on P) eqn:Hd.
    + by apply AsOmniboxEventProviderType_stops.
    + rewrite AsOmniboxEventProviderType_returns by (by left).
      unfold provider_type_of, known_provider in *.
      destruct (find _ known_providers) as [p|] eqn:E; [|done].
      apply find_some in E as [Hin E].
      assert (existsb (fun p => String.eqb name (fst p)) known_providers
              = true) by (apply existsb_exists; eauto).
      congruence.
Qed.

(** X4.  [AsOmniboxEventInputType] maps the six input types to six
    different values.  [AsOmniboxEventResultType] returns for each of the
    eleven match types, in every build and without changing the world, a
    result type that is not the unknown one, and different match types
    give different result types. *)
Theorem input_and_result_type_mapping (P : Platform) (w : World) :
  (forall t1 t2,
     AsOmniboxEventInputType t1 = AsOmniboxEventInputType t2 -> t1 = t2) /\
  (forall t,
     known_type t = true ->
     exists r,
       AsOmniboxEventResultType P t w = Done r w /\
       r <> UNKNOWN_RESULT_TYPE) /\
  (forall t1 t2 r w1 w2,
     known_type t1 = true -> known_type t2 = true ->
     AsOmniboxEventResultType P t1 w = Done r w1 ->
     AsOmniboxEventResultType P t2 w = Done r w2 -> t1 = t2).
Proof.
  split; [|split].
  - by intros [] [].
  - intros t Ht. destruct t; try done; by eexists.
  - intros t1 t2 r w1 w2 H1 H2 E1 E2.
    destruct t1; try done; destruct t2; try done;
      unfold AsOmniboxEventResultType, ret in E1, E2; congruence.
Qed.

(** X5.  In a build with debug checks, a match whose provider name or
    type is not a known one stops [RecordOmniboxOpenedURL], whatever the
    report holds.  At the stop the event has not been counted, and the
    preference store and the system profile are as they were. *)
Theorem unknown_match_stops_debug_build (P : Platform)
    (alog : AutocompleteLog.t) (m : AutocompleteMatch.t) (w : World) :
  dcheck_is_on P = true ->
  In m (AutocompleteLog.result alog) -> known_match m = false ->
  let w' := final_world (RecordOmniboxOpenedURL P alog w) in
  returned (RecordOmniboxOpenedURL P alog w) = false /\
  num_events (this w') = num_events (this w) /\
  local_state w' = local_state w /\
  ChromeUserMetricsExtension.system_profile (uma_proto (this w')) =
    ChromeUserMetricsExtension.system_profile (uma_proto (this w)).
Proof.
  intros Hd Hin Hm w'.
  destruct (RecordOmniboxOpenedURL_stops P alog m Hd Hin Hm w) as [H1 H2].
  split; [exact H1|]. unfold same in H2. fold w' in H2.
  by inversion H2.
Qed.

Lemma unknown_match_stops_debug_build_witness :
  returned
    (RecordOmniboxOpenedURL (sample_platform true false) unknown_provider_log
       (sample_world scenario_prefs)) = false.
Proof.
  exact (proj1 (unknown_match_stops_debug_build (sample_platform true false)
                  unknown_provider_log _ (sample_world scenario_prefs)
                  eq_refl (or_introl eq_refl) eq_refl)).
Defined.

(** X6.  [RecordOmniboxOpenedURL] never touches the preference store,
    the system profile, the lock or the session, whether it returns or
    stops at a failed check. *)
Theorem omnibox_event_frame (P : Platform) (alog : AutocompleteLog.t)
    (w : World) :
  let w' := final_world (RecordOmniboxOpenedURL P alog w) in
  local_state w' = local_state w /\
  ChromeUserMetricsExtension.system_profile (uma_proto (this w')) =
    ChromeUserMetricsExtension.system_profile (uma_proto (this w)) /\
  locked (this w') = locked (this w) /\
  session_id (this w') = session_id (this w) /\
  last_updated_time w' = last_updated_time w.
Proof.
  assert (H : respects
    (same (fun w => (local_state w,
                     ChromeUserMetricsExtension.system_profile
                       (uma_proto (this w)),
                     locked (this w), session_id (this w),
                     last_updated_time w)))
    (RecordOmniboxOpenedURL P alog)).
  { unfold RecordOmniboxOpenedURL, OPEN_ELEMENT_FOR_SCOPE,
      WriteCommonEventAttributes, AsOmniboxEventProviderType,
      AsOmniboxEventResultType.
    repeat respects_step; respects_primitive. }
  intros w'. specialize (H w). unfold same in H. fold w' in H.
  by inversion H.
Qed.

(** ** The plugin list and the environment protobuf *)

(** X7.  The legacy pass over the plugin list.  On a report that may be
    written, [WritePluginList] with [write_as_xml] returns after it has
    attached one "plugins" element with one "plugin" child per installed
    plugin, in the order of the list.  Each child holds the hash of the
    name, the hash of the file's base name and the version as it is, and
    a "disabled" attribute exactly when plugin preferences are available.
    The protobuf and the preference store are left as they were; an empty
    list gives an empty "plugins" element. *)
Theorem plugin_list_legacy (P : Platform)
    (plugin_list : list WebPluginInfo.t) (w : World) :
  runnable P w ->
  let plugins := Elem "plugins" [] (map (legacy_plugin P) plugin_list) in
  exists w',
    WritePluginList P plugin_list true w = Done tt w' /\
    xml_open (this w') = xml_open (attach plugins (this w)) /\
    xml_closed (this w') = xml_closed (attach plugins (this w)) /\
    uma_proto (this w') = uma_proto (this w) /\
    local_state w' = local_state w /\
    (forall info,
       In info plugin_list ->
       let attrs := attributes_of (legacy_plugin P info) in
       lookup_attribute "name" attrs =
         Some (AttrString
                 (fst (CreateHashes P
                         (UTF16ToUTF8 P (WebPluginInfo.name info))))) /\
       lookup_attribute "filename" attrs =
         Some (AttrString
                 (fst (CreateHashes P
                         (BaseName P (WebPluginInfo.path info))))) /\
       lookup_attribute "version" attrs =
         Some (AttrString (UTF16ToUTF8 P (WebPluginInfo.version info))) /\
       lookup_attribute "disabled" attrs =
         (fun enabled => AttrInt (if negb (enabled info) then 1 else 0)) <$>
         GetPluginPrefs P).
Proof.
  intros Hrun plugins. eexists.
  split; [by apply WritePluginList_xml|].
  split; [done|]. split; [done|].
  split; [by destruct_world w; unfold_world; simpl; destruct xo|].
  split; [done|].
  intros info _. unfold legacy_plugin. simpl.
  by destruct (GetPluginPrefs P).
Qed.

Lemma plugin_list_legacy_witness :
  exists w',
    WritePluginList (sample_platform true false) foo_inventory true
      (sample_world scenario_prefs) = Done tt w' /\
    xml_closed (this w') =
      [Elem "plugins" []
         [Elem "plugin"
            [("name", AttrString "md5:Foo");
             ("filename", AttrString "md5:Foo.so");
             ("version", AttrString "1.0")] []]].
Proof.
  destruct (plugin_list_legacy (sample_platform true false) foo_inventory
              (sample_world scenario_prefs) (or_introl eq_refl))
    as (w' & Hdone & _ & Hclosed & _).
  exists w'. split; [exact Hdone|exact Hclosed].
Defined.

(** X8.  The protobuf pass over the plugin list.  On a report that may
    be written, [WritePluginList] without [write_as_xml] returns after it
    has appended one [Plugin] message per installed plugin, in the order
    of the list, behind the messages already there.  Each message holds
    the name, the file's base name and the version unhashed, and the
    disabled flag exactly when plugin preferences are available.  The
    pass still opens and closes its "plugins" element: the attribute tree
    gains an empty one.  The rest of the system profile, the omnibox
    events and the preference store are left as they were. *)
Theorem plugin_list_structured (P : Platform)
    (plugin_list : list WebPluginInfo.t) (w : World) :
  runnable P w ->
  exists w',
    WritePluginList P plugin_list false w = Done tt w' /\
    SystemProfileProto.plugin (system_profile_of w') =
      (SystemProfileProto.plugin (system_profile_of w) ++
       map (fun info =>
              {| Plugin.name :=
                   Some (UTF16ToUTF8 P (WebPluginInfo.name info));
                 Plugin.filename :=
                   Some (BaseName P (WebPluginInfo.path info));
                 Plugin.version :=
                   Some (UTF16ToUTF8 P (WebPluginInfo.version info));
                 Plugin.is_disabled :=
                   (fun enabled => negb (enabled info)) <$> GetPluginPrefs P |})
         plugin_list)%list /\
    xml_open (this w') = xml_open (attach (Elem "plugins" [] []) (this w)) /\
    xml_closed (this w') =
      xml_closed (attach (Elem "plugins" [] []) (this w)) /\
    (let sp := system_profile_of w in
     let sp' := system_profile_of w' in
     SystemProfileProto.install_date sp' = SystemProfileProto.install_date sp /\
     SystemProfileProto.application_locale sp' =
       SystemProfileProto.application_locale sp /\
     SystemProfileProto.hardware sp' = SystemProfileProto.hardware sp /\
     SystemProfileProto.os sp' = SystemProfileProto.os sp /\
     SystemProfileProto.field_trial sp' = SystemProfileProto.field_trial sp /\
     SystemProfileProto.stability sp' = SystemProfileProto.stability sp) /\
    ChromeUserMetricsExtension.omnibox_event (uma_proto (this w')) =
      ChromeUserMetricsExtension.omnibox_event (uma_proto (this w)) /\
    local_state w' = local_state w.
Proof.
  intros Hrun. eexists.
  split; [by apply WritePluginList_proto|].
  destruct_world w. destruct_proto up.
  unfold system_profile_of, add_plugins.
  unfold_world. simpl.
  rewrite plugins_appended. simpl.
  split.
  { destruct xo; simpl; f_equal; apply map_ext; intros info;
      unfold structured_plugin, SetPluginInfo; simpl;
      by destruct (GetPluginPrefs P). }
  by destruct xo.
Qed.

Lemma plugin_list_structured_witness :
  exists w',
    WritePluginList (sample_platform true false) foo_inventory false
      (sample_world scenario_prefs) = Done tt w' /\
    SystemProfileProto.plugin (system_profile_of w') =
      [{| Plugin.name := Some "Foo"; Plugin.filename := Some "Foo.so";
          Plugin.version := Some "1.0"; Plugin.is_disabled := None |}] /\
    xml_closed (this w') = [Elem "plugins" [] []].
Proof.
  destruct (plugin_list_structured (sample_platform true false) foo_inventory
              (sample_world scenario_prefs) (or_introl eq_refl))
    as (w' & Hdone & Hplugins & _ & Hclosed & _).
  exists w'. split; [exact Hdone|]. split; [exact Hplugins|exact Hclosed].
Defined.

(** X9.  [WriteFieldTrials] always returns.  It appends one field trial
    per identifier, in the order of the list and behind the field trials
    already recorded, and changes nothing else: not the rest of the
    system profile, not the attribute tree, not the preference store. *)
Theorem field_trials_appended_in_order (ids : list NameGroupId.t)
    (w : World) :
  exists w',
    WriteFieldTrials ids w = Done tt w' /\
    SystemProfileProto.field_trial (system_profile_of w') =
      (SystemProfileProto.field_trial (system_profile_of w) ++
       map (fun it =>
              {| FieldTrial.name_id := Some (NameGroupId.name it);
                 FieldTrial.group_id := Some (NameGroupId.group it) |}) ids)%list /\
    (let sp := system_profile_of w in
     let sp' := system_profile_of w' in
     SystemProfileProto.install_date sp' = SystemProfileProto.install_date sp /\
     SystemProfileProto.application_locale sp' =
       SystemProfileProto.application_locale sp /\
     SystemProfileProto.hardware sp' = SystemProfileProto.hardware sp /\
     SystemProfileProto.os sp' = SystemProfileProto.os sp /\
     SystemProfileProto.plugin sp' = SystemProfileProto.plugin sp /\
     SystemProfileProto.stability sp' = SystemProfileProto.stability sp) /\
    ChromeUserMetricsExtension.omnibox_event (uma_proto (this w')) =
      ChromeUserMetricsExtension.omnibox_event (uma_proto (this w)) /\
    xml_open (this w') = xml_open (this w) /\
    xml_closed (this w') = xml_closed (this w) /\
    num_events (this w') = num_events (this w) /\
    local_state w' = local_state w.
Proof.
  eexists. split; [apply WriteFieldTrials_closed_form|].
  destruct_world w. destruct_proto up. unfold system_profile_of.
  unfold_world. simpl. by rewrite field_trials_appended.
Qed.

(** X10.  [RecordEnvironmentProto], on a report that may be written and
    with an install date that parses (or without debug checks), returns
    after it has set the install date to the parsed number and the
    locale, the hardware, the operating system, the GPU and the display
    of the system profile to what the platform reports, appended the
    plugin descriptors and the field trials, and attached one empty
    "plugins" element to the attribute tree.  The DLL base is set on
    Windows only.  The stability section, the omnibox events and the
    preference store are left as they were. *)
Theorem environment_proto_recorded (P : Platform)
    (plugin_list : list WebPluginInfo.t) (w : World) :
  runnable P w ->
  dcheck_is_on P = false \/ fst (parsed_install_date P w) = true ->
  exists w',
    RecordEnvironmentProto P plugin_list w = Done tt w' /\
    (let sp := system_profile_of w in
     let sp' := system_profile_of w' in
     let hw := SystemProfileProto.hardware sp' in
     SystemProfileProto.install_date sp' =
       Some (snd (parsed_install_date P w)) /\
     SystemProfileProto.application_locale sp' =
       Some (GetApplicationLocale P) /\
     Hardware.cpu_architecture hw = Some (CPUArchitecture P) /\
     Hardware.system_ram_mb hw = Some (AmountOfPhysicalMemoryMB P) /\
     Hardware.dll_base hw =
       (if OS_WIN P then Some (wrap_uint64 (ImageBase P))
        else Hardware.dll_base (SystemProfileProto.hardware sp)) /\
     Graphics.vendor_id (Hardware.gpu hw) =
       Some (GPUInfo.vendor_id (GetGPUInfo P)) /\
     Graphics.device_id (Hardware.gpu hw) =
       Some (GPUInfo.device_id (GetGPUInfo P)) /\
     Hardware.primary_screen_width hw = Some (fst (GetScreenSize P)) /\
     Hardware.primary_screen_height hw = Some (snd (GetScreenSize P)) /\
     Hardware.screen_count hw = Some (GetScreenCount P) /\
     SystemProfileProto.os sp' =
       {| OS.name := Some (OperatingSystemName P);
          OS.version := Some (OperatingSystemVersion P) |} /\
     SystemProfileProto.plugin sp' =
       (SystemProfileProto.plugin sp ++
        map (structured_plugin P) plugin_list)%list /\
     SystemProfileProto.field_trial sp' =
       (SystemProfileProto.field_trial sp ++
        map field_trial_of (GetFieldTrialIds P))%list /\
     SystemProfileProto.stability sp' = SystemProfileProto.stability sp) /\
    ChromeUserMetricsExtension.omnibox_event (uma_proto (this w')) =
      ChromeUserMetricsExtension.omnibox_event (uma_proto (this w)) /\
    xml_open (this w') = xml_open (attach (Elem "plugins" [] []) (this w)) /\
    xml_closed (this w') =
      xml_closed (attach (Elem "plugins" [] []) (this w)) /\
    num_events (this w') = num_events (this w) /\
    local_state w' = local_state w.
Proof.
  intros Hrun Hdate. eexists.
  split; [by apply RecordEnvironmentProto_closed_form|].
  destruct_world w. destruct_proto up. unfold system_profile_of.
  unfold_world. simpl. by destruct xo.
Qed.

Lemma environment_proto_recorded_witness :
  exists w',
    RecordEnvironmentProto (sample_platform true false) foo_inventory
      (sample_world scenario_prefs) = Done tt w' /\
    SystemProfileProto.install_date (system_profile_of w') = Some 1330000000.
Proof.
  destruct (environment_proto_recorded (sample_platform true false)
              foo_inventory (sample_world scenario_prefs)
              (or_introl eq_refl) (or_intror eq_refl))
    as (w' & Hdone & (Hdate & _) & _).
  exists w'. split; [exact Hdone|exact Hdate].
Defined.

(** X11.  An install date that does not parse as an integer.  In a build
    with debug checks [RecordEnvironmentProto] stops at [DCHECK(success)]
    before it has written anything.  In a build without debug checks it
    returns, and the install date of the system profile is whatever
    number the failed conversion left behind. *)
Theorem unparsable_install_date (P : Platform)
    (plugin_list : list WebPluginInfo.t) (w : World) :
  fst (parsed_install_date P w) = false ->
  (dcheck_is_on P = true ->
   RecordEnvironmentProto P plugin_list w = Crash w) /\
  (dcheck_is_on P = false ->
   exists w',
     RecordEnvironmentProto P plugin_list w = Done tt w' /\
     SystemProfileProto.install_date (system_profile_of w') =
       Some (snd (parsed_install_date P w))).
Proof.
  intros Hfail. split; intros Hd.
  - unfold RecordEnvironmentProto, parsed_install_date in *.
    erewrite bind_Done; [|reflexivity].
    destruct (StringToInt P _) as [success d]. simpl in Hfail. subst success.
    apply bind_Crash. unfold DCHECK. by rewrite Hd.
  - eexists. split.
    + apply RecordEnvironmentProto_closed_form; [by right|by left].
    + by destruct_world w.
Qed.

Lemma unparsable_install_date_witness :
  RecordEnvironmentProto (sample_platform true false) foo_inventory
    (sample_world empty_prefs) = Crash (sample_world empty_prefs).
Proof.
  exact (proj1 (unparsable_install_date (sample_platform true false)
                  foo_inventory (sample_world empty_prefs) eq_refl) eq_refl).
Defined.

(** ** Per-profile metrics *)

(** X12.  [WriteAllProfilesMetrics], when no metric trips a debug check,
    returns after it has attached one "userprofile" element per key of
    the dictionary that starts with the profile prefix and holds a
    dictionary, in key order; a key without the prefix, and a prefixed
    key that holds anything but a dictionary, is passed over.  The
    element is identified by the rest of the key behind the prefix and
    holds one "profileparam" per string, boolean or integer metric, a
    boolean written as 1 or 0.  The protobuf and the preference store
    are left as they were: per-profile metrics exist in the legacy
    encoding only. *)
Theorem profile_metrics_elements (P : Platform)
    (all : list (string * Value)) (w : World) :
  profiles_pass P all ->
  exists w',
    WriteAllProfilesMetrics P all w = Done tt w' /\
    this w' =
      fold_left (fun lg e => attach e lg) (profile_elements all) (this w) /\
    uma_proto (this w') = uma_proto (this w) /\
    local_state w' = local_state w /\
    (forall e,
       In e (profile_elements all) <->
       exists key_name profile,
         In key_name (map fst all) /\
         String.prefix prefs.kProfilePrefix key_name = true /\
         GetWithoutPathExpansion key_name all =
           Some (DictionaryValue profile) /\
         e = Elem "userprofile"
               [("profileidhash",
                 AttrString
                   (substr (String.length prefs.kProfilePrefix) key_name))]
               (omap (profile_param profile) (map fst profile))).
Proof.
  intros Hpass. eexists.
  split; [by apply WriteAllProfilesMetrics_written|].
  split; [done|].
  split.
  { destruct_world w. simpl. generalize (profile_elements all).
    intros es. revert xc xo.
    induction es as [|e es IH]; intros xc xo; simpl; [done|].
    unfold attach at 2. simpl. destruct xo; apply IH. }
  split; [done|].
  intros e. unfold profile_elements. rewrite <- list_elem_of_In.
  rewrite list_elem_of_omap. split.
  - intros (key_name & Hkey & He). exists key_name.
    unfold profile_of_key, GetDictionaryWithoutPathExpansion in He.
    destruct (String.prefix _ key_name) eqn:Hp; [|done].
    destruct (GetWithoutPathExpansion key_name all) as [[]|] eqn:Hv;
      try done.
    simpl in He. inversion He. subst e. eexists.
    split; [by apply list_elem_of_In|]. done.
  - intros (key_name & profile & Hkey & Hp & Hv & ->).
    exists key_name. split; [by apply list_elem_of_In|].
    unfold profile_of_key, GetDictionaryWithoutPathExpansion.
    by rewrite Hp, Hv.
Qed.

Lemma profile_metrics_elements_witness :
  exists w',
    WriteAllProfilesMetrics (sample_platform true false) mixed_profiles
      (sample_world scenario_prefs) = Done tt w' /\
    xml_closed (this w') =
      [Elem "userprofile" [("profileidhash", AttrString "abc")]
         [Elem "profileparam"
            [("name", AttrString "homepage");
             ("value", AttrString "about:blank")] [];
          Elem "profileparam"
            [("name", AttrString "sync"); ("value", AttrInt 1)] []];
       Elem "userprofile" [("profileidhash", AttrString "xyz")]
         [Elem "profileparam"
            [("name", AttrString "tabs"); ("value", AttrInt 7)] []]].
Proof.
  destruct (profile_metrics_elements (sample_platform true false)
              mixed_profiles (sample_world scenario_prefs)
              (or_intror eq_refl))
    as (w' & Hdone & Hthis & _).
  exists w'. split; [exact Hdone|]. by rewrite Hthis.
Defined.

(** X13.  A metric named "id".  In a build with debug checks a profile
    that holds a metric of this name stops [WriteProfileMetrics], whatever
    the type of its value.  In a build without debug checks the metric is
    written like any other. *)
Theorem metric_named_id (P : Platform) (profileidhash : string)
    (profile : list (string * Value)) (v : Value) (w : World) :
  In "id" (map fst profile) ->
  GetWithoutPathExpansion "id" profile = Some v ->
  (dcheck_is_on P = true ->
   returned (WriteProfileMetrics P profileidhash profile w) = false) /\
  (dcheck_is_on P = false ->
   WriteProfileMetrics P profileidhash profile w =
     Done tt (with_log (attach (userprofile_element profileidhash profile)) w)
   /\
   (recognized v = true ->
    exists value,
      In (Elem "profileparam" [("name", AttrString "id"); ("value", value)] [])
         (children_of (userprofile_element profileidhash profile)))).
Proof.
  intros Hin Hv. split; intros Hd.
  - unfold WriteProfileMetrics, OPEN_ELEMENT_FOR_SCOPE.
    apply crashes_bind_r. intros _. apply crashes_bind_l.
    apply crashes_bind_r. intros _.
    eapply crashes_for_each; [exact Hin|].
    by eapply metric_named_id_stops.
  - split; [apply WriteProfileMetrics_written; by left|].
    intros Hrec. unfold userprofile_element. simpl.
    assert (exists e, profile_param profile "id" = Some e /\
              exists value, e = Elem "profileparam"
                [("name", AttrString "id"); ("value", value)] [])
      as (e & He & value & ->).
    { unfold profile_param. rewrite Hv. destruct v; try done; eauto. }
    exists value. apply list_elem_of_In, list_elem_of_omap.
    exists "id". split; [by apply list_elem_of_In|done].
Qed.

Lemma metric_named_id_witness :
  returned
    (WriteProfileMetrics (sample_platform true false) "abc" profile_with_id
       (sample_world scenario_prefs)) = false.
Proof.
  exact (proj1 (metric_named_id (sample_platform true false) "abc"
                  profile_with_id (StringValue "abc")
                  (sample_world scenario_prefs)
                  (or_intror (or_introl eq_refl)) eq_refl) eq_refl).
Defined.

(** ** The environment report *)

Lemma lookup_attribute_absent name A :
  (forall v, ~ In (name, v) A) -> lookup_attribute name A = None.
Proof.
  induction A as [|[k v] A IH]; intros H; simpl; [done|].
  destruct (String.eqb_spec k name) as [->|Hne].
  - destruct (H v). by left.
  - apply IH. intros v' Hin. apply (H v'). by right.
Qed.

Lemma profile_elements_tags all :
  map tag_of (profile_elements all) =
  map (fun _ => "userprofile") (profile_elements all).
Proof.
  apply map_ext_in. intros e He. unfold profile_elements in He.
  apply list_elem_of_In, list_elem_of_omap in He as (k & _ & Hk).
  destruct (profile_of_key all k); simpl in Hk; [|done].
  by inversion Hk.
Qed.

(** X14.  The tree of an environment report.  [RecordEnvironment], on a
    report that may be written and with inputs that trip no debug check,
    returns after it has attached exactly one "profile" element, stamped
    with the session and the time.  Its children are, in this order: the
    install element, the hashed plugin list, the stability element with
    the snapshot and the five session counters, the elements of the
    CPU, the memory, the operating system, the GPU, the display, the
    bookmarks and the keywords, one "userprofile" element per profile,
    and the empty "plugins" element that the protobuf pass leaves.  The
    counts of bookmarks and keywords are those of the preference store
    at the call.  The system profile outside its stability section is
    what [RecordEnvironmentProto] records. *)
Theorem environment_report_tree (P : Platform)
    (plugin_list : list WebPluginInfo.t)
    (profile_metrics : option (list (string * Value))) (w : World) :
  runnable P w -> plugin_pass_passes P plugin_list w ->
  metrics_pass P profile_metrics ->
  dcheck_is_on P = false \/ fst (parsed_install_date P w) = true ->
  let profile :=
    environment_profile_element P plugin_list profile_metrics w in
  exists w',
    RecordEnvironment P plugin_list profile_metrics w = Done tt w' /\
    xml_open (this w') = xml_open (attach profile (this w)) /\
    xml_closed (this w') = xml_closed (attach profile (this w)) /\
    map tag_of (children_of profile) =
      (["install"; "plugins"; "stability"; "cpu"; "memory"; "os"; "gpu";
        "display"; "bookmarks"; "keywords"] ++
       map (fun _ => "userprofile")
         match profile_metrics with
         | Some all => profile_elements all
         | None => []
         end ++ ["plugins"])%list /\
    environment_of (system_profile_of w') =
      environment_of
        (environment_proto P (snd (parsed_install_date P w)) plugin_list
           (system_profile_of w)) /\
    Stability.plugin_stability (stability_of (this w')) =
      (Stability.plugin_stability (stability_of (this w)) ++
       plugin_entries P plugin_list w)%list.
Proof.
  intros Hrun Hpass Hmetrics Hdate profile.
  destruct (RecordEnvironment_tree P plugin_list profile_metrics w
              Hrun Hpass Hmetrics Hdate)
    as (w' & Hdone & Hopen & Hclosed & Henv & Hentries & _).
  exists w'. split; [exact Hdone|]. split; [exact Hopen|].
  split; [exact Hclosed|]. split; [|split; [exact Henv|exact Hentries]].
  subst profile. unfold environment_profile_element. simpl.
  do 10 f_equal. rewrite map_app. f_equal.
  destruct profile_metrics as [all|]; [|done].
  apply profile_elements_tags.
Qed.

Lemma environment_report_tree_witness :
  exists w',
    RecordEnvironment (sample_platform true false) foo_inventory
      (Some mixed_profiles) (sample_world scenario_prefs) = Done tt w' /\
    map tag_of
      (children_of
         (environment_profile_element (sample_platform true false)
            foo_inventory (Some mixed_profiles)
            (sample_world scenario_prefs))) =
      ["install"; "plugins"; "stability"; "cpu"; "memory"; "os"; "gpu";
       "display"; "bookmarks"; "keywords"; "userprofile"; "userprofile";
       "plugins"].
Proof.
  destruct (environment_report_tree (sample_platform true false)
              foo_inventory (Some mixed_profiles)
              (sample_world scenario_prefs)
              (or_introl eq_refl) I (or_intror eq_refl) (or_intror eq_refl))
    as (w' & Hdone & _ & _ & Htags & _).
  exists w'. split; [exact Hdone|exact Htags].
Defined.

(** X15.  The two encodings of the environment.  In the report that
    [RecordEnvironment] leaves, the legacy elements and the system
    profile hold the same CPU architecture, memory size, operating
    system name and version, screen size and screen count.  The install
    date is written as the preference's string in the one and as the
    number that string parses to in the other; the GPU's vendor and
    device identifiers are written as [int] in the one and unconverted
    in the other; and the plugins that the legacy list counts are those
    that the system profile gains. *)
Theorem environment_dual_encoding (P : Platform)
    (plugin_list : list WebPluginInfo.t)
    (profile_metrics : option (list (string * Value))) (w : World) :
  runnable P w -> plugin_pass_passes P plugin_list w ->
  metrics_pass P profile_metrics ->
  dcheck_is_on P = false \/ fst (parsed_install_date P w) = true ->
  let profile :=
    environment_profile_element P plugin_list profile_metrics w in
  let text tag name := attribute_string (child_attribute tag name profile) in
  let number tag name := attribute_number (child_attribute tag name profile) in
  exists w',
    RecordEnvironment P plugin_list profile_metrics w = Done tt w' /\
    xml_open (this w') = xml_open (attach profile (this w)) /\
    xml_closed (this w') = xml_closed (attach profile (this w)) /\
    let sp := system_profile_of w' in
    let hw := SystemProfileProto.hardware sp in
    text "cpu" "arch" = Hardware.cpu_architecture hw /\
    number "memory" "mb" = Hardware.system_ram_mb hw /\
    text "os" "name" = OS.name (SystemProfileProto.os sp) /\
    text "os" "version" = OS.version (SystemProfileProto.os sp) /\
    number "display" "xsize" = Hardware.primary_screen_width hw /\
    number "display" "ysize" = Hardware.primary_screen_height hw /\
    number "display" "screens" = Hardware.screen_count hw /\
    number "gpu" "vendorid" =
      wrap_int <$> Graphics.vendor_id (Hardware.gpu hw) /\
    number "gpu" "deviceid" =
      wrap_int <$> Graphics.device_id (Hardware.gpu hw) /\
    (fun s => snd (StringToInt P s)) <$> text "install" "installdate" =
      SystemProfileProto.install_date sp /\
    SystemProfileProto.plugin sp =
      (SystemProfileProto.plugin (system_profile_of w) ++
       map (structured_plugin P) plugin_list)%list /\
    (children_of <$> find_child "plugins" profile) =
      Some (map (legacy_plugin P) plugin_list).
Proof.
  intros Hrun Hpass Hmetrics Hdate profile text number.
  destruct (RecordEnvironment_tree P plugin_list profile_metrics w
              Hrun Hpass Hmetrics Hdate)
    as (w' & Hdone & Hopen & Hclosed & Henv & Hentries & _).
  exists w'. split; [exact Hdone|]. split; [exact Hopen|].
  split; [exact Hclosed|].
  unfold environment_of, environment_proto in Henv.
  injection Henv as Hid Hloc Hhw Hos Hpl Hft.
  cbv zeta. rewrite Hid, Hhw, Hos, Hpl.
  subst profile text number. simpl. done.
Qed.

Lemma environment_dual_encoding_witness :
  exists w',
    RecordEnvironment (sample_platform true false) foo_inventory None
      (sample_world scenario_prefs) = Done tt w' /\
    Hardware.system_ram_mb
      (SystemProfileProto.hardware (system_profile_of w')) = Some 4096.
Proof.
  destruct (environment_dual_encoding (sample_platform true false)
              foo_inventory None (sample_world scenario_prefs)
              (or_introl eq_refl) I I (or_intror eq_refl))
    as (w' & Hdone & _ & _ & _ & Hmb & _).
  exists w'. split; [exact Hdone|]. by rewrite <- Hmb.
Defined.

(** X16.  The environment report consumes the stability counters.  When
    [RecordEnvironment] returns, every stability counter that a full
    snapshot consumes holds zero in the preference store, a fresh report
    shows the value it held, and the persisted plugin list is gone.  So a
    stability snapshot taken from the store right afterwards, by either
    operation, writes a launch count and a crash count of zero, none of
    the realtime counters, and no plugin records. *)
Theorem environment_report_resets_counters (P : Platform)
    (plugin_list : list WebPluginInfo.t)
    (profile_metrics : option (list (string * Value))) (w : World) :
  runnable P w -> plugin_pass_passes P plugin_list w ->
  metrics_pass P profile_metrics ->
  dcheck_is_on P = false \/ fst (parsed_install_date P w) = true ->
  exists w',
    RecordEnvironment P plugin_list profile_metrics w = Done tt w' /\
    (forall key field,
       In (key, field) (consumed P true) ->
       counter key w' = 0 /\
       (fresh_report w -> reported field w' = counter key w)) /\
    PrefService_GetList prefs.kStabilityPluginStats (local_state w') = None /\
    (forall wB,
       local_state wB = local_state w' ->
       (forall key attr field,
          In (key, attr, field) required_counters ->
          lookup_attribute attr (snapshot_attributes wB) = Some (AttrInt 0)) /\
       (forall key attr field,
          In (key, attr, field) realtime_counters ->
          lookup_attribute attr (snapshot_attributes wB) = None) /\
       plugin_children P wB = []).
Proof.
  intros Hrun Hpass Hmetrics Hdate.
  destruct (RecordEnvironment_tree P plugin_list profile_metrics w
              Hrun Hpass Hmetrics Hdate)
    as (w' & Hdone & _ & _ & _ & _ & Hconsumed & Hlist).
  exists w'. split; [exact Hdone|]. split; [exact Hconsumed|].
  split; [exact Hlist|].
  intros wB HB.
  assert (Hzero : forall key attr field,
    In (key, attr, field) (required_counters ++ realtime_counters) ->
    counter key wB = 0).
  { intros key attr field Hin. unfold counter. rewrite HB.
    apply (Hconsumed key field). unfold consumed.
    apply in_or_app. left.
    by apply (in_map key_and_field _ (key, attr, field)). }
  split; [|split].
  - intros key attr field Hin.
    rewrite (snapshot_attribute_required key attr field wB Hin).
    by rewrite (Hzero key attr field) by (apply in_or_app; by left).
  - intros key attr field Hin.
    rewrite (snapshot_attribute_realtime key attr field wB Hin).
    by rewrite (Hzero key attr field) by (apply in_or_app; by right).
  - unfold plugin_children. by rewrite HB, Hlist.
Qed.

Lemma environment_report_resets_counters_witness :
  exists w',
    RecordEnvironment (sample_platform true true) foo_inventory None
      (sample_world scenario_prefs) = Done tt w' /\
    counter prefs.kStabilityLaunchCount w' = 0 /\
    reported "launch_count" w' = 3.
Proof.
  destruct (environment_report_resets_counters (sample_platform true true)
              foo_inventory None (sample_world scenario_prefs)
              (or_introl eq_refl) I I (or_intror eq_refl))
    as (w' & Hdone & Hconsumed & _).
  destruct (Hconsumed prefs.kStabilityLaunchCount "launch_count"
              (or_introl eq_refl)) as [Hzero Hreported].
  exists w'. split; [exact Hdone|]. split; [exact Hzero|].
  exact (Hreported (fun field => lookup_empty field)).
Defined.

(** ** The stability element and the counters around it *)

Section KeepsOtherCounters.
Context (P : Platform) (plugin_list : list WebPluginInfo.t).

Lemma RecordIncrementalStabilityElements_stops w :
  dcheck_is_on P && negb (negb (locked (this w))) = true ->
  RecordIncrementalStabilityElements P plugin_list w = Crash w.
Proof.
  intros H. unfold RecordIncrementalStabilityElements.
  erewrite bind_Done; [|reflexivity].
  apply bind_Crash. unfold DCHECK. by rewrite H.
Qed.

Lemma not_stopped_runnable w :
  dcheck_is_on P && negb (negb (locked (this w))) = false -> runnable P w.
Proof.
  intros E. unfold runnable. destruct (dcheck_is_on P); [left|by right].
  simpl in E. by destruct (locked (this w)).
Qed.

Lemma WriteStabilityElement_respects_counter key :
  is_stability_key key = false -> key <> prefs.kStabilityPluginStats ->
  respects (same (counter key)) (WriteStabilityElement P plugin_list).
Proof.
  intros Hkey Hne w.
  by apply WriteStabilityElement_keeps_other_counters.
Qed.

Lemma RecordIncrementalStabilityElements_respects_counter key :
  is_stability_key key = false -> key <> prefs.kStabilityPluginStats ->
  respects (same (counter key))
    (RecordIncrementalStabilityElements P plugin_list).
Proof.
  intros Hkey Hne w. unfold same.
  destruct (dcheck_is_on P && negb (negb (locked (this w)))) eqn:E.
  - by rewrite RecordIncrementalStabilityElements_stops.
  - rewrite (proj1 (RecordIncrementalStabilityElements_observed P plugin_list
                      w key "launch_count" (not_stopped_runnable w E) Hne)).
    rewrite snapshot_keeps_other_counters by done.
    apply incremental_prefix_frame. exact "launch_count".
Qed.

Lemma RecordEnvironment_respects_counter profile_metrics key :
  is_stability_key key = false -> key <> prefs.kStabilityPluginStats ->
  respects (same (counter key))
    (RecordEnvironment P plugin_list profile_metrics).
Proof.
  intros Hkey Hne.
  unfold RecordEnvironment, OPEN_ELEMENT_FOR_SCOPE,
    WriteCommonEventAttributes, WriteInstallElement, GetInstallDate,
    WritePluginList, WriteAllProfilesMetrics, WriteProfileMetrics,
    WriteProfileMetrics_iteration, RecordEnvironmentProto, WriteFieldTrials,
    OPEN_ELEMENT_FOR_SCOPE.
  repeat first [by apply WriteStabilityElement_respects_counter
               |respects_step];
    respects_primitive.
Qed.

Lemma report_respects_events profile_metrics :
  let events w :=
    (ChromeUserMetricsExtension.omnibox_event (uma_proto (this w)),
     num_events (this w), locked (this w), session_id (this w)) in
  respects (same events) (RecordEnvironment P plugin_list profile_metrics) /\
  respects (same events) (RecordIncrementalStabilityElements P plugin_list).
Proof.
  intros events. subst events. split.
  - unfold RecordEnvironment, WriteStabilityElement,
      WriteRequiredStabilityAttributes, WriteRealtimeStabilityAttributes,
      GetIncrementalUptime, WritePluginStabilityElements,
      WritePluginStabilityElements_iteration, OPEN_ELEMENT_FOR_SCOPE,
      WriteCommonEventAttributes, WriteInstallElement, GetInstallDate,
      WritePluginList, WriteAllProfilesMetrics, WriteProfileMetrics,
      WriteProfileMetrics_iteration, RecordEnvironmentProto,
      WriteFieldTrials, OPEN_ELEMENT_FOR_SCOPE.
    repeat respects_step; respects_primitive.
  - unfold RecordIncrementalStabilityElements,
      WriteRequiredStabilityAttributes, WriteRealtimeStabilityAttributes,
      GetIncrementalUptime, WritePluginStabilityElements,
      WritePluginStabilityElements_iteration, OPEN_ELEMENT_FOR_SCOPE,
      WriteCommonEventAttributes, WriteInstallElement, GetInstallDate.
    repeat respects_step; respects_primitive.
Qed.
End KeepsOtherCounters.

(** X17.  The session counters of the full stability element.
    [WriteStabilityElement], on a report that may be written and with
    plugin records that trip no debug check, returns after it has
    attached one "stability" element.  Each of the five session counters
    (incomplete shutdowns, breakpad registrations that succeeded and
    failed, launches with and without a debugger) is in it as an
    attribute and in the protobuf as a field, with the value that the
    preference store held, also when that value is zero; and the store
    holds zero for it afterwards. *)
Theorem session_counters_always_written (P : Platform)
    (plugin_list : list WebPluginInfo.t) (key attr field : string)
    (w : World) :
  In (key, attr, field) session_counters ->
  runnable P w -> plugin_pass_passes P plugin_list w ->
  let stability := full_stability_element P w in
  exists w',
    WriteStabilityElement P plugin_list w = Done tt w' /\
    xml_open (this w') = xml_open (attach stability (this w)) /\
    xml_closed (this w') = xml_closed (attach stability (this w)) /\
    lookup_attribute attr (attributes_of stability) =
      Some (AttrInt (counter key w)) /\
    stability_field field w' = Some (counter key w) /\
    counter key w' = 0.
Proof.
  intros Hin Hrun Hpass stability.
  destruct (WriteStabilityElement_tree P plugin_list w Hrun Hpass)
    as (w' & Hdone & Hopen & Hclosed & _).
  exists w'. split; [exact Hdone|]. split; [exact Hopen|].
  split; [exact Hclosed|].
  assert (Hne : key <> prefs.kStabilityPluginStats) by (by each_counter Hin).
  pose proof (WriteStabilityElement_observed P plugin_list w key field
                Hrun Hne) as Hobs.
  rewrite Hdone in Hobs. simpl in Hobs. destruct Hobs as [Hc Hf].
  destruct (session_step_resets key attr field
              (snapshot_result P (enter_stability w)) Hin)
    as (Hzero & Hfield & Hattr).
  rewrite (snapshot_keeps_session_counters P key attr field) in Hfield, Hattr
    by done.
  rewrite session_attributes_after_snapshot in Hattr.
  split; [|split].
  - subst stability. unfold full_stability_element, attributes_of.
    rewrite lookup_attribute_app, lookup_attribute_absent; [exact Hattr|].
    intros v Hv. apply snapshot_attribute_names_complete in Hv.
    by each_counter Hin; simpl in Hv; intuition discriminate.
  - by rewrite Hf, Hfield.
  - by rewrite Hc.
Qed.

Lemma session_counters_always_written_witness :
  exists w',
    WriteStabilityElement (sample_platform true false) foo_inventory
      (sample_world scenario_prefs) = Done tt w' /\
    stability_field "debugger_present_count" w' = Some 0.
Proof.
  destruct (session_counters_always_written (sample_platform true false)
              foo_inventory prefs.kStabilityDebuggerPresent "debuggerpresent"
              "debugger_present_count" (sample_world scenario_prefs)
              (or_intror (or_intror (or_intror (or_introl eq_refl))))
              (or_introl eq_refl) I)
    as (w' & Hdone & _ & _ & _ & Hfield & _).
  exists w'. split; [exact Hdone|exact Hfield].
Defined.

(** X18.  What the two report operations never touch.  Whether
    [RecordEnvironment] and [RecordIncrementalStabilityElements] return
    or stop at a failed check, the omnibox events, the event counter, the
    lock and the session are as they were; and every integer preference
    that is not one of the fifteen stability counters (the bookmark and
    keyword counts among them) still holds its value: these operations
    read such preferences and never reset them. *)
Theorem report_operations_frame (P : Platform)
    (plugin_list : list WebPluginInfo.t)
    (profile_metrics : option (list (string * Value))) (w : World) :
  let wE := final_world (RecordEnvironment P plugin_list profile_metrics w) in
  let wI :=
    final_world (RecordIncrementalStabilityElements P plugin_list w) in
  let events w :=
    (ChromeUserMetricsExtension.omnibox_event (uma_proto (this w)),
     num_events (this w), locked (this w), session_id (this w)) in
  events wE = events w /\
  events wI = events w /\
  (forall key,
     is_stability_key key = false -> key <> prefs.kStabilityPluginStats ->
     counter key wE = counter key w /\ counter key wI = counter key w).
Proof.
  intros wE wI events.
  destruct (report_respects_events P plugin_list profile_metrics) as [HE HI].
  split; [apply HE|]. split; [apply HI|].
  intros key Hkey Hne. split.
  - by apply RecordEnvironment_respects_counter.
  - by apply RecordIncrementalStabilityElements_respects_counter.
Qed.

(** ** The uptime over several calls *)

Lemma InSeconds_subsecond d : 0 <= d < 1000000 -> InSeconds d = 0.
Proof. intros H. unfold InSeconds. apply Z.quot_small. lia. Qed.

Lemma GetIncrementalUptime_subsecond w t0 :
  last_updated_time w = Some t0 ->
  0 <= TimeTicks_Now w - t0 < 1000000 ->
  GetIncrementalUptime w =
  Done 0 (with_last_updated_time (TimeTicks_Now w) w).
Proof.
  intros Hlast Hd.
  unfold GetIncrementalUptime, gets, modify, when, mbind, M_bind, bind,
    mret, M_ret, ret.
  rewrite Hlast. simpl.
  rewrite wrap_int64_in_range by (unfold in_int64; lia).
  by rewrite InSeconds_subsecond.
Qed.

(** X19.  Intervals shorter than a second are lost to the uptime.  A
    call of [GetIncrementalUptime] less than a second after the
    checkpoint returns zero and leaves the preference store as it was,
    yet it moves the checkpoint to now.  So a second call, again less
    than a second later, returns zero as well, although more than a
    second may have passed since the first checkpoint: the uptime
    preference has not grown. *)
Theorem uptime_drops_subsecond_intervals (w : World) (t0 t2 : Z) :
  last_updated_time w = Some t0 ->
  0 <= TimeTicks_Now w - t0 < 1000000 ->
  0 <= t2 - TimeTicks_Now w < 1000000 ->
  exists w1 w2,
    GetIncrementalUptime w = Done 0 w1 /\
    GetIncrementalUptime (at_time t2 w1) = Done 0 w2 /\
    last_updated_time w1 = Some (TimeTicks_Now w) /\
    last_updated_time w2 = Some t2 /\
    local_state w2 = local_state w /\
    this w2 = this w.
Proof.
  intros Hlast H1 H2. eexists. eexists.
  split; [by eapply GetIncrementalUptime_subsecond|].
  split; [by eapply GetIncrementalUptime_subsecond|].
  done.
Qed.

Lemma uptime_drops_subsecond_intervals_witness :
  exists w1 w2,
    GetIncrementalUptime soon_world = Done 0 w1 /\
    GetIncrementalUptime (at_time 2200000 w1) = Done 0 w2 /\
    local_state w2 = scenario_prefs.
Proof.
  assert (H1 : 0 <= 1600000 - 1000000 < 1000000) by lia.
  assert (H2 : 0 <= 2200000 - 1600000 < 1000000) by lia.
  destruct (uptime_drops_subsecond_intervals soon_world 1000000 2200000
              eq_refl H1 H2)
    as (w1 & w2 & Hr1 & Hr2 & _ & _ & Hstate & _).
  exists w1, w2. split; [exact Hr1|]. split; [exact Hr2|exact Hstate].
Defined.

(** ** The plugin pass on unusual lists *)

(** X20.  The scan of the inventory.  [find_plugin_info] returns the
    first item of the list whose name is exactly the name looked for: the
    items before it do not have the name, and the items behind it are
    never looked at, also when they have it.  The scan finds nothing
    exactly when no item has the name. *)
Theorem first_matching_plugin_wins (name : string16)
    (plugin_list : list WebPluginInfo.t) :
  (forall before info behind,
     plugin_list = (before ++ info :: behind)%list ->
     WebPluginInfo.name info = name ->
     Forall (fun x => WebPluginInfo.name x <> name) before ->
     find_plugin_info name plugin_list = Some info) /\
  (find_plugin_info name plugin_list = None <->
   Forall (fun x => WebPluginInfo.name x <> name) plugin_list) /\
  (forall info,
     find_plugin_info name plugin_list = Some info ->
     In info plugin_list /\ WebPluginInfo.name info = name).
Proof.
  unfold find_plugin_info, string16_eqb. split; [|split].
  - intros before info behind -> Hname Hbefore.
    induction Hbefore as [|x before Hx Hbefore IH]; simpl.
    + by rewrite bool_decide_eq_true_2.
    + by rewrite bool_decide_eq_false_2.
  - split.
    + intros Hnone. apply Forall_forall. intros x Hx Hname.
      apply list_elem_of_In in Hx.
      pose proof (find_none _ _ Hnone x Hx) as E. simpl in E.
      by rewrite bool_decide_eq_true_2 in E.
    + intros Hall. induction Hall as [|x l Hx Hall IH]; simpl; [done|].
      by rewrite bool_decide_eq_false_2.
  - intros info Hfind. apply find_some in Hfind as [Hin E].
    split; [done|]. by apply bool_decide_eq_true in E.
Qed.

Lemma omap_length_le {A B : Type} (f : A -> option B) (l : list A) :
  (length (omap f l) <= length l)%nat.
Proof.
  induction l as [|x l IH]; [done|].
  change (omap f (x :: l)) with
    (match f x with Some y => y :: omap f l | None => omap f l end).
  destruct (f x); simpl; lia.
Qed.

Lemma omap_length_lt {A B : Type} (f : A -> option B) (l : list A) x :
  In x l -> f x = None -> (length (omap f l) < length l)%nat.
Proof.
  intros Hin Hx. induction l as [|y l IH]; [done|].
  change (omap f (y :: l)) with
    (match f y with Some z => z :: omap f l | None => omap f l end).
  pose proof (omap_length_le f l).
  destruct Hin as [->|Hin].
  - rewrite Hx. simpl. lia.
  - specialize (IH Hin). destruct (f y); simpl; lia.
Qed.

Section MalformedRecords.
Context (P : Platform) (plugin_list : list WebPluginInfo.t).

Lemma non_dictionary_stops v :
  dcheck_is_on P = true -> as_dictionary v = None ->
  crashes
    (WritePluginStabilityElements_iteration P plugin_list (GetPluginPrefs P) v).
Proof.
  intros Hd Hv w. unfold WritePluginStabilityElements_iteration.
  destruct v; try done; unfold NOTREACHED, DCHECK; by rewrite Hd.
Qed.

Lemma dictionaries_of_dictionaries stats :
  dictionaries (map DictionaryValue (dictionaries stats)) = dictionaries stats.
Proof.
  unfold dictionaries. generalize (omap as_dictionary stats). intros l.
  induction l as [|d l IH]; [done|]. simpl. by f_equal.
Qed.
End MalformedRecords.

(** X21.  Entries of the persisted list that are no dictionaries.  In a
    build with debug checks such an entry stops the plugin pass.  In a
    build without debug checks the entry is passed over: the pass
    returns, and the world it leaves is the one it would leave had the
    list held the dictionaries only. *)
Theorem non_dictionary_records (P : Platform)
    (plugin_list : list WebPluginInfo.t) (stats : list Value) (v : Value)
    (w : World) :
  PrefService_GetList prefs.kStabilityPluginStats (local_state w) = Some stats ->
  In v stats -> as_dictionary v = None ->
  (dcheck_is_on P = true ->
   returned (WritePluginStabilityElements P plugin_list w) = false) /\
  (dcheck_is_on P = false ->
   WritePluginStabilityElements P plugin_list w =
     Done tt (plugin_pass_result P plugin_list stats w) /\
   plugin_pass_result P plugin_list stats w =
     plugin_pass_result P plugin_list
       (map DictionaryValue (dictionaries stats)) w /\
   length (dictionaries stats) < length stats)%nat.
Proof.
  intros Hlist Hin Hv. split; intros Hd.
  - unfold WritePluginStabilityElements.
    erewrite bind_Done; [|unfold GetList, gets; by rewrite Hlist].
    unfold OPEN_ELEMENT_FOR_SCOPE.
    apply crashes_bind_r. intros _. apply crashes_bind_l, crashes_bind_l.
    eapply crashes_for_each; [exact Hin|].
    by apply non_dictionary_stops.
  - split; [|split].
    + apply plugin_pass_closed_form; [done|].
      by apply passes_when_dchecks_off.
    + unfold plugin_pass_result. by rewrite dictionaries_of_dictionaries.
    + by eapply omap_length_lt.
Qed.

Lemma non_dictionary_records_witness :
  returned
    (WritePluginStabilityElements (sample_platform true false) foo_inventory
       malformed_world) = false.
Proof.
  exact (proj1 (non_dictionary_records (sample_platform true false)
                  foo_inventory malformed_stats (IntegerValue 7)
                  malformed_world eq_refl (or_introl eq_refl) eq_refl)
           eq_refl).
Defined.

(** ** The version string *)

Lemma string_app_nil_r (s : string) : s ++ "" = s.
Proof.
  induction s as [|c s IH]; [done|].
  change (String c s ++ "") with (String c (s ++ "")). by rewrite IH.
Qed.

Lemma string_app_assoc (a b c : string) : (a ++ b) ++ c = a ++ b ++ c.
Proof.
  induction a as [|x a IH]; [done|].
  change ((String x a ++ b) ++ c) with (String x ((a ++ b) ++ c)).
  by rewrite IH.
Qed.

Lemma string_length_app (a b : string) :
  String.length (a ++ b) = (String.length a + String.length b)%nat.
Proof.
  induction a as [|x a IH]; [done|].
  change (String.length (String x a ++ b))
    with (S (String.length (a ++ b))).
  rewrite IH. done.
Qed.

(** X22.  [GetVersionString] with valid version information always
    returns, without changing the world: the version, then the version
    extension, then "-devel" unless the build is official.  So the
    result starts with the version, and it is the version itself exactly
    when the extension is empty and the build is official.  Invalid
    version information reaches [NOTREACHED]: a build with debug checks
    stops, a build without returns the empty string.  The extension read
    is the one last set. *)
Theorem version_string_shape (P : Platform) (version_info : VersionInfo.t)
    (g extension : string) (w : World) :
  (VersionInfo.is_valid version_info = true ->
   let suffix :=
     if VersionInfo.IsOfficialBuild version_info then "" else "-devel" in
   GetVersionString P version_info g w =
     Done (VersionInfo.Version version_info ++ g ++ suffix) w /\
   (VersionInfo.Version version_info ++ g ++ suffix =
      VersionInfo.Version version_info <->
    g = "" /\ VersionInfo.IsOfficialBuild version_info = true)) /\
  (VersionInfo.is_valid version_info = false ->
   GetVersionString P version_info g w =
     if dcheck_is_on P then Crash w else Done "" w) /\
  version_extension (set_version_extension extension g) = extension.
Proof.
  split; [|split; [|done]].
  - intros Hvalid suffix. unfold GetVersionString, version_extension.
    rewrite Hvalid. simpl. split.
    + subst suffix. destruct (String.eqb_spec g "") as [->|Hne]; simpl;
        destruct (VersionInfo.IsOfficialBuild version_info); simpl;
        unfold ret; f_equal;
        rewrite ?string_app_nil_r, ?string_app_assoc; done.
    + subst suffix. split.
      * intros E.
        assert (Hlen : String.length (g ++
                  (if VersionInfo.IsOfficialBuild version_info
                   then "" else "-devel")) = 0%nat).
        { apply (f_equal String.length) in E.
          rewrite !string_length_app in E. rewrite string_length_app. lia. }
        rewrite string_length_app in Hlen.
        destruct g; [|simpl in Hlen; lia].
        by destruct (VersionInfo.IsOfficialBuild version_info).
      * intros [-> ->]. by rewrite string_app_nil_r.
  - intros Hvalid. unfold GetVersionString. rewrite Hvalid. simpl.
    unfold NOTREACHED, DCHECK, mbind, M_bind, bind.
    by destruct (dcheck_is_on P).
Qed.
